(** * MyCare (AFib Care): the daily-record store and its derived views

    A shallow embedding of [src/src/App.jsx].  The program is a React
    component over dynamically typed JavaScript values, so the embedding has
    two layers:

    - the language layer: JavaScript values, numbers (IEEE 754 binary64, as
      the Standard Library's [spec_float]), property access, object spread,
      [Number], [String], [Array.prototype.join], [Array.prototype.sort],
      [JSON.parse], [JSON.stringify] and the part of [Date] the program
      uses;
    - the program layer: [defaultEntry], [loadEntries], [saveEntries],
      [updateEntry], [resetToday], [daysData], [dangerFlags], [warnFlags],
      [exportCSV] and [fillDemo], each written after its source; then the
      views and the handlers of the component, and the cache worker of
      [src/public/sw.js].

    Code that can throw returns a [result]; the component's state and the
    browser storage are passed explicitly. *)

From Stdlib Require Import ZArith NArith List String Ascii Bool Lia.
From Stdlib Require Import Sorted Permutation OrderedTypeEx.
From Stdlib Require Import Floats.SpecFloat.
Import ListNotations.

Local Open Scope string_scope.
Local Open Scope list_scope.

(* ================================================================== *)
(** ** Results: a value or a thrown exception *)

Inductive error : Type :=
| TypeError
| SyntaxError
| RangeError.

Inductive result (A : Type) : Type :=
| Ok (a : A)
| Throw (e : error).

Arguments Ok {A} a.
Arguments Throw {A} e.

Definition bind {A B : Type} (r : result A) (k : A -> result B) : result B :=
  match r with
  | Ok a => k a
  | Throw e => Throw e
  end.

Notation "x <- r ;; k" := (bind r (fun x => k))
  (at level 61, r at next level, right associativity).

(** [try { body } catch (e) { handler }] *)
Definition try_catch {A : Type} (body : result A) (handler : error -> result A)
  : result A :=
  match body with
  | Ok a => Ok a
  | Throw e => handler e
  end.

Fixpoint mapM {A B : Type} (f : A -> result B) (l : list A) : result (list B) :=
  match l with
  | [] => Ok []
  | x :: l' => y <- f x ;; ys <- mapM f l' ;; Ok (y :: ys)
  end.

(* ================================================================== *)
(** ** Numbers: IEEE 754 binary64 *)

Module Num.

Definition num : Type := spec_float.

Definition prec : Z := 53.
Definition emax : Z := 1024.

Definition nan : num := S754_nan.
Definition zero : num := S754_zero false.
Definition infinity (neg : bool) : num := S754_infinity neg.

(** The number an integer literal denotes. *)
Definition of_Z (z : Z) : num := binary_normalize prec emax z 0 false.

(** The number nearest to [m * 10^e] (ties to even), negated when [neg]:
    the value of the decimal literal with digits [m] and exponent [e]. *)
Definition of_decimal (neg : bool) (m : N) (e : Z) : num :=
  match m with
  | N0 => S754_zero neg
  | Npos p =>
      if (0 <=? e)%Z
      then binary_round prec emax neg (p * Z.to_pos (10 ^ e)) 0
      else SFdiv prec emax (S754_finite neg p 0)
                           (S754_finite false (Z.to_pos (10 ^ (- e))) 0)
  end.

Definition add : num -> num -> num := SFadd prec emax.
Definition sub : num -> num -> num := SFsub prec emax.
Definition mul : num -> num -> num := SFmul prec emax.
Definition div : num -> num -> num := SFdiv prec emax.

(** [x < y] and [x > y]; both are false when an operand is NaN. *)
Definition lt (x y : num) : bool := SFltb x y.
Definition gt (x y : num) : bool := SFltb y x.

(** ToBoolean on a number: [+0], [-0] and NaN are falsy. *)
Definition truthy (x : num) : bool :=
  match x with
  | S754_zero _ | S754_nan => false
  | _ => true
  end.

Definition eqb (x y : num) : bool :=
  match x, y with
  | S754_zero a, S754_zero b => Bool.eqb a b
  | S754_infinity a, S754_infinity b => Bool.eqb a b
  | S754_nan, S754_nan => true
  | S754_finite a m e, S754_finite b m' e' =>
      Bool.eqb a b && Pos.eqb m m' && Z.eqb e e'
  | _, _ => false
  end.

(** [Math.round]: the integer nearest to [x], ties towards +infinity;
    [-0] for [x] in [[-0.5, -0]]. *)
Definition round (x : num) : num :=
  match x with
  | S754_finite s m e =>
      if (0 <=? e)%Z then x
      else
        let d := (2 ^ (- e))%Z in
        let v := if s then (- Z.pos m)%Z else Z.pos m in
        (* floor (v/d + 1/2) *)
        let n := ((2 * v + d) / (2 * d))%Z in
        binary_normalize prec emax n 0 s
  | _ => x
  end.

(** *** Number::toString (radix 10) *)

Definition digit_char (d : Z) : ascii := ascii_of_N (48 + Z.to_N d).

Fixpoint digits_rev (fuel : nat) (z : Z) : list ascii :=
  match fuel with
  | O => []
  | S f =>
      if (z <? 10)%Z then [digit_char z]
      else digit_char (z mod 10) :: digits_rev f (z / 10)
  end.

(** The decimal digits of a non-negative integer. *)
Definition digits_of (z : Z) : list ascii :=
  rev (digits_rev (S (Z.to_nat (Z.log2 z))) z).

Definition string_of_Z (z : Z) : string :=
  if (z <? 0)%Z then String "-" (string_of_list_ascii (digits_of (- z)))
  else string_of_list_ascii (digits_of z).

(** [N/D >= 10^n] *)
Definition ge_pow10 (N D n : Z) : bool :=
  if (0 <=? n)%Z then (D * 10 ^ n <=? N)%Z else (D <=? N * 10 ^ (- n))%Z.

(** The [n] with [10^(n-1) <= N/D < 10^n], searched from an estimate. *)
Fixpoint find_n (fuel : nat) (N D n : Z) : Z :=
  match fuel with
  | O => n
  | S f =>
      if negb (ge_pow10 N D (n - 1)) then find_n f N D (n - 1)
      else if ge_pow10 N D n then find_n f N D (n + 1)
      else n
  end.

(** The shortest digit string [s] of [k] digits, [k] from [k0] upwards, with
    [s * 10^(n-k)] rounding to [x = N/D]; of two candidates the one nearer
    to [x], the even one on a tie. *)
Fixpoint shortest (fuel : nat) (x : num) (N D n k : Z) : Z * Z :=
  let sc := (k - n)%Z in
  let N' := if (0 <=? sc)%Z then (N * 10 ^ sc)%Z else N in
  let D' := if (0 <=? sc)%Z then D else (D * 10 ^ (- sc))%Z in
  let lo := (N' / D')%Z in
  let hi := (lo + 1)%Z in
  let r := (N' mod D')%Z in
  let ok_lo := eqb (of_decimal false (Z.to_N lo) (n - k)) x in
  let ok_hi := eqb (of_decimal false (Z.to_N hi) (n - k)) x in
  let pick :=
    if ok_lo && ok_hi
    then Some (match (2 * r ?= D')%Z with
               | Lt => lo
               | Gt => hi
               | Eq => if Z.even lo then lo else hi
               end)
    else if ok_lo then Some lo
    else if ok_hi then Some hi
    else None in
  match pick, fuel with
  | Some s, _ => (s, k)
  | None, O => (lo, k)
  | None, S f => shortest f x N D n (k + 1)
  end.

Definition zeros (n : Z) : list ascii := repeat "0"%char (Z.to_nat n).

Definition format (s k n : Z) : string :=
  let ds := digits_of s in
  string_of_list_ascii
    (if ((k <=? n) && (n <=? 21))%Z then ds ++ zeros (n - k)
     else if ((0 <? n) && (n <=? 21))%Z
     then firstn (Z.to_nat n) ds ++ "."%char :: skipn (Z.to_nat n) ds
     else if ((-6 <? n) && (n <=? 0))%Z
     then "0"%char :: "."%char :: zeros (- n) ++ ds
     else
       let e := (n - 1)%Z in
       let sign := if (e <? 0)%Z then "-"%char else "+"%char in
       let ex := "e"%char :: sign :: digits_of (Z.abs e) in
       match ds with
       | [d] => d :: ex
       | d :: more => d :: "."%char :: more ++ ex
       | [] => ex
       end).

Definition to_string (x : num) : string :=
  match x with
  | S754_nan => "NaN"
  | S754_zero _ => "0"
  | S754_infinity s => if s then "-Infinity" else "Infinity"
  | S754_finite s m e =>
      let N := if (0 <=? e)%Z then (Z.pos m * 2 ^ e)%Z else Z.pos m in
      let D := if (0 <=? e)%Z then 1%Z else (2 ^ (- e))%Z in
      let bits := (Z.pos (digits2_pos m) + e)%Z in
      let n := find_n 8 N D (bits * 1233 / 4096) in
      let '(s0, k0) := shortest 16 (S754_finite false m e) N D n 1 in
      (* s0 = 10^k0 stands for the digit 1 one place higher *)
      let '(s1, n1) :=
        if (s0 =? 10 ^ k0)%Z then ((10 ^ (k0 - 1))%Z, (n + 1)%Z) else (s0, n) in
      let body := format s1 k0 n1 in
      if s then String "-" body else body
  end.

End Num.

(* ================================================================== *)
(** ** Strings

    A string is a Standard Library [string].  The texts the program
    inspects (dates, numerals, notes) are handled character by character;
    characters outside ASCII are carried as their UTF-8 bytes.  [slice]
    and [slice_to] count these bytes, where JavaScript counts UTF-16 code
    units: the two agree on ASCII text, which the ISO dates are. *)

Module Str.

Definition chars : string -> list ascii := list_ascii_of_string.
Definition of_chars : list ascii -> string := string_of_list_ascii.

(** [s.slice(n)] for [n >= 0]: the characters from index [n] onward. *)
Definition slice (n : nat) (s : string) : string :=
  of_chars (skipn n (chars s)).

(** [s.slice(0, n)] *)
Definition slice_to (n : nat) (s : string) : string :=
  of_chars (firstn n (chars s)).

(** [s.replace(/\n/g, " ")]: every line feed becomes one space. *)
Definition LF : ascii := ascii_of_nat 10.

Definition replace_newlines (s : string) : string :=
  of_chars (map (fun c => if Ascii.eqb c LF then " "%char else c) (chars s)).

Fixpoint strip_prefix (p l : list ascii) : option (list ascii) :=
  match p, l with
  | [], _ => Some l
  | a :: p', b :: l' => if Ascii.eqb a b then strip_prefix p' l' else None
  | _ :: _, [] => None
  end.

Definition bytes (l : list nat) : list ascii := map ascii_of_nat l.

(** StrWhiteSpaceChar: WhiteSpace and LineTerminator, in UTF-8. *)
Definition white_space : list (list ascii) :=
  map bytes
    [ [9]; [10]; [11]; [12]; [13]; [32];
      [194; 160];
      [225; 154; 128];
      [226; 128; 128]; [226; 128; 129]; [226; 128; 130]; [226; 128; 131];
      [226; 128; 132]; [226; 128; 133]; [226; 128; 134]; [226; 128; 135];
      [226; 128; 136]; [226; 128; 137]; [226; 128; 138];
      [226; 128; 168]; [226; 128; 169]; [226; 128; 175];
      [226; 129; 159];
      [227; 128; 128];
      [239; 187; 191] ].

Fixpoint first_some {A B : Type} (f : A -> option B) (l : list A) : option B :=
  match l with
  | [] => None
  | x :: l' => match f x with Some y => Some y | None => first_some f l' end
  end.

Fixpoint trim_start_with (ws : list (list ascii)) (fuel : nat) (l : list ascii)
  : list ascii :=
  match fuel with
  | O => l
  | S f =>
      match first_some (fun w => strip_prefix w l) ws with
      | Some rest => trim_start_with ws f rest
      | None => l
      end
  end.

Definition trim_start (l : list ascii) : list ascii :=
  trim_start_with white_space (List.length l) l.

Definition trim_end (l : list ascii) : list ascii :=
  rev (trim_start_with (map (@rev ascii) white_space) (List.length l) (rev l)).

Definition trim (l : list ascii) : list ascii := trim_end (trim_start l).

(** *** StringToNumber *)

Definition digit (base : N) (c : ascii) : option N :=
  let n := N_of_ascii c in
  let v :=
    if ((48 <=? n) && (n <=? 57))%N then Some (n - 48)%N
    else if ((97 <=? n) && (n <=? 102))%N then Some (n - 87)%N
    else if ((65 <=? n) && (n <=? 70))%N then Some (n - 55)%N
    else None in
  match v with
  | Some d => if (d <? base)%N then Some d else None
  | None => None
  end.

(** The longest run of digits at the front of [l]: its value, its length,
    and what follows. *)
Fixpoint take_digits (base : N) (acc : N) (len : nat) (l : list ascii)
  : N * nat * list ascii :=
  match l with
  | c :: l' =>
      match digit base c with
      | Some d => take_digits base (acc * base + d)%N (S len) l'
      | None => (acc, len, l)
      end
  | [] => (acc, len, [])
  end.

(** NonDecimalIntegerLiteral after its prefix: one digit or more, and
    nothing else. *)
Definition radix_literal (base : N) (l : list ascii) : Num.num :=
  match take_digits base 0 0 l with
  | (v, S _, []) => Num.of_decimal false v 0
  | _ => Num.nan
  end.

(** ExponentPart, or nothing: the exponent, when the whole rest is used. *)
Definition exponent_part (l : list ascii) : option Z :=
  match l with
  | [] => Some 0%Z
  | c :: l' =>
      if Ascii.eqb c "e" || Ascii.eqb c "E" then
        let '(neg, l'') :=
          match l' with
          | s :: r =>
              if Ascii.eqb s "-" then (true, r)
              else if Ascii.eqb s "+" then (false, r)
              else (false, l')
          | [] => (false, l')
          end in
        match take_digits 10 0 0 l'' with
        | (v, S _, []) => Some (if neg then (- Z.of_N v)%Z else Z.of_N v)
        | _ => None
        end
      else None
  end.

(** StrUnsignedDecimalLiteral (without [Infinity]). *)
Definition unsigned_decimal (neg : bool) (l : list ascii) : Num.num :=
  let '(ip, ilen, r1) := take_digits 10 0 0 l in
  let '(m, flen, r2) :=
    match r1 with
    | c :: r =>
        if Ascii.eqb c "."
        then let '(m, flen, r2) := take_digits 10 ip 0 r in (m, flen, r2)
        else (ip, O, r1)
    | [] => (ip, O, r1)
    end in
  match ilen, flen with
  | O, O => Num.nan
  | _, _ =>
      match exponent_part r2 with
      | Some e => Num.of_decimal neg m (e - Z.of_nat flen)
      | None => Num.nan
      end
  end.

Definition str_decimal (l : list ascii) : Num.num :=
  let '(neg, r) :=
    match l with
    | c :: r =>
        if Ascii.eqb c "-" then (true, r)
        else if Ascii.eqb c "+" then (false, r)
        else (false, l)
    | [] => (false, l)
    end in
  if list_eq_dec ascii_dec r (chars "Infinity") then Num.infinity neg
  else unsigned_decimal neg r.

(** [Number(s)] on a string. *)
Definition to_number (s : string) : Num.num :=
  match trim (chars s) with
  | [] => Num.zero
  | (c0 :: c1 :: r) as l =>
      if Ascii.eqb c0 "0" && (Ascii.eqb c1 "x" || Ascii.eqb c1 "X")
      then radix_literal 16 r
      else if Ascii.eqb c0 "0" && (Ascii.eqb c1 "o" || Ascii.eqb c1 "O")
      then radix_literal 8 r
      else if Ascii.eqb c0 "0" && (Ascii.eqb c1 "b" || Ascii.eqb c1 "B")
      then radix_literal 2 r
      else str_decimal l
  | l => str_decimal l
  end.

End Str.

(* ================================================================== *)
(** ** Ordered property lists

    The own properties of an object, in the order [Object.keys] lists them:
    array indices first, ascending, then the other keys in creation order.
    A key occurs once. *)

Module Props.

Section Props.
Context {A : Type}.

Definition props : Type := list (string * A).

Fixpoint lookup (k : string) (o : props) : option A :=
  match o with
  | [] => None
  | (k', v) :: o' => if String.eqb k k' then Some v else lookup k o'
  end.

Definition keys (o : props) : list string := map fst o.
Definition values (o : props) : list A := map snd o.

(** A canonical numeric string below [2^32 - 1]. *)
Definition array_index (k : string) : option N :=
  match Str.chars k with
  | [] => None
  | c :: r =>
      match Str.take_digits 10 0 0 (c :: r) with
      | (v, _, []) =>
          if Ascii.eqb c "0" && negb (Nat.eqb (List.length r) 0) then None
          else if (v <=? 4294967294)%N then Some v
          else None
      | _ => None
      end
  end.

(** Overwrite the value of an existing key, keeping its place. *)
Fixpoint replace (k : string) (v : A) (o : props) : props :=
  match o with
  | [] => []
  | (k', v') :: o' =>
      if String.eqb k k' then (k, v) :: o' else (k', v') :: replace k v o'
  end.

(** Create an array-index key: after the smaller indices. *)
Fixpoint insert_index (i : N) (k : string) (v : A) (o : props) : props :=
  match o with
  | [] => [(k, v)]
  | (k', v') :: o' =>
      match array_index k' with
      | Some j =>
          if (j <? i)%N then (k', v') :: insert_index i k v o'
          else (k, v) :: o
      | None => (k, v) :: o
      end
  end.

(** [o[k] = v] (CreateDataProperty). *)
Definition set (k : string) (v : A) (o : props) : props :=
  match lookup k o with
  | Some _ => replace k v o
  | None =>
      match array_index k with
      | Some i => insert_index i k v o
      | None => o ++ [(k, v)]
      end
  end.

(** [delete o[k]] *)
Fixpoint delete (k : string) (o : props) : props :=
  match o with
  | [] => []
  | (k', v) :: o' =>
      if String.eqb k k' then delete k o' else (k', v) :: delete k o'
  end.

(** Copy the properties [src] onto [o], in order. *)
Definition assign (o : props) (src : props) : props :=
  fold_left (fun acc kv => set (fst kv) (snd kv) acc) src o.

End Props.

Arguments props A : clear implicits.

End Props.

(* ================================================================== *)
(** ** Values *)

#[warnings="-register-all"]
Inductive value : Type :=
| VUndef
| VNull
| VBool (b : bool)
| VNum (n : Num.num)
| VStr (s : string)
| VArr (l : list value)
| VObj (o : list (string * value)).

Definition obj : Type := Props.props value.

Module JS.

(** ToBoolean *)
Definition truthy (v : value) : bool :=
  match v with
  | VUndef | VNull => false
  | VBool b => b
  | VNum n => Num.truthy n
  | VStr s => negb (String.eqb s "")
  | VArr _ | VObj _ => true
  end.

Definition nullish (v : value) : bool :=
  match v with
  | VUndef | VNull => true
  | _ => false
  end.

Definition typeof (v : value) : string :=
  match v with
  | VUndef => "undefined"
  | VNull => "object"
  | VBool _ => "boolean"
  | VNum _ => "number"
  | VStr _ => "string"
  | VArr _ | VObj _ => "object"
  end.

(** [a || b] and [a && b] *)
Definition or (a b : value) : value := if truthy a then a else b.
Definition and (a b : value) : value := if truthy a then b else a.

(** ToString.  An array prints as its elements joined by commas, with
    [undefined] and [null] elements printing as nothing.  An object prints
    as [Object.prototype.toString] prints it: an object that has a
    [toString] or a [valueOf] of its own, on which the conversion can throw
    a TypeError, is not what this function is about. *)
Fixpoint to_string (v : value) : string :=
  match v with
  | VUndef => "undefined"
  | VNull => "null"
  | VBool b => if b then "true" else "false"
  | VNum n => Num.to_string n
  | VStr s => s
  | VArr l =>
      String.concat ","
        (map (fun x => match x with
                       | VUndef | VNull => ""
                       | _ => to_string x
                       end) l)
  | VObj _ => "[object Object]"
  end.

(** [l.join(sep)] *)
Definition join (sep : string) (l : list value) : string :=
  String.concat sep
    (map (fun x => if nullish x then "" else to_string x) l).

(** ToNumber, which is [Number(v)].  An object converts as one that
    inherits [toString] and [valueOf] does, to NaN: with a [toString] or a
    [valueOf] of its own the conversion can throw a TypeError, and such an
    object is not what this function is about. *)
Definition to_number (v : value) : Num.num :=
  match v with
  | VUndef => Num.nan
  | VNull => Num.zero
  | VBool b => if b then Num.of_Z 1 else Num.zero
  | VNum n => n
  | VStr s => Str.to_number s
  | VArr _ => Str.to_number (to_string v)
  | VObj _ => Num.nan
  end.

Definition Number (v : value) : value := VNum (to_number v).

Definition char_strings (s : string) : list value :=
  map (fun c => VStr (String c "")) (Str.chars s).

Fixpoint indexed {A : Type} (i : nat) (l : list A) : list (string * A) :=
  match l with
  | [] => []
  | x :: l' => (Num.string_of_Z (Z.of_nat i), x) :: indexed (S i) l'
  end.

(** The own enumerable string-keyed properties, in order: what a spread
    copies and what [Object.values] lists. *)
Definition own_props (v : value) : obj :=
  match v with
  | VObj o => o
  | VArr l => indexed 0 l
  | VStr s => indexed 0 (char_strings s)
  | _ => []
  end.

Definition element (l : list value) (k : string) : value :=
  if String.eqb k "length" then VNum (Num.of_Z (Z.of_nat (List.length l)))
  else match Props.array_index k with
       | Some i => nth (N.to_nat i) l VUndef
       | None => VUndef
       end.

(** [v.k] and [v[k]].  Reading a property of [undefined] or [null] throws.
    Members inherited from the built-in prototypes are not modelled: none of
    the fixed names that the program reads is one, and its one computed key
    is the date of the form. *)
Definition get (v : value) (k : string) : result value :=
  match v with
  | VUndef | VNull => Throw TypeError
  | VObj o => Ok (match Props.lookup k o with Some x => x | None => VUndef end)
  | VArr l => Ok (element l k)
  | VStr s => Ok (element (char_strings s) k)
  | VBool _ | VNum _ => Ok VUndef
  end.

(** [v?.k] *)
Definition get_opt (v : value) (k : string) : result value :=
  if nullish v then Ok VUndef else get v k.

(** [Object.values(v)] *)
Definition Object_values (v : value) : result (list value) :=
  if nullish v then Throw TypeError else Ok (Props.values (own_props v)).

(** [Object.keys(v)] *)
Definition Object_keys (v : value) : result (list string) :=
  if nullish v then Throw TypeError else Ok (Props.keys (own_props v)).

(** [{ ...o, ...v }]: the properties of [v] copied onto the literal built
    so far; spreading [undefined] or [null] copies nothing. *)
Definition spread (o : obj) (v : value) : obj :=
  Props.assign o (own_props v).

(** *** Array.prototype.sort

    [undefined] elements go last without a call of the comparison function.
    The sort is stable; the order of the calls [cmp x y] is that of an
    insertion from the right, with [x] the earlier element. *)
Section Sort.
Variable cmp : value -> value -> result Z.

Definition sort_compare (x y : value) : result Z :=
  match x, y with
  | VUndef, VUndef => Ok 0%Z
  | VUndef, _ => Ok 1%Z
  | _, VUndef => Ok (-1)%Z
  | _, _ => cmp x y
  end.

Fixpoint insert (x : value) (l : list value) : result (list value) :=
  match l with
  | [] => Ok [x]
  | y :: l' =>
      c <- sort_compare x y ;;
      if (c <=? 0)%Z then Ok (x :: l)
      else r <- insert x l' ;; Ok (y :: r)
  end.

Fixpoint sort (l : list value) : result (list value) :=
  match l with
  | [] => Ok []
  | x :: l' => s <- sort l' ;; insert x s
  end.

End Sort.

End JS.

(* ================================================================== *)
(** ** JSON *)

Module JSON.

Definition quote : ascii := ascii_of_nat 34.
Definition backslash : ascii := ascii_of_nat 92.

Definition hex_char (d : N) : ascii :=
  if (d <? 10)%N then ascii_of_N (48 + d) else ascii_of_N (87 + d).

(** QuoteJSONString, character by character. *)
Definition escape_char (c : ascii) : list ascii :=
  let n := N_of_ascii c in
  if Ascii.eqb c quote then [backslash; quote]
  else if Ascii.eqb c backslash then [backslash; backslash]
  else if (n =? 8)%N then [backslash; "b"%char]
  else if (n =? 9)%N then [backslash; "t"%char]
  else if (n =? 10)%N then [backslash; "n"%char]
  else if (n =? 12)%N then [backslash; "f"%char]
  else if (n =? 13)%N then [backslash; "r"%char]
  else if (n <? 32)%N
  then [backslash; "u"%char; "0"%char; "0"%char;
        hex_char (n / 16); hex_char (n mod 16)]
  else [c].

Definition quote_string (s : string) : string :=
  Str.of_chars (quote :: flat_map escape_char (Str.chars s) ++ [quote]).

Definition finite (n : Num.num) : bool :=
  match n with
  | S754_nan | S754_infinity _ => false
  | _ => true
  end.

Definition or_null (x : option string) : string :=
  match x with Some t => t | None => "null" end.

(** [JSON.stringify(v)]; [None] stands for the result [undefined].  In an
    array [undefined] prints as [null]; in an object a property whose value
    is [undefined] is left out. *)
Fixpoint stringify (v : value) : option string :=
  match v with
  | VUndef => None
  | VNull => Some "null"
  | VBool b => Some (if b then "true" else "false")
  | VNum n => Some (if finite n then Num.to_string n else "null")
  | VStr s => Some (quote_string s)
  | VArr l =>
      Some ("[" ++ String.concat "," (map (fun x => or_null (stringify x)) l)
                ++ "]")%string
  | VObj o =>
      Some ("{" ++
            String.concat ","
              (flat_map (fun kv : string * value =>
                           match stringify (snd kv) with
                           | Some t =>
                               [(quote_string (fst kv) ++ ":" ++ t)%string]
                           | None => []
                           end) o)
            ++ "}")%string
  end.

(** *** JSON.parse *)

Definition is_ws (c : ascii) : bool :=
  let n := N_of_ascii c in
  (n =? 32)%N || (n =? 9)%N || (n =? 10)%N || (n =? 13)%N.

Fixpoint skip_ws (l : list ascii) : list ascii :=
  match l with
  | c :: r => if is_ws c then skip_ws r else l
  | [] => []
  end.

(** The UTF-8 bytes of a code point. *)
Definition utf8 (cp : N) : list ascii :=
  if (cp <? 128)%N then [ascii_of_N cp]
  else if (cp <? 2048)%N
  then [ascii_of_N (192 + cp / 64); ascii_of_N (128 + cp mod 64)]
  else if (cp <? 65536)%N
  then [ascii_of_N (224 + cp / 4096); ascii_of_N (128 + (cp / 64) mod 64);
        ascii_of_N (128 + cp mod 64)]
  else [ascii_of_N (240 + cp / 262144); ascii_of_N (128 + (cp / 4096) mod 64);
        ascii_of_N (128 + (cp / 64) mod 64); ascii_of_N (128 + cp mod 64)].

(** Four hexadecimal digits. *)
Definition hex4 (l : list ascii) : option (N * list ascii) :=
  match l with
  | a :: b :: c :: d :: r =>
      match Str.digit 16 a, Str.digit 16 b, Str.digit 16 c, Str.digit 16 d with
      | Some x, Some y, Some z, Some w =>
          Some (((x * 16 + y) * 16 + z) * 16 + w, r)%N
      | _, _, _, _ => None
      end
  | _ => None
  end.

(** A [\uXXXX] escape after its [\u]; a high surrogate followed by an
    escaped low surrogate is one code point. *)
Definition unicode_escape (l : list ascii) : option (list ascii * list ascii) :=
  match hex4 l with
  | Some (hi, r) =>
      let single := Some (utf8 hi, r) in
      if ((55296 <=? hi) && (hi <=? 56319))%N then
        match r with
        | b :: u :: r' =>
            if Ascii.eqb b backslash && Ascii.eqb u "u" then
              match hex4 r' with
              | Some (lo, r'') =>
                  if ((56320 <=? lo) && (lo <=? 57343))%N
                  then Some (utf8 (65536 + (hi - 55296) * 1024 + (lo - 56320)),
                             r'')
                  else single
              | None => single
              end
            else single
        | _ => single
        end
      else single
  | None => None
  end.

(** The rest of a string literal after its opening quote. *)
Fixpoint parse_string (fuel : nat) (acc : list ascii) (l : list ascii)
  : option (string * list ascii) :=
  match fuel, l with
  | S f, c :: r =>
      if Ascii.eqb c quote then Some (Str.of_chars (rev acc), r)
      else if Ascii.eqb c backslash then
        match r with
        | e :: r' =>
            let simple (b : ascii) := parse_string f (b :: acc) r' in
            if Ascii.eqb e quote || Ascii.eqb e backslash || Ascii.eqb e "/"
            then simple e
            else if Ascii.eqb e "b" then simple (ascii_of_nat 8)
            else if Ascii.eqb e "f" then simple (ascii_of_nat 12)
            else if Ascii.eqb e "n" then simple (ascii_of_nat 10)
            else if Ascii.eqb e "r" then simple (ascii_of_nat 13)
            else if Ascii.eqb e "t" then simple (ascii_of_nat 9)
            else if Ascii.eqb e "u" then
              match unicode_escape r' with
              | Some (bs, r'') => parse_string f (rev bs ++ acc) r''
              | None => None
              end
            else None
        | [] => None
        end
      else if (N_of_ascii c <? 32)%N then None
      else parse_string f (c :: acc) r
  | _, _ => None
  end.

(** A number: an optional minus sign, an integer part without a leading
    zero (or a single zero), an optional fraction of one digit or more, an
    optional exponent of one digit or more. *)
Definition parse_number (l : list ascii) : option (Num.num * list ascii) :=
  let '(neg, r0) :=
    match l with
    | c :: r => if Ascii.eqb c "-" then (true, r) else (false, l)
    | [] => (false, l)
    end in
  let '(ip, ilen, r1) := Str.take_digits 10 0 0 r0 in
  let leading_zero :=
    match r0 with
    | c :: _ => Ascii.eqb c "0" && negb (Nat.eqb ilen 1)
    | [] => false
    end in
  if Nat.eqb ilen 0 || leading_zero then None
  else
    let frac :=
      match r1 with
      | c :: r =>
          if Ascii.eqb c "." then
            match Str.take_digits 10 ip 0 r with
            | (m, S flen, r2) => Some (m, S flen, r2)
            | _ => None
            end
          else Some (ip, O, r1)
      | [] => Some (ip, O, r1)
      end in
    match frac with
    | None => None
    | Some (m, flen, r2) =>
        let ex :=
          match r2 with
          | c :: r =>
              if Ascii.eqb c "e" || Ascii.eqb c "E" then
                let '(eneg, r') :=
                  match r with
                  | s :: t =>
                      if Ascii.eqb s "-" then (true, t)
                      else if Ascii.eqb s "+" then (false, t)
                      else (false, r)
                  | [] => (false, r)
                  end in
                match Str.take_digits 10 0 0 r' with
                | (v, S _, r3) =>
                    Some ((if eneg then - Z.of_N v else Z.of_N v)%Z, r3)
                | _ => None
                end
              else Some (0%Z, r2)
          | [] => Some (0%Z, r2)
          end in
        match ex with
        | Some (e, r3) => Some (Num.of_decimal neg m (e - Z.of_nat flen), r3)
        | None => None
        end
    end.

Definition literal (word : string) (v : value) (l : list ascii)
  : option (value * list ascii) :=
  match Str.strip_prefix (Str.chars word) l with
  | Some r => Some (v, r)
  | None => None
  end.

Fixpoint parse_value (fuel : nat) (l : list ascii)
  : option (value * list ascii) :=
  match fuel with
  | O => None
  | S f =>
      match skip_ws l with
      | [] => None
      | c :: r =>
          if Ascii.eqb c "n" then literal "null" VNull (c :: r)
          else if Ascii.eqb c "t" then literal "true" (VBool true) (c :: r)
          else if Ascii.eqb c "f" then literal "false" (VBool false) (c :: r)
          else if Ascii.eqb c quote then
            match parse_string (List.length r) [] r with
            | Some (s, r') => Some (VStr s, r')
            | None => None
            end
          else if Ascii.eqb c "[" then
            match skip_ws r with
            | c' :: r' =>
                if Ascii.eqb c' "]" then Some (VArr [], r')
                else match parse_elements f [] r with
                     | Some (vs, r'') => Some (VArr vs, r'')
                     | None => None
                     end
            | [] => None
            end
          else if Ascii.eqb c "{" then
            match skip_ws r with
            | c' :: r' =>
                if Ascii.eqb c' "}" then Some (VObj [], r')
                else match parse_members f [] r with
                     | Some (o, r'') => Some (VObj o, r'')
                     | None => None
                     end
            | [] => None
            end
          else
            match parse_number (c :: r) with
            | Some (n, r') => Some (VNum n, r')
            | None => None
            end
      end
  end

with parse_elements (fuel : nat) (acc : list value) (l : list ascii)
  : option (list value * list ascii) :=
  match fuel with
  | O => None
  | S f =>
      match parse_value f l with
      | Some (v, r) =>
          match skip_ws r with
          | c :: r' =>
              if Ascii.eqb c "," then parse_elements f (v :: acc) r'
              else if Ascii.eqb c "]" then Some (rev (v :: acc), r')
              else None
          | [] => None
          end
      | None => None
      end
  end

with parse_members (fuel : nat) (acc : obj) (l : list ascii)
  : option (obj * list ascii) :=
  match fuel with
  | O => None
  | S f =>
      match skip_ws l with
      | q :: r =>
          if Ascii.eqb q quote then
            match parse_string (List.length r) [] r with
            | Some (k, r1) =>
                match skip_ws r1 with
                | c :: r2 =>
                    if Ascii.eqb c ":" then
                      match parse_value f r2 with
                      | Some (v, r3) =>
                          let acc' := Props.set k v acc in
                          match skip_ws r3 with
                          | c' :: r4 =>
                              if Ascii.eqb c' "," then parse_members f acc' r4
                              else if Ascii.eqb c' "}" then Some (acc', r4)
                              else None
                          | [] => None
                          end
                      | None => None
                      end
                    else None
                | [] => None
                end
            | None => None
            end
          else None
      | [] => None
      end
  end.

(** [JSON.parse(text)]: the value, or a SyntaxError. *)
Definition parse (text : string) : result value :=
  let l := Str.chars text in
  match parse_value (2 * List.length l + 2) l with
  | Some (v, r) =>
      match skip_ws r with
      | [] => Ok v
      | _ :: _ => Throw SyntaxError
      end
  | None => Throw SyntaxError
  end.

End JSON.

(* ================================================================== *)
(** ** Dates

    Time values are milliseconds since the epoch; [None] is the invalid
    date.  The calendar functions are those of the language definition. *)

Module Date.

Local Open Scope Z_scope.

Definition msPerDay : Z := 86400000.
Definition msPerMinute : Z := 60000.

Definition Day (t : Z) : Z := t / msPerDay.
Definition TimeWithinDay (t : Z) : Z := t mod msPerDay.

Definition DayFromYear (y : Z) : Z :=
  365 * (y - 1970) + (y - 1969) / 4 - (y - 1901) / 100 + (y - 1601) / 400.

Definition DaysInYear (y : Z) : Z :=
  if negb (y mod 4 =? 0) then 365
  else if negb (y mod 100 =? 0) then 366
  else if negb (y mod 400 =? 0) then 365
  else 366.

(** The largest [y] with [DayFromYear y <= d], from an estimate that is off
    by one at most. *)
Definition YearFromDay (d : Z) : Z :=
  let y0 := 1970 + 400 * d / 146097 in
  if DayFromYear (y0 + 1) <=? d then y0 + 1
  else if DayFromYear y0 <=? d then y0
  else y0 - 1.

Definition YearFromTime (t : Z) : Z := YearFromDay (Day t).

Definition leap (y : Z) : Z := if DaysInYear y =? 366 then 1 else 0.

Definition InLeapYear (t : Z) : Z := leap (YearFromTime t).

Definition DayWithinYear (t : Z) : Z := Day t - DayFromYear (YearFromTime t).

(** The day within the year on which month [m] (0 to 11) starts. *)
Definition month_start (l m : Z) : Z :=
  match m with
  | 0 => 0
  | 1 => 31
  | 2 => 59 + l
  | 3 => 90 + l
  | 4 => 120 + l
  | 5 => 151 + l
  | 6 => 181 + l
  | 7 => 212 + l
  | 8 => 243 + l
  | 9 => 273 + l
  | 10 => 304 + l
  | _ => 334 + l
  end.

Definition MonthFromTime (t : Z) : Z :=
  let d := DayWithinYear t in
  let l := InLeapYear t in
  if d <? 31 then 0
  else if d <? 59 + l then 1
  else if d <? 90 + l then 2
  else if d <? 120 + l then 3
  else if d <? 151 + l then 4
  else if d <? 181 + l then 5
  else if d <? 212 + l then 6
  else if d <? 243 + l then 7
  else if d <? 273 + l then 8
  else if d <? 304 + l then 9
  else if d <? 334 + l then 10
  else 11.

Definition DateFromTime (t : Z) : Z :=
  DayWithinYear t - month_start (InLeapYear t) (MonthFromTime t) + 1.

Definition MakeDay (year month date : Z) : Z :=
  let ym := year + month / 12 in
  let mn := month mod 12 in
  DayFromYear ym + month_start (leap ym) mn + date - 1.

Definition MakeDate (day time : Z) : Z := day * msPerDay + time.

Definition TimeClip (t : Z) : option Z :=
  if Z.abs t <=? 8640000000000000 then Some t else None.

(** [w] decimal digits, with leading zeros. *)
Fixpoint pad (w : nat) (n : Z) : list ascii :=
  match w with
  | O => []
  | S w' => pad w' (n / 10) ++ [Num.digit_char (n mod 10)]
  end.

(** The year of an ISO date-time: four digits from 0 to 9999, otherwise a
    sign and six digits. *)
Definition iso_year (y : Z) : list ascii :=
  if (0 <=? y) && (y <=? 9999) then pad 4 y
  else (if y <? 0 then "-"%char else "+"%char) :: pad 6 (Z.abs y).

Definition HourFromTime (t : Z) : Z := (t / 3600000) mod 24.
Definition MinFromTime (t : Z) : Z := (t / 60000) mod 60.
Definition SecFromTime (t : Z) : Z := (t / 1000) mod 60.
Definition msFromTime (t : Z) : Z := t mod 1000.

(** [YYYY-MM-DD] and [HH:mm:ss.sssZ] of a valid time value. *)
Definition date_chars (t : Z) : list ascii :=
  iso_year (YearFromTime t)
  ++ "-"%char :: pad 2 (MonthFromTime t + 1)
  ++ "-"%char :: pad 2 (DateFromTime t).

Definition time_chars (t : Z) : list ascii :=
  pad 2 (HourFromTime t)
  ++ ":"%char :: pad 2 (MinFromTime t)
  ++ ":"%char :: pad 2 (SecFromTime t)
  ++ "."%char :: pad 3 (msFromTime t) ++ ["Z"%char].

(** [YYYY-MM-DDTHH:mm:ss.sssZ] *)
Definition iso_string (t : Z) : string :=
  Str.of_chars (date_chars t ++ "T"%char :: time_chars t).

(** A Date object: its time value. *)
Definition t : Type := option Z.

(** [new Date(v)] for an integral time value [v]. *)
Definition of_value (v : Z) : t := TimeClip v.

Definition toISOString (d : t) : result string :=
  match d with
  | Some tv => Ok (iso_string tv)
  | None => Throw RangeError
  end.

(** The host's time zone: the offset that [getTimezoneOffset] reports for a
    time value, in minutes (a whole number of them), and the conversion of
    a local time value to a time value. *)
Record zone : Type := {
  tzOffset : Z -> Z;
  UTC : Z -> Z
}.

Section Zone.
Variable tz : zone.

Definition LocalTime (tv : Z) : Z := tv - tzOffset tz tv * msPerMinute.

(** [d.getDate()] *)
Definition getDate (d : t) : option Z :=
  match d with
  | Some tv => Some (DateFromTime (LocalTime tv))
  | None => None
  end.

(** [d.setDate(dt)] *)
Definition setDate (d : t) (dt : option Z) : t :=
  match d, dt with
  | Some tv, Some n =>
      let lt := LocalTime tv in
      let newDate :=
        MakeDate (MakeDay (YearFromTime lt) (MonthFromTime lt) n)
                 (TimeWithinDay lt) in
      TimeClip (UTC tz newDate)
  | _, _ => None
  end.

End Zone.

End Date.

(* ================================================================== *)
(** ** The browser storage

    [localStorage] as a map from keys to strings.  The storage is taken to
    be readable and to have room: [getItem] and [setItem] do not throw.
    Where the browser's storage is full or switched off, [setItem] throws,
    and the handler that called it throws with it: such a run is none of
    the runs below. *)

Module Storage.

Definition t : Type := Props.props string.

(** [localStorage.getItem(k)]: the stored string, or [null]. *)
Definition getItem (k : string) (ls : t) : value :=
  match Props.lookup k ls with
  | Some s => VStr s
  | None => VNull
  end.

(** [localStorage.setItem(k, v)]: the value is stored as a string. *)
Definition setItem (k : string) (v : value) (ls : t) : t :=
  Props.set k (JS.to_string v) ls.

End Storage.

(* ================================================================== *)
(** ** The program: [src/src/App.jsx] *)

Module App.

Import JS.

Definition num (z : Z) : Num.num := Num.of_Z z.

(** The component's state ([useState]) and the storage it writes to. *)
Record State : Type := {
  entries : value;
  date : string;
  tab : string;
  storage : Storage.t
}.

Definition with_entries (nextEntries : value) (ls : Storage.t) (st : State)
  : State :=
  {| entries := nextEntries; date := date st; tab := tab st; storage := ls |}.

(** What a download hands to the browser. *)
Record Download : Type := {
  content : string;
  mime : string;
  filename : string
}.

Section App.

(** The host: its time zone, its collation, its sine and cosine. *)
Variable tz : Date.zone.
Variable localeCompare : string -> string -> Z.
Variable Math_sin Math_cos : Num.num -> Num.num.

(** [fmtDate(d)] *)
Definition fmtDate (d : Date.t) : result string :=
  match d with
  | Some tv =>
      let tzOffset := Date.tzOffset tz tv in
      let local := Date.of_value (tv - tzOffset * 60000) in
      iso <- Date.toISOString local ;;
      Ok (Str.slice_to 10 iso)
  | None => Throw RangeError
  end.

(** [todayStr], computed once when the module is loaded. *)
Variable todayStr : string.

Definition defaultEntry : value :=
  VObj [ ("date", VStr todayStr);
         ("pulse", VStr "");
         ("bpSys", VStr "");
         ("bpDia", VStr "");
         ("dizziness", VBool false);
         ("syncope", VBool false);
         ("dyspnea", VBool false);
         ("edema", VBool false);
         ("bleeding", VBool false);
         ("fatigue", VStr "0");
         ("meds",
          VObj [ ("am", VObj [ ("multaq", VBool false);
                               ("edoxaban", VBool false);
                               ("bisoprolol", VBool false) ]);
                 ("pm", VObj [ ("multaq", VBool false) ]) ]);
         ("notes", VStr "") ].

Definition STORAGE_KEY : string := "afibcare.entries.v1".

Definition loadEntries (ls : Storage.t) : result value :=
  try_catch
    (let raw := Storage.getItem STORAGE_KEY ls in
     if negb (truthy raw) then Ok (VObj [])
     else
       obj <- JSON.parse (to_string raw) ;;
       Ok (if truthy obj && String.eqb (typeof obj) "object"
           then obj else VObj []))
    (fun _ => Ok (VObj [])).

Definition saveEntries (entries : value) (ls : Storage.t) : Storage.t :=
  Storage.setItem STORAGE_KEY
    (match JSON.stringify entries with Some s => VStr s | None => VUndef end)
    ls.

(** [entries[date] || { ...defaultEntry(), date }] *)
Definition entry_of (entries : value) (date : string) : result value :=
  e <- get entries date ;;
  Ok (or e (VObj (Props.set "date" (VStr date) (spread [] defaultEntry)))).

Definition entry (st : State) : result value :=
  entry_of (entries st) (date st).

Definition updateEntry (patch : value) (st : State) : result State :=
  e <- entry st ;;
  let next := VObj (spread (spread [] e) patch) in
  let nextEntries :=
    VObj (Props.set (date st) next (spread [] (entries st))) in
  Ok (with_entries nextEntries (saveEntries nextEntries (storage st)) st).

Definition resetToday (st : State) : result State :=
  let nextEntries :=
    VObj (Props.delete (date st) (spread [] (entries st))) in
  Ok (with_entries nextEntries (saveEntries nextEntries (storage st)) st).

(** [s.localeCompare(that)]: only strings have the method. *)
Definition call_localeCompare (this that : value) : result Z :=
  match this with
  | VStr s => Ok (localeCompare s (to_string that))
  | _ => Throw TypeError
  end.

(** [x.slice(n)]: strings and arrays have the method. *)
Definition call_slice (this : value) (n : nat) : result value :=
  match this with
  | VStr s => Ok (VStr (Str.slice n s))
  | VArr l => Ok (VArr (skipn n l))
  | _ => Throw TypeError
  end.

(** [x.replace(/\n/g, " ")]: only strings have the method. *)
Definition call_replace_newlines (this : value) : result value :=
  match this with
  | VStr s => Ok (VStr (Str.replace_newlines s))
  | _ => Throw TypeError
  end.

(** [(a, b) => a.date.localeCompare(b.date)] *)
Definition by_date (a b : value) : result Z :=
  ad <- get a "date" ;;
  bd <- get b "date" ;;
  call_localeCompare ad bd.

Definition daysData (entries : value) : result (list value) :=
  vals <- Object_values entries ;;
  arr <- sort by_date vals ;;
  mapM (fun e =>
          d <- get e "date" ;;
          d5 <- call_slice d 5 ;;
          pulse <- get e "pulse" ;;
          bpSys <- get e "bpSys" ;;
          bpDia <- get e "bpDia" ;;
          Ok (VObj [ ("date", d5);
                     ("pulse", or (Number pulse) VNull);
                     ("sys", or (Number bpSys) VNull);
                     ("dia", or (Number bpDia) VNull) ]))
       arr.

Definition pulseFlag : string := "맥박 이상 (50 미만 또는 110 초과)".
Definition lowBPFlag : string := "저혈압 의심 (90/60 미만)".
Definition bleedingFlag : string := "출혈 보고됨".
Definition syncopeFlag : string := "실신/실신감 보고됨".
Definition dyspneaFlag : string := "호흡 곤란 보고됨".

(** [if (c) flags.push(msg)] *)
Definition push_if (c : bool) (msg : string) (flags : list string)
  : list string :=
  if c then flags ++ [msg] else flags.

Definition dangerFlags (entry : value) : result (list string) :=
  pulse <- get entry "pulse" ;;
  let p := to_number pulse in
  bpSys <- get entry "bpSys" ;;
  let sys := to_number bpSys in
  bpDia <- get entry "bpDia" ;;
  let dia := to_number bpDia in
  let flags := [] in
  let flags :=
    push_if (Num.truthy p && (Num.lt p (num 50) || Num.gt p (num 110)))
            pulseFlag flags in
  let flags :=
    push_if (Num.truthy sys && Num.truthy dia
             && (Num.lt sys (num 90) || Num.lt dia (num 60)))
            lowBPFlag flags in
  bleeding <- get entry "bleeding" ;;
  let flags := push_if (truthy bleeding) bleedingFlag flags in
  syncope <- get entry "syncope" ;;
  let flags := push_if (truthy syncope) syncopeFlag flags in
  dyspnea <- get entry "dyspnea" ;;
  let flags := push_if (truthy dyspnea) dyspneaFlag flags in
  Ok flags.

Definition dizzinessFlag : string := "어지럼증".
Definition edemaFlag : string := "부종".
Definition fatigueFlag : string := "심한 피로감".

(** [x === "2"] *)
Definition is_string (x : value) (s : string) : bool :=
  match x with
  | VStr s' => String.eqb s' s
  | _ => false
  end.

Definition warnFlags (entry : value) : result (list string) :=
  let flags := [] in
  dizziness <- get entry "dizziness" ;;
  let flags := push_if (truthy dizziness) dizzinessFlag flags in
  edema <- get entry "edema" ;;
  let flags := push_if (truthy edema) edemaFlag flags in
  fatigue <- get entry "fatigue" ;;
  let flags := push_if (is_string fatigue "2") fatigueFlag flags in
  Ok flags.

Definition csvHeader : list value :=
  map VStr
    [ "date"; "pulse"; "bpSys"; "bpDia"; "dizziness"; "syncope"; "dyspnea";
      "edema"; "bleeding"; "fatigue"; "meds_am_multaq"; "meds_am_edoxaban";
      "meds_am_bisoprolol"; "meds_pm_multaq"; "notes" ].

(** [e.meds?.am?.multaq] and its like *)
Definition med (e : value) (part name : string) : result value :=
  meds <- get e "meds" ;;
  p <- get_opt meds part ;;
  get_opt p name.

Definition csvRow (e : value) : result (list value) :=
  date <- get e "date" ;;
  pulse <- get e "pulse" ;;
  bpSys <- get e "bpSys" ;;
  bpDia <- get e "bpDia" ;;
  dizziness <- get e "dizziness" ;;
  syncope <- get e "syncope" ;;
  dyspnea <- get e "dyspnea" ;;
  edema <- get e "edema" ;;
  bleeding <- get e "bleeding" ;;
  fatigue <- get e "fatigue" ;;
  am_multaq <- med e "am" "multaq" ;;
  am_edoxaban <- med e "am" "edoxaban" ;;
  am_bisoprolol <- med e "am" "bisoprolol" ;;
  pm_multaq <- med e "pm" "multaq" ;;
  notes <- get e "notes" ;;
  notes' <- call_replace_newlines (or notes (VStr "")) ;;
  Ok [ date; pulse; bpSys; bpDia; dizziness; syncope; dyspnea; edema;
       bleeding; fatigue; am_multaq; am_edoxaban; am_bisoprolol; pm_multaq;
       notes' ].

(** The [rows] of [exportCSV]. *)
Definition csvRows (entries : value) : result (list (list value)) :=
  vals <- Object_values entries ;;
  arr <- sort by_date vals ;;
  body <- mapM csvRow arr ;;
  Ok (csvHeader :: body).

Definition newline : string := String Str.LF "".

(** [rows.map((r) => r.join(",")).join("\n")] *)
Definition csvText (rows : list (list value)) : string :=
  String.concat newline (map (join ",") rows).

(** [exportCSV], run at the time [now]: the download it starts. *)
Definition exportCSV (entries : value) (now : Z) : result Download :=
  rows <- csvRows entries ;;
  let csv := csvText rows in
  today <- fmtDate (Date.of_value now) ;;
  Ok {| content := csv;
        mime := "text/csv;charset=utf-8;";
        filename := ("afibcare_" ++ today ++ ".csv")%string |}.

(** One turn of the loop of [fillDemo], for the index [i]: [now] is what
    the clock reads, [r0] to [r5] are the six results of [Math.random()] in
    the order of their calls. *)
Definition demoEntry (i : Z) (now : Z) (r0 r1 r2 r3 r4 r5 : Num.num)
  (map : obj) : result obj :=
  let d := Date.of_value now in
  let d :=
    Date.setDate tz d
      (match Date.getDate tz d with Some g => Some (g - i)%Z | None => None end)
  in
  ds <- fmtDate d ;;
  let pulse :=
    Num.add (num 70)
      (Num.round (Num.add (Num.mul (Math_sin (Num.div (num i) (num 2)))
                                   (num 10))
                          (Num.sub (Num.mul r0 (num 6)) (num 3)))) in
  let bpSys :=
    Num.add (num 120)
      (Num.round (Num.add (Num.mul (Math_cos (Num.div (num i) (num 3)))
                                   (num 8))
                          (Num.sub (Num.mul r1 (num 6)) (num 3)))) in
  let bpDia :=
    Num.add (num 78)
      (Num.round (Num.add (Num.mul (Math_sin (Num.div (num i) (num 3)))
                                   (num 6))
                          (Num.sub (Num.mul r2 (num 4)) (num 2)))) in
  let e0 := spread [] defaultEntry in
  let e1 := Props.set "date" (VStr ds) e0 in
  let e2 := Props.set "pulse" (VNum pulse) e1 in
  let e3 := Props.set "bpSys" (VNum bpSys) e2 in
  let e4 := Props.set "bpDia" (VNum bpDia) e3 in
  let e5 :=
    Props.set "dizziness" (VBool (Num.lt r3 (Num.of_decimal false 8 (-2))))
              e4 in
  let e6 :=
    Props.set "bleeding" (VBool (Num.lt r4 (Num.of_decimal false 3 (-2))))
              e5 in
  let e7 :=
    Props.set "fatigue"
      (VStr (to_string
               (VNum (if Num.lt r5 (Num.of_decimal false 15 (-2))
                      then num 1 else num 0))))
      e6 in
  let e8 :=
    Props.set "meds"
      (VObj [ ("am", VObj [ ("multaq", VBool true);
                            ("edoxaban", VBool true);
                            ("bisoprolol", VBool true) ]);
              ("pm", VObj [ ("multaq", VBool true) ]) ])
      e7 in
  Ok (Props.set ds (VObj e8) map).

(** The loop [for (let i = days - 1; i >= 0; i--)], [n] turns from the turn
    numbered [k]: the turn numbered [k] has [i = days - 1 - k], reads the
    clock as [clock k] and draws [random (6k)] to [random (6k + 5)]. *)
Fixpoint demoLoop (days : Z) (clock : nat -> Z) (random : nat -> Num.num)
  (n k : nat) (map : obj) : result obj :=
  match n with
  | O => Ok map
  | S n' =>
      map' <- demoEntry (days - 1 - Z.of_nat k) (clock k)
                (random (6 * k)%nat) (random (6 * k + 1)%nat)
                (random (6 * k + 2)%nat) (random (6 * k + 3)%nat)
                (random (6 * k + 4)%nat) (random (6 * k + 5)%nat) map ;;
      demoLoop days clock random n' (S k) map'
  end.

Definition fillDemo (clock : nat -> Z) (random : nat -> Num.num) (st : State)
  : result State :=
  let days := 28%Z in
  map <- demoLoop days clock random (Z.to_nat days) 0 [] ;;
  Ok (with_entries (VObj map) (saveEntries (VObj map) (storage st)) st).

(** The effect run once after the first render: today's entry exists. *)
Definition ensureToday (st : State) : result State :=
  e <- get (entries st) todayStr ;;
  if negb (truthy e) then
    let next :=
      VObj (Props.set todayStr
              (VObj (Props.set "date" (VStr todayStr) (spread [] defaultEntry)))
              (spread [] (entries st))) in
    Ok (with_entries next (saveEntries next (storage st)) st)
  else Ok st.

(** The first state: [useState(() => loadEntries())], [useState(todayStr)]. *)
Definition init (ls : Storage.t) : result State :=
  es <- loadEntries ls ;;
  Ok {| entries := es; date := todayStr; tab := "오늘 체크"; storage := ls |}.

(** The handlers of the four medication toggles. *)
Definition toggleMed (part name : string) (v : bool) (st : State)
  : result State :=
  e <- entry st ;;
  meds <- get e "meds" ;;
  p <- get meds part ;;
  let p' := VObj (Props.set name (VBool v) (spread [] p)) in
  let meds' := VObj (Props.set part p' (spread [] meds)) in
  updateEntry (VObj [("meds", meds')]) st.

End App.

End App.

(* ================================================================== *)
(** ** The views and the handlers of the component

    What the component of [src/src/App.jsx] shows and does besides: the
    alert boxes, the history table, the detail panel, the form, and the
    handlers that the form and the buttons are wired to.  A view is the
    values that the expressions of the rendered markup evaluate to. *)

Module Ui.

Import JS.

(** An [<Alert type=... title=...>] with its list of items. *)
Record AlertBox : Type := {
  kind : string;
  title : string;
  items : list string
}.

(** The fields of the check-in form: the texts as they are, the check boxes
    as [!!checked]. *)
Record Form : Type := {
  f_date : string;
  f_pulse : value;
  f_bpSys : value;
  f_bpDia : value;
  f_dizziness : bool;
  f_syncope : bool;
  f_dyspnea : bool;
  f_edema : bool;
  f_bleeding : bool;
  f_fatigue : value;
  f_notes : value;
  f_alerts : list AlertBox;
  f_am_multaq : bool;
  f_am_edoxaban : bool;
  f_am_bisoprolol : bool;
  f_pm_multaq : bool
}.

(** The detail panel of the selected day. *)
Record Detail : Type := {
  d_pulse : value;
  d_bp : value;
  d_fatigue : string;
  d_bleeding : string;
  d_notes : value
}.

(** A row of the history table: its key and its five cells. *)
Record Row : Type := {
  r_key : value;
  r_date : value;
  r_pulse : value;
  r_bp : value;
  r_sx : value;
  r_meds : value
}.

(** What is rendered under the header, by the selected tab. *)
Inductive View : Type :=
| CheckIn (form : Form)
| History (count : nat) (detail : Detail) (rows : list Row)
| Charts (data : list value)
| Education
| HeaderOnly.

(** The text inputs and the select of the form, and its check boxes. *)
Inductive TextField : Type := Pulse | BpSys | BpDia | Fatigue | Notes.

Inductive Symptom : Type := Dizziness | Syncope | Dyspnea | Edema | Bleeding.

Inductive Med : Type := AmMultaq | AmEdoxaban | AmBisoprolol | PmMultaq.

(** What the user can do. *)
Inductive Action : Type :=
| SelectDate (d : string)
| SelectTab (t : string)
| EditText (f : TextField) (text : string)
| ToggleSymptom (s : Symptom) (v : bool)
| ToggleMed (m : Med) (v : bool)
| ExportCSV (now : Z)
| FillDemo (clock : nat -> Z) (random : nat -> Num.num)
| ResetToday.

Definition textKey (f : TextField) : string :=
  match f with
  | Pulse => "pulse"
  | BpSys => "bpSys"
  | BpDia => "bpDia"
  | Fatigue => "fatigue"
  | Notes => "notes"
  end.

Definition symptomKey (s : Symptom) : string :=
  match s with
  | Dizziness => "dizziness"
  | Syncope => "syncope"
  | Dyspnea => "dyspnea"
  | Edema => "edema"
  | Bleeding => "bleeding"
  end.

Definition medPart (m : Med) : string :=
  match m with
  | AmMultaq | AmEdoxaban | AmBisoprolol => "am"
  | PmMultaq => "pm"
  end.

Definition medName (m : Med) : string :=
  match m with
  | AmMultaq | PmMultaq => "multaq"
  | AmEdoxaban => "edoxaban"
  | AmBisoprolol => "bisoprolol"
  end.

Section Ui.

Variable tz : Date.zone.
Variable localeCompare : string -> string -> Z.
Variable Math_sin Math_cos : Num.num -> Num.num.
Variable todayStr : string.

(** The two alert boxes: the danger box when there is a danger flag, the
    warning box when there is a warning flag and no danger flag. *)
Definition alerts (entry : value) : result (list AlertBox) :=
  dangerFlags <- App.dangerFlags entry ;;
  warnFlags <- App.warnFlags entry ;;
  Ok ((if (0 <? List.length dangerFlags)%nat
       then [ {| kind := "danger"; title := "즉시 확인이 필요한 항목";
                 items := dangerFlags |} ]
       else [])
      ++ (if (0 <? List.length warnFlags)%nat
             && (List.length dangerFlags =? 0)%nat
          then [ {| kind := "warn"; title := "주의가 필요한 항목";
                    items := warnFlags |} ]
          else [])).

(** [c ? x : y] *)
Definition cond (c x y : value) : value := if truthy c then x else y.

(** [bpSys && bpDia ? `${bpSys}/${bpDia}` : "-"] *)
Definition bpText (bpSys bpDia : value) : value :=
  cond (and bpSys bpDia)
       (VStr (to_string bpSys ++ "/" ++ to_string bpDia)%string)
       (VStr "-").

(** [(a, b) => b.date.localeCompare(a.date)] *)
Definition by_date_desc (a b : value) : result Z :=
  bd <- get b "date" ;;
  ad <- get a "date" ;;
  App.call_localeCompare localeCompare bd ad.

(** The row of one entry in the history table. *)
Definition historyRow (e : value) : result Row :=
  meds <- get e "meds" ;;
  am <- get_opt meds "am" ;;
  let medsAm := or am (VObj []) in
  pm <- get_opt meds "pm" ;;
  let medsPm := or pm (VObj []) in
  am_multaq <- get medsAm "multaq" ;;
  am_edoxaban <- get medsAm "edoxaban" ;;
  am_bisoprolol <- get medsAm "bisoprolol" ;;
  pm_multaq <- get medsPm "multaq" ;;
  let medsTxt :=
    join ", "
      (filter truthy
         [ cond am_multaq (VStr "아침 멀택") VNull;
           cond am_edoxaban (VStr "아침 릭시아나") VNull;
           cond am_bisoprolol (VStr "아침 콩브렐") VNull;
           cond pm_multaq (VStr "저녁 멀택") VNull ]) in
  dizziness <- get e "dizziness" ;;
  syncope <- get e "syncope" ;;
  dyspnea <- get e "dyspnea" ;;
  edema <- get e "edema" ;;
  bleeding <- get e "bleeding" ;;
  let sx :=
    join " · "
      (filter truthy
         [ and dizziness (VStr "어지럼");
           and syncope (VStr "실신");
           and dyspnea (VStr "호흡곤란");
           and edema (VStr "부종");
           and bleeding (VStr "출혈") ]) in
  date <- get e "date" ;;
  pulse <- get e "pulse" ;;
  bpSys <- get e "bpSys" ;;
  bpDia <- get e "bpDia" ;;
  Ok {| r_key := date;
        r_date := date;
        r_pulse := or pulse (VStr "-");
        r_bp := bpText bpSys bpDia;
        r_sx := or (VStr sx) (VStr "-");
        r_meds := or (VStr medsTxt) (VStr "-") |}.

(** The rows of the history table, latest day first. *)
Definition historyRows (entries : value) : result (list Row) :=
  vals <- Object_values entries ;;
  arr <- sort by_date_desc vals ;;
  mapM historyRow arr.

(** The detail panel of the selected day. *)
Definition detail (entry : value) : result Detail :=
  pulse <- get entry "pulse" ;;
  bpSys <- get entry "bpSys" ;;
  bpDia <- get entry "bpDia" ;;
  fatigue <- get entry "fatigue" ;;
  bleeding <- get entry "bleeding" ;;
  notes <- get entry "notes" ;;
  Ok {| d_pulse := or pulse (VStr "-");
        d_bp := bpText bpSys bpDia;
        d_fatigue :=
          if App.is_string fatigue "2" then "심함"
          else if App.is_string fatigue "1" then "약간"
          else "없음";
        d_bleeding := if truthy bleeding then "있음" else "없음";
        d_notes := or notes (VStr "메모 없음") |}.

(** [entry.meds.am.multaq] and its like, as the markup reads them. *)
Definition medFlag (entry : value) (m : Med) : result value :=
  meds <- get entry "meds" ;;
  p <- get meds (medPart m) ;;
  get p (medName m).

(** The check-in form. *)
Definition form (date : string) (entry : value) (boxes : list AlertBox)
  : result Form :=
  pulse <- get entry "pulse" ;;
  bpSys <- get entry "bpSys" ;;
  bpDia <- get entry "bpDia" ;;
  dizziness <- get entry "dizziness" ;;
  syncope <- get entry "syncope" ;;
  dyspnea <- get entry "dyspnea" ;;
  edema <- get entry "edema" ;;
  bleeding <- get entry "bleeding" ;;
  fatigue <- get entry "fatigue" ;;
  notes <- get entry "notes" ;;
  am_multaq <- medFlag entry AmMultaq ;;
  am_edoxaban <- medFlag entry AmEdoxaban ;;
  am_bisoprolol <- medFlag entry AmBisoprolol ;;
  pm_multaq <- medFlag entry PmMultaq ;;
  Ok {| f_date := date;
        f_pulse := pulse;
        f_bpSys := bpSys;
        f_bpDia := bpDia;
        f_dizziness := truthy dizziness;
        f_syncope := truthy syncope;
        f_dyspnea := truthy dyspnea;
        f_edema := truthy edema;
        f_bleeding := truthy bleeding;
        f_fatigue := fatigue;
        f_notes := notes;
        f_alerts := boxes;
        f_am_multaq := truthy am_multaq;
        f_am_edoxaban := truthy am_edoxaban;
        f_am_bisoprolol := truthy am_bisoprolol;
        f_pm_multaq := truthy pm_multaq |}.

(** One rendering of the component: the memoised values first, whatever
    the tab, then the panel of the selected tab. *)
Definition render (st : App.State) : result View :=
  entry <- App.entry todayStr st ;;
  daysData <- App.daysData localeCompare (App.entries st) ;;
  boxes <- alerts entry ;;
  if String.eqb (App.tab st) "오늘 체크" then
    f <- form (App.date st) entry boxes ;;
    Ok (CheckIn f)
  else if String.eqb (App.tab st) "기록 보기" then
    keys <- Object_keys (App.entries st) ;;
    d <- detail entry ;;
    rows <- historyRows (App.entries st) ;;
    Ok (History (List.length keys) d rows)
  else if String.eqb (App.tab st) "그래프" then Ok (Charts daysData)
  else if String.eqb (App.tab st) "교육" then Ok Education
  else Ok HeaderOnly.

Definition with_date (d : string) (st : App.State) : App.State :=
  {| App.entries := App.entries st; App.date := d; App.tab := App.tab st;
     App.storage := App.storage st |}.

Definition with_tab (t : string) (st : App.State) : App.State :=
  {| App.entries := App.entries st; App.date := App.date st; App.tab := t;
     App.storage := App.storage st |}.

(** The handlers. *)
Definition step (a : Action) (st : App.State) : result App.State :=
  match a with
  | SelectDate d => Ok (with_date d st)
  | SelectTab t => Ok (with_tab t st)
  | EditText f text =>
      App.updateEntry todayStr (VObj [ (textKey f, VStr text) ]) st
  | ToggleSymptom s v =>
      App.updateEntry todayStr (VObj [ (symptomKey s, VBool v) ]) st
  | ToggleMed m v => App.toggleMed todayStr (medPart m) (medName m) v st
  | ExportCSV now =>
      _ <- App.exportCSV tz localeCompare (App.entries st) now ;;
      Ok st
  | FillDemo clock random =>
      App.fillDemo tz Math_sin Math_cos todayStr clock random st
  | ResetToday => App.resetToday st
  end.

(** A run of handlers, one after the other. *)
Fixpoint run (actions : list Action) (st : App.State) : result App.State :=
  match actions with
  | [] => Ok st
  | a :: rest => st' <- step a st ;; run rest st'
  end.

(** The start of the component: the first state, and the effect after the
    first rendering. *)
Definition start (ls : Storage.t) : result App.State :=
  st <- App.init todayStr ls ;;
  _ <- render st ;;
  App.ensureToday todayStr st.

End Ui.

End Ui.

(* ================================================================== *)
(** ** The cache worker: [src/public/sw.js]

    A cache maps request URLs to responses; the cache storage maps cache
    names to caches, in the order of their creation.  The network answers a
    request or fails.  Each handler is the chain of promises that it hands
    to [waitUntil] or [respondWith], run to its end. *)

Module SW.

Definition CACHE : string := "afibcare-v1".

Definition ASSETS : list string := [ "/"; "/index.html"; "/manifest.webmanifest" ].

Section SW.

Variable Response : Type.

(** [response.ok] *)
Variable ok : Response -> bool.

Definition Cache : Type := Props.props Response.
Definition CacheStorage : Type := Props.props Cache.
Definition Network : Type := string -> option Response.

(** [caches.open(name)]: the cache of that name, created empty when there
    is none. *)
Definition open (name : string) (cs : CacheStorage) : Cache * CacheStorage :=
  match Props.lookup name cs with
  | Some c => (c, cs)
  | None => ([], cs ++ [(name, [])])
  end.

(** [fetch(url)]: the response, or a rejection. *)
Definition fetch (net : Network) (url : string) : result Response :=
  match net url with
  | Some r => Ok r
  | None => Throw TypeError
  end.

(** [cache.addAll(urls)]: every request is fetched; a failed fetch or a
    response that is not ok rejects, and then nothing is stored. *)
Definition addAll (net : Network) (urls : list string) (c : Cache)
  : result Cache :=
  rs <- mapM (fun url =>
                r <- fetch net url ;;
                if ok r then Ok (url, r) else Throw TypeError)
             urls ;;
  Ok (fold_left (fun acc ur => Props.set (fst ur) (snd ur) acc) rs c).

(** The [install] handler: the cache storage that it leaves, and whether
    its promise is fulfilled or rejected. *)
Definition install (net : Network) (cs : CacheStorage)
  : CacheStorage * result unit :=
  let '(c, cs') := open CACHE cs in
  match addAll net ASSETS c with
  | Ok c' => (Props.replace CACHE c' cs', Ok tt)
  | Throw e => (cs', Throw e)
  end.

(** The [activate] handler: [caches.delete(k)] for every key that is not
    [CACHE]. *)
Definition activate (cs : CacheStorage) : CacheStorage :=
  fold_left
    (fun acc k => if negb (String.eqb k CACHE) then Props.delete k acc else acc)
    (Props.keys cs) cs.

(** [caches.match(url)]: the answer of the first cache, in the order of
    creation, that holds the request. *)
Definition match_all (url : string) (cs : CacheStorage) : option Response :=
  Str.first_some (fun nc : string * Cache => Props.lookup url (snd nc)) cs.

(** The [fetch] handler: the cached response, or else the network's. *)
Definition respond (net : Network) (cs : CacheStorage) (url : string)
  : result Response :=
  match match_all url cs with
  | Some cached => Ok cached
  | None => fetch net url
  end.

End SW.

End SW.

(* ================================================================== *)
(** ** The vocabulary of the statements *)

(** The value of a property, [undefined] where reading it would throw. *)
Definition field (e : value) (k : string) : value :=
  match JS.get e k with
  | Ok v => v
  | Throw _ => VUndef
  end.

(** The date of an entry, when it is a string. *)
Definition date_of (e : value) : string :=
  match field e "date" with
  | VStr s => s
  | _ => ""
  end.

Definition dated (e : value) : bool :=
  match JS.get e "date" with
  | Ok (VStr _) => true
  | _ => false
  end.

Definition is_digit (c : ascii) : bool :=
  let n := N_of_ascii c in ((48 <=? n) && (n <=? 57))%N.

(** The shape [YYYY-MM-DD]. *)
Definition iso_date (s : string) : bool :=
  match Str.chars s with
  | [y1; y2; y3; y4; h1; m1; m2; h2; d1; d2] =>
      is_digit y1 && is_digit y2 && is_digit y3 && is_digit y4
      && Ascii.eqb h1 "-" && is_digit m1 && is_digit m2
      && Ascii.eqb h2 "-" && is_digit d1 && is_digit d2
  | _ => false
  end.

Definition iso_dated (e : value) : bool :=
  match JS.get e "date" with
  | Ok (VStr s) => iso_date s
  | _ => false
  end.

(** The notes of an entry are a string, or missing (or otherwise falsy). *)
Definition notes_ok (e : value) : bool :=
  match JS.get e "notes" with
  | Ok (VStr _) => true
  | Ok v => negb (JS.truthy v)
  | Throw _ => false
  end.

(** Ascending by the dates, compared as strings character by character. *)
Definition date_le (a b : value) : Prop :=
  String.leb (date_of a) (date_of b) = true.

(** A collation that orders ISO dates as their characters do. *)
Definition orders_iso_dates (localeCompare : string -> string -> Z) : Prop :=
  forall a b : string,
    iso_date a = true -> iso_date b = true ->
    (localeCompare a b ?= 0)%Z = String.compare a b.

(** The parsed number, or the null marker when it is zero or not a number. *)
Definition number_or_null (v : value) : value :=
  match JS.to_number v with
  | S754_zero _ | S754_nan => VNull
  | n => VNum n
  end.

(** The point that the charts get for an entry. *)
Definition chartPoint (e : value) : value :=
  VObj [ ("date", VStr (Str.slice 5 (date_of e)));
         ("pulse", number_or_null (field e "pulse"));
         ("sys", number_or_null (field e "bpSys"));
         ("dia", number_or_null (field e "bpDia")) ].

(** The fresh entry for a date: [{ ...defaultEntry(), date }]. *)
Definition freshEntry (todayStr d : string) : value :=
  VObj (Props.set "date" (VStr d) (JS.spread [] (App.defaultEntry todayStr))).

(** A state of the component whose store is the object [o]. *)
Definition stateOf (o : obj) (d tb : string) (ls : Storage.t) : App.State :=
  {| App.entries := VObj o; App.date := d; App.tab := tb; App.storage := ls |}.

(** The entry the form shows for the date [d]: the stored one, or a fresh
    one. *)
Definition shown (todayStr : string) (o : obj) (d : string) : value :=
  match Props.lookup d o with
  | Some e => if JS.truthy e then e else freshEntry todayStr d
  | None => freshEntry todayStr d
  end.

(** The store after [updateEntry(patch)] on the date [d]. *)
Definition updated (todayStr : string) (o : obj) (d : string) (patch : value)
  : obj :=
  Props.set d (VObj (JS.spread (JS.spread [] (shown todayStr o d)) patch))
            (JS.spread [] (VObj o)).

(** [if (c) flags.push(msg)], on its own. *)
Definition flagIf (c : bool) (msg : string) : list string :=
  if c then [msg] else [].

(** The two numeric alarms of [dangerFlags]. *)
Definition pulseAlarm (e : value) : bool :=
  let p := JS.to_number (field e "pulse") in
  Num.truthy p && (Num.lt p (App.num 50) || Num.gt p (App.num 110)).

Definition lowBPAlarm (e : value) : bool :=
  let sys := JS.to_number (field e "bpSys") in
  let dia := JS.to_number (field e "bpDia") in
  Num.truthy sys && Num.truthy dia
  && (Num.lt sys (App.num 90) || Num.lt dia (App.num 60)).

(** The text of the notes, when they are a string. *)
Definition notes_text (e : value) : string :=
  match field e "notes" with
  | VStr s => s
  | _ => ""
  end.

(** The fifteen cells of the CSV row of an entry. *)
Definition csvFields (e : value) : list value :=
  [ field e "date"; field e "pulse"; field e "bpSys"; field e "bpDia";
    field e "dizziness"; field e "syncope"; field e "dyspnea";
    field e "edema"; field e "bleeding"; field e "fatigue";
    field (field (field e "meds") "am") "multaq";
    field (field (field e "meds") "am") "edoxaban";
    field (field (field e "meds") "am") "bisoprolol";
    field (field (field e "meds") "pm") "multaq";
    VStr (Str.replace_newlines (notes_text e)) ].

(** The text of a cell in a joined row. *)
Definition cellText (v : value) : string :=
  match v with
  | VUndef | VNull => ""
  | VBool b => if b then "true" else "false"
  | VStr s => s
  | _ => JS.to_string v
  end.

(** An entry that the CSV export can print: a string date, and notes that
    are a string or missing. *)
Definition printable (e : value) : bool := dated e && notes_ok e.

Definition iso_printable (e : value) : bool := iso_dated e && notes_ok e.

(** The ISO date of the day numbered [d] (days since the epoch), as
    [fmtDate] prints it. *)
Definition isoDay (d : Z) : string :=
  Str.slice_to 10 (Date.iso_string (d * Date.msPerDay)).

(** The largest magnitude of a time value. *)
Definition maxTime : Z := 8640000000000000.

(** The days of the four-digit years: 0000-01-01 to 9999-12-31. *)
Definition firstDay : Z := -719528.
Definition lastDay : Z := 2932896.

(** A time zone in which a local time, taken to a time value and back,
    stays on its calendar day, and lies less than a day from its time
    value. *)
Definition civil_zone (tz : Date.zone) : Prop :=
  forall tl : Z,
    Date.Day (Date.LocalTime tz (Date.UTC tz tl)) = Date.Day tl
    /\ (Z.abs (Date.UTC tz tl - tl) <= Date.msPerDay)%Z.

(** A clock whose first [n] readings are valid time values on the local
    day numbered [D]. *)
Definition reads_on_day (tz : Date.zone) (clock : nat -> Z) (n : nat) (D : Z)
  : Prop :=
  forall k : nat,
    (k < n)%nat ->
    (Z.abs (clock k) <= maxTime)%Z
    /\ Date.Day (Date.LocalTime tz (clock k)) = D.

(** The [n] consecutive days that end on the day [D], as ISO dates, oldest
    first. *)
Definition daysUpTo (n : nat) (D : Z) : list string :=
  map (fun j => isoDay (D - (Z.of_nat n - 1) + Z.of_nat j)%Z) (seq 0 n).

(** [entry.meds.am.multaq] and its like, as the form reads them. *)
Definition readMed (e : value) (part name : string) : result value :=
  meds <- JS.get e "meds" ;;
  p <- JS.get meds part ;;
  JS.get p name.

(** *** A host and some stores to run the program on *)

Module Example.

(** Korea Standard Time: nine hours ahead, all year. *)
Definition kst : Date.zone :=
  {| Date.tzOffset := fun _ => (-540)%Z;
     Date.UTC := fun tl => (tl - 540 * 60000)%Z |}.

(** A collation by character codes. *)
Definition byCode (a b : string) : Z :=
  match String.compare a b with
  | Lt => (-1)%Z
  | Eq => 0%Z
  | Gt => 1%Z
  end.

Definition today : string := "2025-11-03".

(** 2025-11-03, 17:00 in Korea. *)
Definition now : Z := 1762156800123.

Definition entryWith (d : string) (fields : obj) : value :=
  VObj (Props.assign (JS.own_props (freshEntry today d)) fields).

Definition state (es : obj) (d : string) : App.State :=
  stateOf es d "오늘 체크" [].

(** An entry whose morning edoxaban is ticked. *)
Definition medsTaken : value :=
  VObj [ ("am", VObj [ ("multaq", VBool false);
                       ("edoxaban", VBool true);
                       ("bisoprolol", VBool false) ]);
         ("pm", VObj [ ("multaq", VBool false) ]) ].

Definition store1 : obj :=
  [ ("2025-11-01", entryWith "2025-11-01" [("meds", medsTaken)]) ].

(** A patch that names only the flag it changes. *)
Definition nestedPatch : value :=
  VObj [ ("meds", VObj [ ("am", VObj [ ("multaq", VBool true) ]) ]) ].

(** A pulse that reads as zero. *)
Definition pulseZero : value :=
  entryWith "2025-11-01" [("pulse", VStr "0")].

(** The fields of [alarming] in another order, and nothing else. *)
Definition alarmingReordered : value :=
  VObj [ ("bleeding", VBool true); ("bpDia", VStr "50");
         ("bpSys", VStr "80"); ("pulse", VStr "120") ].

(** Three days, stored out of order, with a pulse that is a number, one
    that is no number and one that is empty. *)
Definition store3 : obj :=
  [ ("2025-11-02", entryWith "2025-11-02" [("pulse", VStr "72")]);
    ("2025-10-31", entryWith "2025-10-31" [("pulse", VStr "abc")]);
    ("2025-11-01", entryWith "2025-11-01" [("pulse", VStr "")]) ].

(** The same day of two different years. *)
Definition store2023 : obj :=
  [ ("2023-03-04", entryWith "2023-03-04" []) ].

Definition store2024 : obj :=
  [ ("2024-03-04", entryWith "2024-03-04" []) ].

(** An entry with a date and nothing else, and one with notes of two lines
    that hold a comma and with half of its medication record. *)
Definition bare : value := VObj [ ("date", VStr "2025-11-01") ].

Definition partial : value :=
  VObj [ ("date", VStr "2025-11-02");
         ("dizziness", VBool true);
         ("meds", VObj [ ("am", VObj [ ("edoxaban", VBool true) ]) ]);
         ("notes", VStr ("a,b" ++ String Str.LF "c")) ].

Definition storeBare : obj :=
  [ ("2025-11-02", partial); ("2025-11-01", bare) ].

(** A stored array. *)
Definition arrayStorage : Storage.t := [ (App.STORAGE_KEY, "[1,2]") ].

(** Systolic low, diastolic normal. *)
Definition lowSysOnly : value :=
  entryWith "2025-11-01" [("bpSys", VStr "80"); ("bpDia", VStr "70")].

(** The entry of the specification's example. *)
Definition alarming : value :=
  entryWith "2025-11-01"
    [ ("pulse", VStr "120"); ("bpSys", VStr "80"); ("bpDia", VStr "50");
      ("bleeding", VBool true) ].

End Example.

(* ================================================================== *)
(** ** Well-formed stores

    The shape that the component gives to what it stores: every entry is an
    object that carries its key as its date, notes that are a string, and a
    medication record with its morning and its evening part. *)

Definition wfPart (v : value) : Prop :=
  exists p : obj, v = VObj p /\ NoDup (Props.keys p).

Definition wfMeds (v : value) : Prop :=
  exists (m : obj) (am pm : value),
    v = VObj m /\ NoDup (Props.keys m)
    /\ Props.lookup "am" m = Some am /\ wfPart am
    /\ Props.lookup "pm" m = Some pm /\ wfPart pm.

Definition wfEntry (k : string) (e : value) : Prop :=
  exists (eo : obj) (notes : string) (meds : value),
    e = VObj eo /\ NoDup (Props.keys eo)
    /\ Props.lookup "date" eo = Some (VStr k)
    /\ Props.lookup "notes" eo = Some (VStr notes)
    /\ Props.lookup "meds" eo = Some meds /\ wfMeds meds.

Definition wfStore (o : obj) : Prop :=
  NoDup (Props.keys o)
  /\ forall k e, Props.lookup k o = Some e -> wfEntry k e.

Definition wfState (st : App.State) : Prop :=
  exists o : obj, App.entries st = VObj o /\ wfStore o.

(** ** What the views show *)

(** The flags of [dangerFlags] and of [warnFlags], by the fields of the
    entry. *)
Definition dangerList (e : value) : list string :=
  flagIf (pulseAlarm e) App.pulseFlag
  ++ flagIf (lowBPAlarm e) App.lowBPFlag
  ++ flagIf (JS.truthy (field e "bleeding")) App.bleedingFlag
  ++ flagIf (JS.truthy (field e "syncope")) App.syncopeFlag
  ++ flagIf (JS.truthy (field e "dyspnea")) App.dyspneaFlag.

Definition warnList (e : value) : list string :=
  flagIf (JS.truthy (field e "dizziness")) App.dizzinessFlag
  ++ flagIf (JS.truthy (field e "edema")) App.edemaFlag
  ++ flagIf (App.is_string (field e "fatigue") "2") App.fatigueFlag.

Definition dangerBox (flags : list string) : Ui.AlertBox :=
  {| Ui.kind := "danger"; Ui.title := "즉시 확인이 필요한 항목";
     Ui.items := flags |}.

Definition warnBox (flags : list string) : Ui.AlertBox :=
  {| Ui.kind := "warn"; Ui.title := "주의가 필요한 항목";
     Ui.items := flags |}.

(** Whether an entry records a medication as taken. *)
Definition taken (e : value) (part name : string) : bool :=
  JS.truthy (field (field (field e "meds") part) name).

(** The symptoms and the medications of an entry, as the history table
    names them. *)
Definition symptomLabels (e : value) : list string :=
  flagIf (JS.truthy (field e "dizziness")) "어지럼"
  ++ flagIf (JS.truthy (field e "syncope")) "실신"
  ++ flagIf (JS.truthy (field e "dyspnea")) "호흡곤란"
  ++ flagIf (JS.truthy (field e "edema")) "부종"
  ++ flagIf (JS.truthy (field e "bleeding")) "출혈".

Definition medLabels (e : value) : list string :=
  flagIf (taken e "am" "multaq") "아침 멀택"
  ++ flagIf (taken e "am" "edoxaban") "아침 릭시아나"
  ++ flagIf (taken e "am" "bisoprolol") "아침 콩브렐"
  ++ flagIf (taken e "pm" "multaq") "저녁 멀택".

(** A cell that lists labels, or a dash when there is none. *)
Definition labelCell (sep : string) (labels : list string) : value :=
  match labels with
  | [] => VStr "-"
  | _ :: _ => VStr (String.concat sep labels)
  end.

(** The row of an entry in the history table. *)
Definition rowOf (e : value) : Ui.Row :=
  {| Ui.r_key := field e "date";
     Ui.r_date := field e "date";
     Ui.r_pulse := JS.or (field e "pulse") (VStr "-");
     Ui.r_bp := Ui.bpText (field e "bpSys") (field e "bpDia");
     Ui.r_sx := labelCell " · " (symptomLabels e);
     Ui.r_meds := labelCell ", " (medLabels e) |}.

(** The form of a day without a record. *)
Definition blankForm (d : string) : Ui.Form :=
  {| Ui.f_date := d;
     Ui.f_pulse := VStr "";
     Ui.f_bpSys := VStr "";
     Ui.f_bpDia := VStr "";
     Ui.f_dizziness := false;
     Ui.f_syncope := false;
     Ui.f_dyspnea := false;
     Ui.f_edema := false;
     Ui.f_bleeding := false;
     Ui.f_fatigue := VStr "0";
     Ui.f_notes := VStr "";
     Ui.f_alerts := [];
     Ui.f_am_multaq := false;
     Ui.f_am_edoxaban := false;
     Ui.f_am_bisoprolol := false;
     Ui.f_pm_multaq := false |}.

(** Latest first. *)
Definition date_ge (a b : value) : Prop := date_le b a.

(** Actions that the form and its buttons can send whatever the clock
    reads: all but the export and the demo data. *)
Definition clockFree (a : Ui.Action) : bool :=
  match a with
  | Ui.ExportCSV _ | Ui.FillDemo _ _ => false
  | _ => true
  end.

(** ** Values that survive the storage *)

(** A key that is not an array index: a new one goes last in its object. *)
Definition keyLike (k : string) : bool :=
  match Props.array_index k with
  | None => true
  | Some _ => false
  end.

Fixpoint distinct (l : list string) : bool :=
  match l with
  | [] => true
  | k :: r => negb (existsb (String.eqb k) r) && distinct r
  end.

(** What the form stores: strings, booleans and [null], in arrays and in
    objects whose keys are distinct and are not array indices.  No number
    and no [undefined]. *)
Fixpoint plain (v : value) : bool :=
  match v with
  | VNull | VBool _ | VStr _ => true
  | VUndef | VNum _ => false
  | VArr l => forallb plain l
  | VObj o =>
      forallb (fun kv : string * value => plain (snd kv)) o
      && forallb keyLike (Props.keys o)
      && distinct (Props.keys o)
  end.

(** The number of nodes of a value, each member and element counted
    twice. *)
Fixpoint size (v : value) : nat :=
  match v with
  | VArr l => S (list_sum (map (fun x => S (size x)) l))
  | VObj o => S (list_sum (map (fun kv : string * value => S (size (snd kv))) o))
  | _ => 1
  end.

(** The state that a reload of the page would start from holds the entries
    of this one. *)
Definition persisted (st : App.State) : Prop :=
  App.loadEntries (App.storage st) = Ok (App.entries st).

(** The actions of the form proper: no demo data, and no date that reads
    as an array index. *)
Definition formAction (a : Ui.Action) : bool :=
  match a with
  | Ui.FillDemo _ _ => false
  | Ui.SelectDate d => keyLike d
  | _ => true
  end.

(** ** Tactics *)

(** Distinct literal keys. *)
Ltac distinct_keys :=
  repeat (constructor; [simpl; intuition discriminate |]); constructor.

(** A literal entry is well formed. *)
Ltac solve_wfPart := eexists; split; [reflexivity | distinct_keys].

Ltac solve_wfMeds :=
  eexists _, _, _; split; [reflexivity |];
  split; [distinct_keys |];
  split; [reflexivity |];
  split; [solve_wfPart |];
  split; [reflexivity | solve_wfPart].

Ltac solve_wfEntry :=
  eexists _, _, _; split; [vm_compute; reflexivity |];
  split; [distinct_keys |];
  split; [reflexivity |];
  split; [reflexivity |];
  split; [reflexivity | solve_wfMeds].

(** The bounds of a month, once the month is known. *)
Ltac month_cases :=
  repeat match goal with
         | |- context [Date.month_start _ (?k + 1)%Z] =>
             let v := eval compute in (k + 1)%Z in
             change (k + 1)%Z with v
         end;
  cbv beta iota delta [Date.month_start]; split; [lia | intros; lia].

(** ** Typed stores

    What the inputs of the form, the toggles and the demo data store: the
    readings of an entry are strings, numbers and booleans, never objects,
    and the parts of its medication record hold such flags. *)

(** A value that is no object and no array. *)
Definition primitive (v : value) : bool :=
  match v with
  | VArr _ | VObj _ => false
  | _ => true
  end.

(** The properties of an entry, [meds] apart, are primitive. *)
Definition readings (eo : obj) : Prop :=
  forall x v, Props.lookup x eo = Some v -> x <> "meds" -> primitive v = true.

(** A part of the medication record: an object of primitive flags. *)
Definition flagsPart (p : value) : Prop :=
  exists po : obj,
    p = VObj po
    /\ forall x v, Props.lookup x po = Some v -> primitive v = true.

(** The readings of an entry and the flags of its two parts. *)
Definition typedFields (e : value) : Prop :=
  exists (eo mo : obj) (am pm : value),
    e = VObj eo /\ readings eo
    /\ Props.lookup "meds" eo = Some (VObj mo)
    /\ Props.lookup "am" mo = Some am /\ flagsPart am
    /\ Props.lookup "pm" mo = Some pm /\ flagsPart pm.

Definition typedEntry (k : string) (e : value) : Prop :=
  wfEntry k e /\ typedFields e.

(** Literal readings and flags are primitive. *)
Ltac solve_lookups :=
  let x := fresh "x" in
  let v := fresh "v" in
  let H := fresh "H" in
  intros x v H; simpl in H;
  repeat match type of H with
         | (if String.eqb ?a ?b then _ else _) = _ =>
             destruct (String.eqb_spec a b);
             [first [injection H as <-; intros; reflexivity
                    | intros; congruence] |]
         end;
  discriminate H.

(** A literal entry has primitive readings and flags. *)
Ltac solve_typedFields :=
  eexists _, _, _, _; split; [vm_compute; reflexivity |];
  split; [unfold readings; solve_lookups |];
  split; [reflexivity |]; split; [reflexivity |];
  split; [eexists; split; [reflexivity | solve_lookups] |];
  split; [reflexivity |];
  eexists; split; [reflexivity | solve_lookups].

Definition typedStore (o : obj) : Prop :=
  NoDup (Props.keys o)
  /\ forall k e, Props.lookup k o = Some e -> typedEntry k e.

Definition typedState (st : App.State) : Prop :=
  exists o : obj, App.entries st = VObj o /\ typedStore o.

(** What a date input gives: nothing, or an ISO date. *)
Definition dateInput (d : string) : bool := String.eqb d "" || iso_date d.

(** The handlers that write the store. *)
Definition writes (a : Ui.Action) : bool :=
  match a with
  | Ui.SelectDate _ | Ui.SelectTab _ | Ui.ExportCSV _ => false
  | _ => true
  end.

(** ** The views, by the fields of the entry *)

Definition alertsOf (e : value) : list Ui.AlertBox :=
  match dangerList e, warnList e with
  | _ :: _, _ => [dangerBox (dangerList e)]
  | [], _ :: _ => [warnBox (warnList e)]
  | [], [] => []
  end.

Definition formOf (d : string) (e : value) : Ui.Form :=
  {| Ui.f_date := d;
     Ui.f_pulse := field e "pulse";
     Ui.f_bpSys := field e "bpSys";
     Ui.f_bpDia := field e "bpDia";
     Ui.f_dizziness := JS.truthy (field e "dizziness");
     Ui.f_syncope := JS.truthy (field e "syncope");
     Ui.f_dyspnea := JS.truthy (field e "dyspnea");
     Ui.f_edema := JS.truthy (field e "edema");
     Ui.f_bleeding := JS.truthy (field e "bleeding");
     Ui.f_fatigue := field e "fatigue";
     Ui.f_notes := field e "notes";
     Ui.f_alerts := alertsOf e;
     Ui.f_am_multaq := taken e "am" "multaq";
     Ui.f_am_edoxaban := taken e "am" "edoxaban";
     Ui.f_am_bisoprolol := taken e "am" "bisoprolol";
     Ui.f_pm_multaq := taken e "pm" "multaq" |}.

Definition detailOf (e : value) : Ui.Detail :=
  {| Ui.d_pulse := JS.or (field e "pulse") (VStr "-");
     Ui.d_bp := Ui.bpText (field e "bpSys") (field e "bpDia");
     Ui.d_fatigue :=
       if App.is_string (field e "fatigue") "2" then "심함"
       else if App.is_string (field e "fatigue") "1" then "약간"
       else "없음";
     Ui.d_bleeding :=
       if JS.truthy (field e "bleeding") then "있음" else "없음";
     Ui.d_notes := JS.or (field e "notes") (VStr "메모 없음") |}.

(** What is rendered: the form of the entry, or the count, the detail and
    the rows latest first, or the points oldest first. *)
Definition viewOf (tab d : string) (e : value) (count : nat)
  (ascending : list value) : Ui.View :=
  if String.eqb tab "오늘 체크" then Ui.CheckIn (formOf d e)
  else if String.eqb tab "기록 보기"
  then Ui.History count (detailOf e) (map rowOf (rev ascending))
  else if String.eqb tab "그래프" then Ui.Charts (map chartPoint ascending)
  else if String.eqb tab "교육" then Ui.Education
  else Ui.HeaderOnly.

(** ** A run of the demo data across midnight *)

(** A clock that reads 2025-11-03 23:59:59.999 in Korea in the first
    fourteen turns of the loop, and 2025-11-04 00:00:00.000 from then on. *)
Definition clockOverMidnight (k : nat) : Z :=
  if (k <? 14)%nat then 1762181999999%Z else 1762182000000%Z.

(* ================================================================== *)
(** * Properties *)

(** ** The language layer on known values *)

Example Number_of_strings :
  map (fun s => Num.to_string (Str.to_number s))
      [ ""; " 72 "; "0.1"; "1e3"; "0x1F"; "-0"; ".5"; "5."; "Infinity";
        "12px"; "1,5"; "1e400" ]
  = [ "0"; "72"; "0.1"; "1000"; "31"; "0"; "0.5"; "5"; "Infinity"; "NaN";
      "NaN"; "Infinity" ].
Proof. vm_compute. reflexivity. Qed.

Example Number_of_values :
  map (fun v => Num.to_string (JS.to_number v))
      [ VUndef; VNull; VBool true; VArr []; VArr [VStr "7"];
        VArr [VNum (Num.of_Z 1); VNum (Num.of_Z 2)]; VObj [] ]
  = [ "NaN"; "0"; "1"; "0"; "7"; "NaN"; "NaN" ].
Proof. vm_compute. reflexivity. Qed.

Example toString_of_numbers :
  map Num.to_string
      [ Num.of_decimal false 1 (-1);
        Num.add (Num.of_decimal false 1 (-1)) (Num.of_decimal false 2 (-1));
        Num.of_decimal false 1 21;
        Num.of_decimal false 123456789012345680000 0;
        Num.of_decimal false 5 (-324);
        Num.of_decimal false 1 (-7);
        Num.of_decimal true 12345 (-2);
        Num.round (Num.of_decimal false 25 (-1));
        Num.round (Num.of_decimal true 25 (-1)) ]
  = [ "0.1"; "0.30000000000000004"; "1e+21"; "123456789012345680000";
      "5e-324"; "1e-7"; "-123.45"; "3"; "-2" ].
Proof. vm_compute. reflexivity. Qed.

Example JSON_round_trip :
  (v <- JSON.parse
          ("{" ++ JSON.quote_string "b" ++ ":[1,null,true],"
               ++ JSON.quote_string "10" ++ ":{}, "
               ++ JSON.quote_string "2" ++ ":" ++ JSON.quote_string "x"
               ++ "}")%string ;;
   Ok (JSON.stringify v))
  = Ok (Some ("{" ++ JSON.quote_string "2" ++ ":" ++ JSON.quote_string "x"
                  ++ "," ++ JSON.quote_string "10" ++ ":{},"
                  ++ JSON.quote_string "b" ++ ":[1,null,true]}")%string).
Proof. vm_compute. reflexivity. Qed.

Example JSON_rejects :
  map JSON.parse [ ""; "{oops"; "[1,]"; "01"; "1."; "undefined"; "NaN" ]
  = repeat (Throw SyntaxError) 7.
Proof. vm_compute. reflexivity. Qed.

Example iso_string_of_times :
  map Date.iso_string
      [ 1762156800123; -1; 951782400000; 253402300800000 ]%Z
  = [ "2025-11-03T08:00:00.123Z"; "1969-12-31T23:59:59.999Z";
      "2000-02-29T00:00:00.000Z"; "+010000-01-01T00:00:00.000Z" ].
Proof. vm_compute. reflexivity. Qed.

Example setDate_back_a_month :
  App.fmtDate Example.kst
    (Date.setDate Example.kst (Some Example.now) (Some (3 - 27)%Z))
  = Ok "2025-10-07".
Proof. vm_compute. reflexivity. Qed.

Example keys_in_order :
  Props.keys
    (Props.set "a" 7 (Props.set "1" 5 (Props.set "a" 1 (Props.set "10" 2
       (Props.set "b" 3 (Props.set "2" 4 (Props.set "01" 9 [])))))))
  = [ "1"; "2"; "10"; "01"; "b"; "a" ].
Proof. vm_compute. reflexivity. Qed.

(** ** Results *)

Lemma mapM_map {A B : Type} (f : A -> result B) (g : A -> B) (l : list A) :
  Forall (fun x => f x = Ok (g x)) l -> mapM f l = Ok (map g l).
Proof.
  induction 1 as [| x l Hx _ IH]; simpl.
  - reflexivity.
  - rewrite Hx. simpl. rewrite IH. reflexivity.
Qed.

(** ** Property lists *)

Section PropsFacts.
Context {A : Type}.
Implicit Types (o : Props.props A) (k : string) (v : A).

Lemma lookup_None_keys k o :
  Props.lookup k o = None <-> ~ In k (Props.keys o).
Proof.
  induction o as [| [k' v'] o IH]; simpl.
  - split; [intros _ [] | reflexivity].
  - destruct (String.eqb_spec k k') as [-> | Hne].
    + split; [discriminate | intros H; exfalso; apply H; left; reflexivity].
    + rewrite IH. split.
      * intros H [E | Hin]; [apply Hne; symmetry; exact E | exact (H Hin)].
      * intros H Hin. apply H. right. exact Hin.
Qed.

Lemma lookup_replace_same k v o :
  Props.lookup k o <> None -> Props.lookup k (Props.replace k v o) = Some v.
Proof.
  induction o as [| [k' v'] o IH]; simpl; intros H.
  - exfalso. apply H. reflexivity.
  - destruct (String.eqb_spec k k') as [-> | Hne]; simpl.
    + rewrite String.eqb_refl. reflexivity.
    + destruct (String.eqb_spec k k') as [E | _]; [contradiction |].
      apply IH. exact H.
Qed.

Lemma lookup_replace_other k k' v o :
  k' <> k -> Props.lookup k' (Props.replace k v o) = Props.lookup k' o.
Proof.
  intros Hne. induction o as [| [k0 v0] o IH]; simpl.
  - reflexivity.
  - destruct (String.eqb_spec k k0) as [-> | Hk]; simpl.
    + destruct (String.eqb_spec k' k0) as [E | _]; [contradiction | reflexivity].
    + destruct (String.eqb k' k0); [reflexivity | exact IH].
Qed.

Lemma keys_replace k v o :
  Props.keys (Props.replace k v o) = Props.keys o.
Proof.
  induction o as [| [k0 v0] o IH]; simpl.
  - reflexivity.
  - destruct (String.eqb_spec k k0) as [-> | Hk]; simpl.
    + reflexivity.
    + f_equal. exact IH.
Qed.

Lemma lookup_insert_index_same i k v o :
  Props.lookup k o = None ->
  Props.lookup k (Props.insert_index i k v o) = Some v.
Proof.
  induction o as [| [k0 v0] o IH]; simpl; intros H.
  - rewrite String.eqb_refl. reflexivity.
  - destruct (String.eqb_spec k k0) as [-> | Hk]; [discriminate |].
    destruct (Props.array_index k0) as [j |].
    + destruct (j <? i)%N; simpl.
      * destruct (String.eqb_spec k k0) as [E | _]; [contradiction |].
        apply IH. exact H.
      * rewrite String.eqb_refl. reflexivity.
    + simpl. rewrite String.eqb_refl. reflexivity.
Qed.

Lemma lookup_insert_index_other i k k' v o :
  k' <> k ->
  Props.lookup k' (Props.insert_index i k v o) = Props.lookup k' o.
Proof.
  intros Hne. induction o as [| [k0 v0] o IH]; simpl.
  - destruct (String.eqb_spec k' k) as [E | _]; [contradiction | reflexivity].
  - destruct (Props.array_index k0) as [j |].
    + destruct (j <? i)%N; simpl.
      * destruct (String.eqb k' k0); [reflexivity | exact IH].
      * destruct (String.eqb_spec k' k) as [E | _]; [contradiction | reflexivity].
    + simpl.
      destruct (String.eqb_spec k' k) as [E | _]; [contradiction | reflexivity].
Qed.

Lemma keys_insert_index i k v o :
  Permutation (Props.keys (Props.insert_index i k v o)) (k :: Props.keys o).
Proof.
  induction o as [| [k0 v0] o IH]; simpl.
  - apply Permutation_refl.
  - destruct (Props.array_index k0) as [j |].
    + destruct (j <? i)%N; simpl.
      * eapply perm_trans; [apply perm_skip; exact IH | apply perm_swap].
      * apply Permutation_refl.
    + apply Permutation_refl.
Qed.

Lemma lookup_app_None k o o' :
  Props.lookup k o = None -> Props.lookup k (o ++ o') = Props.lookup k o'.
Proof.
  induction o as [| [k0 v0] o IH]; simpl; intros H.
  - reflexivity.
  - destruct (String.eqb k k0); [discriminate | apply IH; exact H].
Qed.

Lemma lookup_app_Some k v o o' :
  Props.lookup k o = Some v -> Props.lookup k (o ++ o') = Some v.
Proof.
  induction o as [| [k0 v0] o IH]; simpl; intros H.
  - discriminate.
  - destruct (String.eqb k k0); [exact H | apply IH; exact H].
Qed.

(** Reading back what was written. *)
Lemma lookup_set_same k v o :
  Props.lookup k (Props.set k v o) = Some v.
Proof.
  unfold Props.set. destruct (Props.lookup k o) as [x |] eqn:E.
  - apply lookup_replace_same. rewrite E. discriminate.
  - destruct (Props.array_index k) as [i |].
    + apply lookup_insert_index_same. exact E.
    + rewrite (lookup_app_None _ _ _ E). simpl.
      rewrite String.eqb_refl. reflexivity.
Qed.

(** Writing one key leaves the others as they were. *)
Lemma lookup_set_other k k' v o :
  k' <> k -> Props.lookup k' (Props.set k v o) = Props.lookup k' o.
Proof.
  intros Hne. unfold Props.set. destruct (Props.lookup k o) as [x |] eqn:E.
  - apply lookup_replace_other. exact Hne.
  - destruct (Props.array_index k) as [i |].
    + apply lookup_insert_index_other. exact Hne.
    + destruct (Props.lookup k' o) as [y |] eqn:E'.
      * apply lookup_app_Some. exact E'.
      * rewrite (lookup_app_None _ _ _ E'). simpl.
        destruct (String.eqb_spec k' k) as [E0 | _]; [contradiction | reflexivity].
Qed.

Lemma NoDup_keys_set k v o :
  NoDup (Props.keys o) -> NoDup (Props.keys (Props.set k v o)).
Proof.
  intros Hnd. unfold Props.set. destruct (Props.lookup k o) as [x |] eqn:E.
  - rewrite keys_replace. exact Hnd.
  - apply lookup_None_keys in E.
    destruct (Props.array_index k) as [i |].
    + eapply Permutation_NoDup.
      * apply Permutation_sym. apply keys_insert_index.
      * constructor; assumption.
    + unfold Props.keys. rewrite map_app. simpl.
      eapply Permutation_NoDup.
      * apply Permutation_cons_append.
      * constructor; assumption.
Qed.

Lemma NoDup_keys_assign src o :
  NoDup (Props.keys o) -> NoDup (Props.keys (Props.assign o src)).
Proof.
  unfold Props.assign. revert o.
  induction src as [| [k v] src IH]; simpl; intros o Hnd.
  - exact Hnd.
  - apply IH. apply NoDup_keys_set. exact Hnd.
Qed.

(** Copying properties whose keys are distinct: each is found as written,
    the rest of the target is untouched. *)
Lemma lookup_assign k src o :
  NoDup (Props.keys src) ->
  Props.lookup k (Props.assign o src) =
  match Props.lookup k src with
  | Some v => Some v
  | None => Props.lookup k o
  end.
Proof.
  unfold Props.assign. revert o.
  induction src as [| [k0 v0] src IH]; simpl; intros o Hnd.
  - reflexivity.
  - inversion Hnd as [| ? ? Hnotin Hnd']; subst.
    rewrite (IH _ Hnd').
    destruct (String.eqb_spec k k0) as [-> | Hne].
    + apply lookup_None_keys in Hnotin. rewrite Hnotin.
      apply lookup_set_same.
    + destruct (Props.lookup k src); [reflexivity |].
      apply lookup_set_other. exact Hne.
Qed.

Lemma lookup_delete_same k o :
  Props.lookup k (Props.delete k o) = None.
Proof.
  induction o as [| [k0 v0] o IH]; simpl.
  - reflexivity.
  - destruct (String.eqb_spec k k0) as [-> | Hne]; simpl.
    + exact IH.
    + destruct (String.eqb_spec k k0) as [E | _]; [contradiction | exact IH].
Qed.

Lemma lookup_delete_other k k' o :
  k' <> k -> Props.lookup k' (Props.delete k o) = Props.lookup k' o.
Proof.
  intros Hne. induction o as [| [k0 v0] o IH]; simpl.
  - reflexivity.
  - destruct (String.eqb_spec k k0) as [-> | Hk]; simpl.
    + destruct (String.eqb_spec k' k0) as [E | _]; [contradiction | exact IH].
    + destruct (String.eqb k' k0); [reflexivity | exact IH].
Qed.

End PropsFacts.

(** A spread into an empty literal reads like the object spread. *)
Lemma lookup_spread_obj (k : string) (o : obj) :
  NoDup (Props.keys o) ->
  Props.lookup k (JS.spread [] (VObj o)) = Props.lookup k o.
Proof.
  intros Hnd. unfold JS.spread. simpl.
  rewrite (lookup_assign k o [] Hnd). simpl.
  destruct (Props.lookup k o); reflexivity.
Qed.

Lemma NoDup_keys_spread (v : value) :
  NoDup (Props.keys (JS.spread [] v)).
Proof.
  unfold JS.spread. apply NoDup_keys_assign. constructor.
Qed.

(* ================================================================== *)
(** ** The record store: [updateEntry] and [resetToday] *)

Section Store.
Variable todayStr : string.
Variables (o : obj) (d tb : string) (ls : Storage.t).

Abbreviation st := (stateOf o d tb ls).
Abbreviation prior := (shown todayStr o d).
Abbreviation next := (updated todayStr o d).

Lemma entry_shown : App.entry todayStr st = Ok prior.
Proof.
  unfold App.entry, App.entry_of, shown, freshEntry, JS.or. simpl.
  destruct (Props.lookup d o) as [e |]; simpl; reflexivity.
Qed.

Lemma updateEntry_updated (patch : value) :
  App.updateEntry todayStr patch st =
  Ok {| App.entries := VObj (next patch); App.date := d; App.tab := tb;
        App.storage := App.saveEntries (VObj (next patch)) ls |}.
Proof.
  unfold App.updateEntry. rewrite entry_shown. reflexivity.
Qed.

Lemma NoDup_keys_updated (patch : value) :
  NoDup (Props.keys (next patch)).
Proof.
  unfold updated. apply NoDup_keys_set. apply NoDup_keys_spread.
Qed.

Lemma lookup_updated_same (patch : value) :
  Props.lookup d (next patch)
  = Some (VObj (JS.spread (JS.spread [] prior) patch)).
Proof. unfold updated. apply lookup_set_same. Qed.

Lemma lookup_updated_other (patch : value) (k : string) :
  NoDup (Props.keys o) -> k <> d ->
  Props.lookup k (next patch) = Props.lookup k o.
Proof.
  intros Hnd Hk. unfold updated.
  rewrite (lookup_set_other _ _ _ _ Hk). apply lookup_spread_obj. exact Hnd.
Qed.

(** After a toggle of one medication flag, on an entry whose [meds] and
    whose part of it are objects: the flag is set and its siblings are as
    they were. *)
Lemma toggleMed_keeps_siblings (part name : string) (v : bool) (m p : obj) :
  JS.get prior "meds" = Ok (VObj m) -> NoDup (Props.keys m) ->
  Props.lookup part m = Some (VObj p) -> NoDup (Props.keys p) ->
  exists st' e' m' p',
    App.toggleMed todayStr part name v st = Ok st'
    /\ App.entry todayStr st' = Ok e'
    /\ JS.get e' "meds" = Ok (VObj m')
    /\ Props.lookup part m' = Some (VObj p')
    /\ Props.lookup name p' = Some (VBool v)
    /\ (forall name', name' <> name ->
         Props.lookup name' p' = Props.lookup name' p)
    /\ (forall part', part' <> part ->
         Props.lookup part' m' = Props.lookup part' m).
Proof.
  intros Hm Hndm Hp Hndp.
  set (p' := Props.set name (VBool v) (JS.spread [] (VObj p))).
  set (m' := Props.set part (VObj p') (JS.spread [] (VObj m))).
  set (patch := VObj [("meds", VObj m')]).
  exists {| App.entries := VObj (next patch); App.date := d; App.tab := tb;
            App.storage := App.saveEntries (VObj (next patch)) ls |}.
  exists (VObj (JS.spread (JS.spread [] prior) patch)), m', p'.
  split; [| split; [| split; [| split; [| split; [| split]]]]].
  - unfold App.toggleMed. rewrite entry_shown. simpl. rewrite Hm. simpl.
    rewrite Hp. simpl. apply updateEntry_updated.
  - unfold App.entry, App.entry_of. simpl.
    rewrite lookup_updated_same. reflexivity.
  - simpl. unfold JS.spread at 1. simpl. rewrite lookup_set_same. reflexivity.
  - unfold m'. apply lookup_set_same.
  - unfold p'. apply lookup_set_same.
  - intros name' Hne. unfold p'. rewrite (lookup_set_other _ _ _ _ Hne).
    apply lookup_spread_obj. exact Hndp.
  - intros part' Hne. unfold m'. rewrite (lookup_set_other _ _ _ _ Hne).
    apply lookup_spread_obj. exact Hndm.
Qed.

End Store.

(** C1 (as amended).  [updateEntry(patch)] on the date [d] gives a store
    that holds at [d] the top-level merge [{ ...entry, ...patch }] of the
    shown entry (the stored one, or a fresh default for [d]) with the patch,
    and that is the old store at every other date; the patch's [meds], when
    it has one, replaces the entry's [meds] whole.  The sibling medication
    flags survive when the patch is built as the form's toggles build it:
    the toggled flag is set, every other flag of that part and every other
    part of [meds] is as it was. *)
Theorem updateEntry_shallow_merge :
  forall (todayStr : string) (o : obj) (d tb : string) (ls : Storage.t)
         (patch : value),
    NoDup (Props.keys o) ->
    let st := {| App.entries := VObj o; App.date := d; App.tab := tb;
                 App.storage := ls |} in
    let prior := shown todayStr o d in
    (exists o',
        App.updateEntry todayStr patch st
        = Ok {| App.entries := VObj o'; App.date := d; App.tab := tb;
                App.storage := App.saveEntries (VObj o') ls |}
        /\ Props.lookup d o'
           = Some (VObj (JS.spread (JS.spread [] prior) patch))
        /\ (forall k, k <> d -> Props.lookup k o' = Props.lookup k o)
        /\ (forall pm x, patch = VObj pm -> Props.lookup "meds" pm = Some x ->
            NoDup (Props.keys pm) ->
            Props.lookup "meds" (JS.spread (JS.spread [] prior) patch)
            = Some x))
    /\ (forall (part name : string) (v : bool) (m p : obj),
          JS.get prior "meds" = Ok (VObj m) -> NoDup (Props.keys m) ->
          Props.lookup part m = Some (VObj p) -> NoDup (Props.keys p) ->
          exists st' e' m' p',
            App.toggleMed todayStr part name v st = Ok st'
            /\ App.entry todayStr st' = Ok e'
            /\ JS.get e' "meds" = Ok (VObj m')
            /\ Props.lookup part m' = Some (VObj p')
            /\ Props.lookup name p' = Some (VBool v)
            /\ (forall name', name' <> name ->
                 Props.lookup name' p' = Props.lookup name' p)
            /\ (forall part', part' <> part ->
                 Props.lookup part' m' = Props.lookup part' m)).
Proof.
  intros todayStr o d tb ls patch Hnd st prior. split.
  - exists (updated todayStr o d patch).
    split; [apply updateEntry_updated |].
    split; [apply lookup_updated_same |].
    split; [intros k Hk; apply lookup_updated_other; assumption |].
    intros pm x -> Hx Hpm. unfold JS.spread at 1. simpl.
    rewrite (lookup_assign _ pm _ Hpm). rewrite Hx. reflexivity.
  - intros part name v m p. apply toggleMed_keeps_siblings.
Qed.

(** C1, the claim as stated, fails: on an entry whose morning edoxaban is
    ticked, the patch [{ meds: { am: { multaq: true } } }] leaves
    [meds.am.edoxaban] undefined. *)
Lemma nested_patch_clears_sibling :
  (e <- App.entry Example.today (Example.state Example.store1 "2025-11-01") ;;
   readMed e "am" "edoxaban") = Ok (VBool true)
  /\ (st' <- App.updateEntry Example.today Example.nestedPatch
               (Example.state Example.store1 "2025-11-01") ;;
      e' <- App.entry Example.today st' ;;
      readMed e' "am" "edoxaban") = Ok VUndef.
Proof. split; vm_compute; reflexivity. Qed.

(** A run on the example store: the toggle of the morning multaq keeps the
    morning edoxaban ticked. *)
Lemma updateEntry_shallow_merge_witness :
  NoDup (Props.keys Example.store1)
  /\ exists st' e' m' p',
      App.toggleMed Example.today "am" "multaq" true
        (Example.state Example.store1 "2025-11-01") = Ok st'
      /\ App.entry Example.today st' = Ok e'
      /\ JS.get e' "meds" = Ok (VObj m')
      /\ Props.lookup "am" m' = Some (VObj p')
      /\ Props.lookup "multaq" p' = Some (VBool true)
      /\ Props.lookup "edoxaban" p' = Some (VBool true).
Proof.
  assert (Hnd : NoDup (Props.keys Example.store1)).
  { repeat constructor. simpl. intros []. }
  split; [exact Hnd |].
  destruct (updateEntry_shallow_merge Example.today Example.store1
              "2025-11-01" "오늘 체크" [] Example.nestedPatch Hnd)
    as [_ Htoggle].
  destruct (Htoggle "am" "multaq" true
              [ ("am", VObj [ ("multaq", VBool false);
                              ("edoxaban", VBool true);
                              ("bisoprolol", VBool false) ]);
                ("pm", VObj [ ("multaq", VBool false) ]) ]
              [ ("multaq", VBool false); ("edoxaban", VBool true);
                ("bisoprolol", VBool false) ])
    as (st' & e' & m' & p' & H1 & H2 & H3 & H4 & H5 & H6 & _).
  - reflexivity.
  - repeat constructor; simpl; intuition discriminate.
  - reflexivity.
  - repeat constructor; simpl; intuition discriminate.
  - exists st', e', m', p'.
    repeat (split; [assumption |]).
    rewrite H6; [reflexivity | discriminate].
Defined.

(** C7.  After [updateEntry(patch)] on the date [d], [resetToday] gives a
    store without the key [d], whatever the patch; [resetToday] by itself
    deletes [d] and leaves every other date as it was. *)
Theorem resetToday_after_updateEntry :
  forall (todayStr : string) (o : obj) (d tb : string) (ls : Storage.t)
         (patch : value),
    NoDup (Props.keys o) ->
    let st := {| App.entries := VObj o; App.date := d; App.tab := tb;
                 App.storage := ls |} in
    (exists st1 st2 o2,
        App.updateEntry todayStr patch st = Ok st1
        /\ App.resetToday st1 = Ok st2
        /\ App.entries st2 = VObj o2
        /\ Props.lookup d o2 = None
        /\ ~ In d (Props.keys o2)
        /\ JS.get (App.entries st2) d = Ok VUndef
        /\ (forall k, k <> d -> Props.lookup k o2 = Props.lookup k o)
        /\ App.storage st2 = App.saveEntries (VObj o2) (App.storage st1))
    /\ (exists st' o',
          App.resetToday st = Ok st'
          /\ App.entries st' = VObj o'
          /\ Props.lookup d o' = None
          /\ (forall k, k <> d -> Props.lookup k o' = Props.lookup k o)
          /\ App.storage st' = App.saveEntries (VObj o') ls).
Proof.
  intros todayStr o d tb ls patch Hnd st. split.
  - set (o1 := updated todayStr o d patch).
    set (o2 := Props.delete d (JS.spread [] (VObj o1))).
    exists {| App.entries := VObj o1; App.date := d; App.tab := tb;
              App.storage := App.saveEntries (VObj o1) ls |}.
    exists {| App.entries := VObj o2; App.date := d; App.tab := tb;
              App.storage :=
                App.saveEntries (VObj o2) (App.saveEntries (VObj o1) ls) |}.
    exists o2.
    assert (Hd : Props.lookup d o2 = None) by apply lookup_delete_same.
    split; [apply updateEntry_updated |].
    split; [reflexivity |].
    split; [reflexivity |].
    split; [exact Hd |].
    split; [apply lookup_None_keys; exact Hd |].
    split; [simpl; rewrite Hd; reflexivity |].
    split; [| reflexivity].
    intros k Hk. unfold o2.
    rewrite (lookup_delete_other _ _ _ Hk).
    rewrite lookup_spread_obj by apply NoDup_keys_updated.
    apply lookup_updated_other; assumption.
  - exists {| App.entries := VObj (Props.delete d (JS.spread [] (VObj o)));
              App.date := d; App.tab := tb;
              App.storage :=
                App.saveEntries
                  (VObj (Props.delete d (JS.spread [] (VObj o)))) ls |}.
    exists (Props.delete d (JS.spread [] (VObj o))).
    split; [reflexivity |].
    split; [reflexivity |].
    split; [apply lookup_delete_same |].
    split; [| reflexivity].
    intros k Hk. rewrite (lookup_delete_other _ _ _ Hk).
    apply lookup_spread_obj. exact Hnd.
Qed.

(** A run on the example store. *)
Lemma resetToday_after_updateEntry_witness :
  NoDup (Props.keys Example.store1)
  /\ exists st1 st2 o2,
      App.updateEntry Example.today Example.nestedPatch
        (Example.state Example.store1 "2025-11-01") = Ok st1
      /\ App.resetToday st1 = Ok st2
      /\ App.entries st2 = VObj o2
      /\ Props.lookup "2025-11-01" o2 = None.
Proof.
  assert (Hnd : NoDup (Props.keys Example.store1)).
  { repeat constructor. simpl. intros []. }
  split; [exact Hnd |].
  destruct (resetToday_after_updateEntry Example.today Example.store1
              "2025-11-01" "오늘 체크" [] Example.nestedPatch Hnd)
    as [(st1 & st2 & o2 & H1 & H2 & H3 & H4 & _) _].
  exists st1, st2, o2. repeat (split; [assumption |]). exact H4.
Defined.

(* ================================================================== *)
(** ** The danger flags *)

(** Reading a property of anything but [undefined] and [null] succeeds. *)
Lemma get_field (e : value) (k : string) :
  JS.nullish e = false -> JS.get e k = Ok (field e k).
Proof.
  unfold field. destruct e; simpl; intros H; try reflexivity; discriminate H.
Qed.

Lemma push_if_flagIf (c : bool) (msg : string) (flags : list string) :
  App.push_if c msg flags = flags ++ flagIf c msg.
Proof.
  unfold App.push_if, flagIf. destruct c; [reflexivity |].
  rewrite app_nil_r. reflexivity.
Qed.

(** The flags, in the order of the source. *)
Lemma dangerFlags_eq (e : value) :
  JS.nullish e = false ->
  App.dangerFlags e =
  Ok (flagIf (pulseAlarm e) App.pulseFlag
      ++ flagIf (lowBPAlarm e) App.lowBPFlag
      ++ flagIf (JS.truthy (field e "bleeding")) App.bleedingFlag
      ++ flagIf (JS.truthy (field e "syncope")) App.syncopeFlag
      ++ flagIf (JS.truthy (field e "dyspnea")) App.dyspneaFlag).
Proof.
  intros H. unfold App.dangerFlags.
  rewrite !(get_field e _ H). simpl.
  rewrite !push_if_flagIf. simpl.
  rewrite <- !app_assoc. reflexivity.
Qed.

(** The five messages are five different strings. *)
Lemma In_dangerFlags (c1 c2 c3 c4 c5 : bool) :
  let flags :=
    flagIf c1 App.pulseFlag ++ flagIf c2 App.lowBPFlag
    ++ flagIf c3 App.bleedingFlag ++ flagIf c4 App.syncopeFlag
    ++ flagIf c5 App.dyspneaFlag in
  (In App.pulseFlag flags <-> c1 = true)
  /\ (In App.lowBPFlag flags <-> c2 = true).
Proof.
  unfold App.pulseFlag, App.lowBPFlag, App.bleedingFlag, App.syncopeFlag,
    App.dyspneaFlag.
  destruct c1, c2, c3, c4, c5; simpl; split; split; intros H;
    try reflexivity; try discriminate H; auto;
    repeat (destruct H as [H | H]; try discriminate H); try contradiction.
Qed.

(** C2 (as amended).  The low-blood-pressure flag is produced exactly when
    the parsed systolic and diastolic values are both truthy numbers and the
    systolic value is below 90 OR the diastolic value is below 60. *)
Theorem lowBP_flag_iff :
  forall e : value,
    JS.nullish e = false ->
    let sys := JS.to_number (field e "bpSys") in
    let dia := JS.to_number (field e "bpDia") in
    exists flags,
      App.dangerFlags e = Ok flags
      /\ (In App.lowBPFlag flags <->
          Num.truthy sys = true /\ Num.truthy dia = true
          /\ (Num.lt sys (App.num 90) = true
              \/ Num.lt dia (App.num 60) = true)).
Proof.
  intros e H sys dia. eexists. split; [apply dangerFlags_eq; exact H |].
  rewrite (proj2 (In_dangerFlags _ _ _ _ _)).
  unfold lowBPAlarm. fold sys. fold dia.
  rewrite !andb_true_iff, orb_true_iff. tauto.
Qed.

(** A run on the entry with 80 over 70. *)
Lemma lowBP_flag_iff_witness :
  JS.nullish Example.lowSysOnly = false
  /\ exists flags,
      App.dangerFlags Example.lowSysOnly = Ok flags
      /\ In App.lowBPFlag flags.
Proof.
  split; [reflexivity |].
  destruct (lowBP_flag_iff Example.lowSysOnly eq_refl) as (flags & Hf & Hin).
  exists flags. split; [exact Hf |].
  apply Hin. vm_compute. repeat split. left. reflexivity.
Defined.

(** C2, the claim as stated, fails: with a systolic value of 80 and a
    diastolic value of 70 the flag is produced, although the diastolic
    value is not below 60. *)
Lemma lowBP_flag_without_low_diastolic :
  App.dangerFlags Example.lowSysOnly = Ok [App.lowBPFlag]
  /\ Num.lt (JS.to_number (field Example.lowSysOnly "bpSys")) (App.num 90)
     = true
  /\ Num.lt (JS.to_number (field Example.lowSysOnly "bpDia")) (App.num 60)
     = false.
Proof. repeat split; vm_compute; reflexivity. Qed.

(** C3.  The flags come in one fixed order: pulse out of [50, 110] (only
    when the pulse parses to a truthy number: a pulse that parses to zero
    raises no flag), low blood pressure, bleeding, syncope, dyspnea.  For
    pulse 120, systolic 80, diastolic 50 and bleeding the flags are the pulse
    message, the low-blood-pressure message and the bleeding message, in
    that order, whatever the order of the entry's keys. *)
Theorem dangerFlags_priority :
  (forall e : value,
      JS.nullish e = false ->
      exists flags,
        App.dangerFlags e = Ok flags
        /\ flags =
           flagIf (pulseAlarm e) App.pulseFlag
           ++ flagIf (lowBPAlarm e) App.lowBPFlag
           ++ flagIf (JS.truthy (field e "bleeding")) App.bleedingFlag
           ++ flagIf (JS.truthy (field e "syncope")) App.syncopeFlag
           ++ flagIf (JS.truthy (field e "dyspnea")) App.dyspneaFlag
        /\ (In App.pulseFlag flags <->
            let p := JS.to_number (field e "pulse") in
            Num.truthy p = true
            /\ (Num.lt p (App.num 50) = true
                \/ Num.gt p (App.num 110) = true))
        /\ (Num.truthy (JS.to_number (field e "pulse")) = false ->
            ~ In App.pulseFlag flags))
  /\ App.dangerFlags Example.alarming
     = Ok [App.pulseFlag; App.lowBPFlag; App.bleedingFlag]
  /\ App.dangerFlags Example.alarmingReordered
     = Ok [App.pulseFlag; App.lowBPFlag; App.bleedingFlag]
  /\ (JS.to_number (field Example.pulseZero "pulse") = Num.zero
      /\ Num.lt Num.zero (App.num 50) = true
      /\ App.dangerFlags Example.pulseZero = Ok []).
Proof.
  split; [| repeat split; vm_compute; reflexivity].
  intros e H. eexists. split; [apply dangerFlags_eq; exact H |].
  split; [reflexivity |].
  assert (Hp : In App.pulseFlag
                 (flagIf (pulseAlarm e) App.pulseFlag
                  ++ flagIf (lowBPAlarm e) App.lowBPFlag
                  ++ flagIf (JS.truthy (field e "bleeding")) App.bleedingFlag
                  ++ flagIf (JS.truthy (field e "syncope")) App.syncopeFlag
                  ++ flagIf (JS.truthy (field e "dyspnea")) App.dyspneaFlag)
               <-> pulseAlarm e = true)
    by apply (proj1 (In_dangerFlags _ _ _ _ _)).
  split.
  - rewrite Hp. unfold pulseAlarm. cbv zeta.
    rewrite andb_true_iff, orb_true_iff. tauto.
  - intros Hz. rewrite Hp. unfold pulseAlarm. cbv zeta. rewrite Hz.
    simpl. discriminate.
Qed.

(** A run on the entry of the example. *)
Lemma dangerFlags_priority_witness :
  JS.nullish Example.alarming = false
  /\ exists flags,
      App.dangerFlags Example.alarming = Ok flags
      /\ In App.pulseFlag flags.
Proof.
  split; [reflexivity |].
  destruct (proj1 dangerFlags_priority Example.alarming eq_refl)
    as (flags & Hf & _ & Hin & _).
  exists flags. split; [exact Hf |].
  apply Hin. vm_compute. split; [reflexivity |]. right. reflexivity.
Defined.

(* ================================================================== *)
(** ** Loading the store *)

(** What [loadEntries] returns: it never throws; it returns the empty
    object when the key is missing or holds the empty string, when the
    stored text is not JSON, and when the parsed value is a number, a
    string, a boolean or [null]; a parsed object or array is returned as it
    is. *)
Lemma loadEntries_cases (ls : Storage.t) :
  App.loadEntries ls =
  Ok (match Props.lookup App.STORAGE_KEY ls with
      | None => VObj []
      | Some raw =>
          if String.eqb raw "" then VObj []
          else match JSON.parse raw with
               | Throw _ => VObj []
               | Ok (VObj o) => VObj o
               | Ok (VArr l) => VArr l
               | Ok _ => VObj []
               end
      end).
Proof.
  unfold App.loadEntries, Storage.getItem.
  destruct (Props.lookup App.STORAGE_KEY ls) as [raw |]; simpl; [| reflexivity].
  destruct (String.eqb raw ""); simpl; [reflexivity |].
  destruct (JSON.parse raw) as [v | err]; simpl; [| reflexivity].
  destruct v as [| | b | n | s | l | o]; simpl; try reflexivity.
  - destruct b; reflexivity.
  - destruct (Num.truthy n); reflexivity.
  - destruct (negb (String.eqb s "")); reflexivity.
Qed.

(** C4, on the stored text [[1,2]]: a JSON value that is not an object,
    and [loadEntries] returns the array, not the empty mapping. *)
Theorem loadEntries_array :
  (forall ls : Storage.t, exists v, App.loadEntries ls = Ok v)
  /\ App.loadEntries [] = Ok (VObj [])
  /\ App.loadEntries [ (App.STORAGE_KEY, "{oops") ] = Ok (VObj [])
  /\ App.loadEntries [ (App.STORAGE_KEY, "5") ] = Ok (VObj [])
  /\ App.loadEntries [ (App.STORAGE_KEY, "null") ] = Ok (VObj [])
  /\ App.loadEntries Example.arrayStorage
     = Ok (VArr [VNum (Num.of_Z 1); VNum (Num.of_Z 2)]).
Proof.
  split.
  - intros ls. eexists. apply loadEntries_cases.
  - repeat split; vm_compute; reflexivity.
Qed.

(* ================================================================== *)
(** ** Sorting *)

Section SortFacts.
Variable cmp : value -> value -> result Z.
Variable P : value -> Prop.
Variable R : value -> value -> Prop.

(** On the elements at hand the comparison returns, and its sign orders
    them by [R]. *)
Hypothesis cmp_ok :
  forall x y, P x -> P y -> exists c, JS.sort_compare cmp x y = Ok c.
Hypothesis cmp_le :
  forall x y c, P x -> P y ->
    JS.sort_compare cmp x y = Ok c -> (c <= 0)%Z -> R x y.
Hypothesis cmp_gt :
  forall x y c, P x -> P y ->
    JS.sort_compare cmp x y = Ok c -> (0 < c)%Z -> R y x.

Lemma insert_ok (x : value) (l : list value) :
  P x -> Forall P l ->
  exists r, JS.insert cmp x l = Ok r /\ Permutation (x :: l) r /\ Forall P r.
Proof.
  intros Hx Hl. induction Hl as [| y l Hy Hl IH]; simpl.
  - exists [x]. split; [reflexivity |]. split; [apply Permutation_refl |].
    constructor; [exact Hx | constructor].
  - destruct (cmp_ok x y Hx Hy) as [c Hc]. rewrite Hc. simpl.
    destruct (c <=? 0)%Z.
    + exists (x :: y :: l). split; [reflexivity |].
      split; [apply Permutation_refl |].
      constructor; [exact Hx | constructor; assumption].
    + destruct IH as (r & Hr & Hperm & HP). rewrite Hr. simpl.
      exists (y :: r). split; [reflexivity |]. split.
      * eapply perm_trans; [apply perm_swap | apply perm_skip; exact Hperm].
      * constructor; assumption.
Qed.

Lemma insert_HdRel (x y : value) (l r : list value) :
  JS.insert cmp x l = Ok r -> R y x -> HdRel R y l -> HdRel R y r.
Proof.
  destruct l as [| z l]; simpl; intros Hr Hyx Hyl.
  - injection Hr as <-. constructor. exact Hyx.
  - destruct (JS.sort_compare cmp x z) as [c | e]; simpl in Hr;
      [| discriminate Hr].
    destruct (c <=? 0)%Z.
    + injection Hr as <-. constructor. exact Hyx.
    + destruct (JS.insert cmp x l) as [r' | e]; simpl in Hr;
        [| discriminate Hr].
      injection Hr as <-. constructor. inversion Hyl; assumption.
Qed.

Lemma insert_sorted (x : value) (l : list value) :
  P x -> Forall P l -> Sorted R l ->
  forall r, JS.insert cmp x l = Ok r -> Sorted R r.
Proof.
  intros Hx Hl. induction Hl as [| y l Hy Hl IH]; simpl; intros Hs r Hr.
  - injection Hr as <-. constructor; constructor.
  - destruct (JS.sort_compare cmp x y) as [c | e] eqn:Hc; simpl in Hr;
      [| discriminate Hr].
    destruct (Z.leb_spec c 0) as [Hle | Hgt].
    + injection Hr as <-. constructor; [exact Hs |].
      constructor. exact (cmp_le x y c Hx Hy Hc Hle).
    + destruct (JS.insert cmp x l) as [r' | e] eqn:Hr'; simpl in Hr;
        [| discriminate Hr].
      injection Hr as <-. inversion Hs as [| ? ? Hs' Hhd]; subst.
      constructor; [exact (IH Hs' r' eq_refl) |].
      eapply insert_HdRel; [exact Hr' | | exact Hhd].
      exact (cmp_gt x y c Hx Hy Hc Hgt).
Qed.

(** The sort returns a sorted arrangement of its elements. *)
Lemma sort_ok (l : list value) :
  Forall P l ->
  exists s,
    JS.sort cmp l = Ok s /\ Permutation l s /\ Forall P s /\ Sorted R s.
Proof.
  induction 1 as [| x l Hx Hl IH]; simpl.
  - exists []. split; [reflexivity |]. split; [apply perm_nil |].
    split; constructor.
  - destruct IH as (s & Hs & Hperm & HP & Hsorted). rewrite Hs. simpl.
    destruct (insert_ok x s Hx HP) as (r & Hr & Hperm' & HP').
    exists r. split; [exact Hr |]. split.
    + eapply perm_trans; [apply perm_skip; exact Hperm | exact Hperm'].
    + split; [exact HP' |]. exact (insert_sorted x s Hx HP Hsorted r Hr).
Qed.

End SortFacts.

(** ** Comparing strings by their characters *)

Lemma compare_Lt_trans (a b c : string) :
  String.compare a b = Lt -> String.compare b c = Lt ->
  String.compare a c = Lt.
Proof.
  intros H1 H2. apply String_as_OT.cmp_lt.
  eapply String_as_OT.lt_trans; apply String_as_OT.cmp_lt; eassumption.
Qed.

Lemma leb_trans (a b c : string) :
  String.leb a b = true -> String.leb b c = true -> String.leb a c = true.
Proof.
  unfold String.leb.
  destruct (String.compare a b) eqn:Hab; [| | discriminate].
  - apply String.compare_eq_iff in Hab. subst. auto.
  - destruct (String.compare b c) eqn:Hbc; [| | discriminate].
    + apply String.compare_eq_iff in Hbc. subst. rewrite Hab. auto.
    + rewrite (compare_Lt_trans a b c Hab Hbc). auto.
Qed.

Lemma date_le_trans (a b c : value) :
  date_le a b -> date_le b c -> date_le a c.
Proof. unfold date_le. apply leb_trans. Qed.

Lemma Sorted_date_le_strongly (l : list value) :
  Sorted date_le l -> StronglySorted date_le l.
Proof.
  apply Sorted_StronglySorted. intros a b c. apply date_le_trans.
Qed.

(* ================================================================== *)
(** ** The chart series: [daysData] *)

Lemma dated_get (e : value) :
  dated e = true -> JS.get e "date" = Ok (VStr (date_of e)).
Proof.
  unfold dated, date_of, field.
  destruct (JS.get e "date") as [[| | | | s | |] |]; intros H;
    try discriminate H; reflexivity.
Qed.

Lemma dated_not_nullish (e : value) : dated e = true -> JS.nullish e = false.
Proof. destruct e; simpl; intros H; try reflexivity; discriminate H. Qed.

Lemma iso_dated_dated (e : value) : iso_dated e = true -> dated e = true.
Proof.
  unfold iso_dated, dated.
  destruct (JS.get e "date") as [[| | | | s | |] |]; intros H;
    try discriminate H; reflexivity.
Qed.

Lemma iso_dated_date_of (e : value) :
  iso_dated e = true -> iso_date (date_of e) = true.
Proof.
  unfold iso_dated, date_of, field.
  destruct (JS.get e "date") as [[| | | | s | |] |]; intros H;
    try discriminate H; exact H.
Qed.

Section Series.
Variable localeCompare : string -> string -> Z.

(** What the comparison function returns on two entries with string
    dates. *)
Lemma by_date_dated (x y : value) :
  dated x = true -> dated y = true ->
  JS.sort_compare (App.by_date localeCompare) x y
  = Ok (localeCompare (date_of x) (date_of y)).
Proof.
  intros Hx Hy.
  assert (Ex : JS.sort_compare (App.by_date localeCompare) x y
               = App.by_date localeCompare x y).
  { destruct x; try discriminate Hx; destruct y; try discriminate Hy;
      reflexivity. }
  rewrite Ex. unfold App.by_date.
  rewrite (dated_get x Hx), (dated_get y Hy). reflexivity.
Qed.

(** With string dates the sort returns, whatever the collation. *)
Lemma sort_dated (l : list value) :
  Forall (fun e => dated e = true) l ->
  exists s,
    JS.sort (App.by_date localeCompare) l = Ok s
    /\ Permutation l s /\ Forall (fun e => dated e = true) s.
Proof.
  intros Hl.
  destruct (sort_ok (App.by_date localeCompare) (fun e => dated e = true)
              (fun _ _ => True)) with (l := l)
    as (s & Hs & Hperm & HP & _).
  - intros x y Hx Hy. eexists. apply by_date_dated; assumption.
  - intros. exact I.
  - intros. exact I.
  - exact Hl.
  - exists s. auto.
Qed.

(** With ISO dates, and a collation that orders them as their characters
    do, the sort is ascending by date. *)
Lemma sort_iso_dated (l : list value) :
  orders_iso_dates localeCompare ->
  Forall (fun e => iso_dated e = true) l ->
  exists s,
    JS.sort (App.by_date localeCompare) l = Ok s
    /\ Permutation l s /\ Forall (fun e => iso_dated e = true) s
    /\ Sorted date_le s.
Proof.
  intros Hlc Hl.
  apply (sort_ok (App.by_date localeCompare)
           (fun e => iso_dated e = true) date_le); [| | | exact Hl].
  - intros x y Hx Hy. eexists.
    apply by_date_dated; apply iso_dated_dated; assumption.
  - intros x y c Hx Hy Hc Hle.
    rewrite (by_date_dated x y (iso_dated_dated x Hx) (iso_dated_dated y Hy))
      in Hc.
    injection Hc as <-.
    pose proof (Hlc _ _ (iso_dated_date_of x Hx) (iso_dated_date_of y Hy))
      as E.
    unfold date_le, String.leb. rewrite <- E.
    destruct (Z.compare_spec (localeCompare (date_of x) (date_of y)) 0);
      [reflexivity | reflexivity | lia].
  - intros x y c Hx Hy Hc Hgt.
    rewrite (by_date_dated x y (iso_dated_dated x Hx) (iso_dated_dated y Hy))
      in Hc.
    injection Hc as <-.
    pose proof (Hlc _ _ (iso_dated_date_of x Hx) (iso_dated_date_of y Hy))
      as E.
    unfold date_le, String.leb. rewrite String.compare_antisym, <- E.
    destruct (Z.compare_spec (localeCompare (date_of x) (date_of y)) 0);
      [lia | lia | reflexivity].
Qed.

Lemma or_Number (v : value) :
  JS.or (JS.Number v) VNull = number_or_null v.
Proof.
  unfold JS.or, JS.Number, number_or_null. simpl.
  destruct (JS.to_number v); reflexivity.
Qed.

(** The point computed for one entry with a string date: whatever its
    numeric fields hold, nothing throws. *)
Lemma chartPoint_dated (l : list value) :
  Forall (fun e => dated e = true) l ->
  mapM (fun e =>
          d <- JS.get e "date" ;;
          d5 <- App.call_slice d 5 ;;
          pulse <- JS.get e "pulse" ;;
          bpSys <- JS.get e "bpSys" ;;
          bpDia <- JS.get e "bpDia" ;;
          Ok (VObj [ ("date", d5);
                     ("pulse", JS.or (JS.Number pulse) VNull);
                     ("sys", JS.or (JS.Number bpSys) VNull);
                     ("dia", JS.or (JS.Number bpDia) VNull) ]))
       l
  = Ok (map chartPoint l).
Proof.
  intros Hl. apply mapM_map.
  eapply Forall_impl; [| exact Hl]. intros e He. cbv beta.
  rewrite (dated_get e He). simpl.
  rewrite !(get_field e _ (dated_not_nullish e He)). simpl.
  rewrite !or_Number. reflexivity.
Qed.

Lemma daysData_dated (o : obj) (s : list value) :
  JS.sort (App.by_date localeCompare) (Props.values o) = Ok s ->
  Forall (fun e => dated e = true) s ->
  App.daysData localeCompare (VObj o) = Ok (map chartPoint s).
Proof.
  intros Hs Hd. unfold App.daysData. simpl. rewrite Hs. simpl.
  apply chartPoint_dated. exact Hd.
Qed.

End Series.

(** The collation by character codes orders ISO dates as their characters
    do. *)
Lemma byCode_orders_iso_dates : orders_iso_dates Example.byCode.
Proof.
  intros a b _ _. unfold Example.byCode.
  destruct (String.compare a b); reflexivity.
Qed.

Lemma number_or_null_falsy (v : value) :
  Num.truthy (JS.to_number v) = false -> number_or_null v = VNull.
Proof.
  unfold number_or_null. destruct (JS.to_number v); simpl; intros H;
    try reflexivity; discriminate H.
Qed.

Lemma number_or_null_truthy (v : value) :
  Num.truthy (JS.to_number v) = true ->
  number_or_null v = VNum (JS.to_number v).
Proof.
  unfold number_or_null. destruct (JS.to_number v); simpl; intros H;
    try reflexivity; discriminate H.
Qed.

(** C5.  For a store of entries with ISO dates, under a collation that
    orders ISO dates as their characters do: [daysData] returns one point
    per entry, the entries taken in ascending order of their date strings;
    each numeric field of a point is the number parsed from the entry's
    text, or the null marker when that number is zero or not a number, as
    it is for an empty and for a non-numeric text; nothing throws, whatever
    the numeric texts are. *)
Theorem daysData_sorted_by_date :
  forall (localeCompare : string -> string -> Z) (o : obj),
    orders_iso_dates localeCompare ->
    Forall (fun e => iso_dated e = true) (Props.values o) ->
    (exists sorted,
        App.daysData localeCompare (VObj o) = Ok (map chartPoint sorted)
        /\ Permutation (Props.values o) sorted
        /\ StronglySorted date_le sorted
        /\ List.length (map chartPoint sorted) = List.length o)
    /\ (forall v, Num.truthy (JS.to_number v) = false ->
                  number_or_null v = VNull)
    /\ (forall v, Num.truthy (JS.to_number v) = true ->
                  number_or_null v = VNum (JS.to_number v))
    /\ JS.to_number (VStr "") = Num.zero
    /\ JS.to_number (VStr "abc") = Num.nan
    /\ JS.to_number (VStr "0") = Num.zero
    /\ JS.to_number (VStr "72") = Num.of_Z 72.
Proof.
  intros localeCompare o Hlc Hiso. split.
  - destruct (sort_iso_dated localeCompare (Props.values o) Hlc Hiso)
      as (s & Hs & Hperm & HP & Hsorted).
    exists s. split.
    + apply daysData_dated; [exact Hs |].
      eapply Forall_impl; [| exact HP]. apply iso_dated_dated.
    + split; [exact Hperm |].
      split; [apply Sorted_date_le_strongly; exact Hsorted |].
      rewrite length_map, <- (Permutation_length Hperm).
      unfold Props.values. apply length_map.
  - split; [exact number_or_null_falsy |].
    split; [exact number_or_null_truthy |].
    repeat split; vm_compute; reflexivity.
Qed.

(** A run on three days stored out of order, with the collation by
    character codes. *)
Lemma daysData_sorted_by_date_witness :
  orders_iso_dates Example.byCode
  /\ Forall (fun e => iso_dated e = true) (Props.values Example.store3)
  /\ exists sorted,
      App.daysData Example.byCode (VObj Example.store3)
      = Ok (map chartPoint sorted)
      /\ StronglySorted date_le sorted.
Proof.
  assert (Hiso : Forall (fun e => iso_dated e = true)
                   (Props.values Example.store3)).
  { repeat constructor. }
  split; [exact byCode_orders_iso_dates |]. split; [exact Hiso |].
  destruct (daysData_sorted_by_date Example.byCode Example.store3
              byCode_orders_iso_dates Hiso)
    as [(sorted & Hd & _ & Hs & _) _].
  exists sorted. split; assumption.
Defined.

Lemma iso_date_suffix (s : string) :
  iso_date s = true ->
  exists year,
    String.length year = 5
    /\ s = (year ++ Str.slice 5 s)%string
    /\ String.length (Str.slice 5 s) = 5.
Proof.
  intros H.
  destruct s as [| c0 [| c1 [| c2 [| c3 [| c4 [| c5 [| c6 [| c7 [| c8
                [| c9 [| c10 s]]]]]]]]]]]; try discriminate H.
  exists (String c0 (String c1 (String c2 (String c3 (String c4 ""))))).
  repeat split.
Qed.

(** C9.  The point of an entry carries in its [date] the characters of the
    entry's date from index 5 onward: for an ISO date the five characters
    [MM-DD], without the year.  Two stores that differ in the year give
    the same series, so the full date is not to be had from the series. *)
Theorem daysData_date_is_suffix :
  forall (localeCompare : string -> string -> Z),
    (forall o : obj,
        Forall (fun e => dated e = true) (Props.values o) ->
        exists sorted,
          JS.sort (App.by_date localeCompare) (Props.values o) = Ok sorted
          /\ Permutation (Props.values o) sorted
          /\ App.daysData localeCompare (VObj o) = Ok (map chartPoint sorted)
          /\ (forall e, JS.get (chartPoint e) "date"
                        = Ok (VStr (Str.slice 5 (date_of e)))))
    /\ (forall s, iso_date s = true ->
          exists year, String.length year = 5
                       /\ s = (year ++ Str.slice 5 s)%string
                       /\ String.length (Str.slice 5 s) = 5)
    /\ (Props.keys Example.store2023 <> Props.keys Example.store2024
        /\ App.daysData localeCompare (VObj Example.store2023)
           = App.daysData localeCompare (VObj Example.store2024)).
Proof.
  intros localeCompare. split; [| split].
  - intros o Hd.
    destruct (sort_dated localeCompare (Props.values o) Hd)
      as (s & Hs & Hperm & HP).
    exists s. split; [exact Hs |]. split; [exact Hperm |].
    split; [apply daysData_dated; assumption |].
    intros e. reflexivity.
  - exact iso_date_suffix.
  - split; [discriminate | reflexivity].
Qed.

(** A run on three days stored out of order. *)
Lemma daysData_date_is_suffix_witness :
  Forall (fun e => dated e = true) (Props.values Example.store3)
  /\ exists sorted,
      App.daysData Example.byCode (VObj Example.store3)
      = Ok (map chartPoint sorted).
Proof.
  assert (Hd : Forall (fun e => dated e = true)
                 (Props.values Example.store3)).
  { repeat constructor. }
  split; [exact Hd |].
  destruct (proj1 (daysData_date_is_suffix Example.byCode) Example.store3 Hd)
    as (sorted & _ & _ & H & _).
  exists sorted. exact H.
Defined.

(* ================================================================== *)
(** ** The CSV export *)

Lemma get_opt_field (v : value) (k : string) :
  JS.get_opt v k = Ok (field v k).
Proof. unfold JS.get_opt, field. destruct v; reflexivity. Qed.

(** Reading a medication flag through the optional chain never throws. *)
Lemma med_field (e : value) (part name : string) :
  JS.nullish e = false ->
  App.med e part name = Ok (field (field (field e "meds") part) name).
Proof.
  intros H. unfold App.med. rewrite (get_field e _ H). simpl.
  rewrite get_opt_field. simpl. apply get_opt_field.
Qed.

Lemma notes_replaced (e : value) :
  JS.nullish e = false -> notes_ok e = true ->
  App.call_replace_newlines (JS.or (field e "notes") (VStr ""))
  = Ok (VStr (Str.replace_newlines (notes_text e))).
Proof.
  intros H Hn. unfold notes_ok in Hn. rewrite (get_field e _ H) in Hn.
  unfold notes_text, JS.or.
  destruct (field e "notes") as [| | b | n | s | l | o]; simpl in *;
    try reflexivity.
  - destruct b; [discriminate Hn | reflexivity].
  - destruct (Num.truthy n); [discriminate Hn | reflexivity].
  - destruct (String.eqb_spec s "") as [-> | _]; reflexivity.
  - discriminate Hn.
  - discriminate Hn.
Qed.

Lemma printable_parts (e : value) :
  printable e = true -> dated e = true /\ notes_ok e = true.
Proof. unfold printable. apply andb_true_iff. Qed.

Lemma iso_printable_parts (e : value) :
  iso_printable e = true -> iso_dated e = true /\ printable e = true.
Proof.
  unfold iso_printable, printable. rewrite !andb_true_iff.
  intros [Hi Hn]. rewrite (iso_dated_dated e Hi). auto.
Qed.

(** The row of an entry: its fifteen cells, and no throw. *)
Lemma csvRow_fields (e : value) :
  JS.nullish e = false -> notes_ok e = true ->
  App.csvRow e = Ok (csvFields e).
Proof.
  intros H Hn. unfold App.csvRow.
  rewrite !(get_field e _ H). simpl.
  rewrite !(med_field e _ _ H). simpl.
  rewrite (notes_replaced e H Hn). reflexivity.
Qed.

Lemma join_cellText (sep : string) (l : list value) :
  JS.join sep l = String.concat sep (map cellText l).
Proof.
  unfold JS.join. f_equal. apply map_ext. intros v. destruct v; reflexivity.
Qed.

Lemma csvText_cellText (rows : list (list value)) :
  App.csvText rows =
  String.concat App.newline
    (map (fun r => String.concat "," (map cellText r)) rows).
Proof.
  unfold App.csvText. f_equal. apply map_ext. intros r. apply join_cellText.
Qed.

Lemma chars_replace_newlines (s : string) :
  Str.chars (Str.replace_newlines s) =
  map (fun c => if Ascii.eqb c Str.LF then " "%char else c) (Str.chars s).
Proof.
  unfold Str.replace_newlines, Str.chars, Str.of_chars.
  apply list_ascii_of_string_of_list_ascii.
Qed.

Lemma no_newline_left (s : string) :
  ~ In Str.LF (Str.chars (Str.replace_newlines s)).
Proof.
  rewrite chars_replace_newlines. intros Hin.
  apply in_map_iff in Hin. destruct Hin as (c & Hc & _).
  destruct (Ascii.eqb_spec c Str.LF) as [E | Hne].
  - vm_compute in Hc. discriminate Hc.
  - apply Hne. exact Hc.
Qed.

Section CsvExport.
Variable localeCompare : string -> string -> Z.

Lemma csvRows_printable (o : obj) (s : list value) :
  JS.sort (App.by_date localeCompare) (Props.values o) = Ok s ->
  Forall (fun e => printable e = true) s ->
  App.csvRows localeCompare (VObj o) = Ok (App.csvHeader :: map csvFields s).
Proof.
  intros Hs Hp. unfold App.csvRows. simpl. rewrite Hs. simpl.
  rewrite (mapM_map App.csvRow csvFields s); [reflexivity |].
  eapply Forall_impl; [| exact Hp]. intros e He.
  destruct (printable_parts e He) as [Hd Hn].
  apply csvRow_fields; [apply dated_not_nullish; exact Hd | exact Hn].
Qed.

End CsvExport.

(** C6.  For a store of printable entries with ISO dates, under a
    collation that orders ISO dates as their characters do: the rows of the
    export are the header of fifteen named columns and then one row of
    fifteen cells per entry, the entries in ascending order of their dates,
    so there is one row more than there are entries; the text is the rows
    joined by line feeds, each row its cells joined by commas, a boolean
    cell as [true] or [false] and a string cell as it is, without quotes or
    escapes; in the notes every line feed is replaced by one space. *)
Theorem exportCSV_rows :
  forall (tz : Date.zone) (localeCompare : string -> string -> Z) (o : obj)
         (now : Z) (today : string),
    orders_iso_dates localeCompare ->
    Forall (fun e => iso_printable e = true) (Props.values o) ->
    App.fmtDate tz (Date.of_value now) = Ok today ->
    (exists sorted,
        let rows := App.csvHeader :: map csvFields sorted in
        App.csvRows localeCompare (VObj o) = Ok rows
        /\ Permutation (Props.values o) sorted
        /\ StronglySorted date_le sorted
        /\ List.length rows = List.length o + 1
        /\ Forall (fun r => List.length r = 15) rows
        /\ App.exportCSV tz localeCompare (VObj o) now
           = Ok {| App.content :=
                     String.concat App.newline
                       (map (fun r => String.concat "," (map cellText r))
                            rows);
                   App.mime := "text/csv;charset=utf-8;";
                   App.filename := ("afibcare_" ++ today ++ ".csv")%string |})
    /\ App.csvHeader
       = map VStr
           [ "date"; "pulse"; "bpSys"; "bpDia"; "dizziness"; "syncope";
             "dyspnea"; "edema"; "bleeding"; "fatigue"; "meds_am_multaq";
             "meds_am_edoxaban"; "meds_am_bisoprolol"; "meds_pm_multaq";
             "notes" ]
    /\ (forall b : bool, cellText (VBool b) = if b then "true" else "false")
    /\ (forall s : string, cellText (VStr s) = s)
    /\ (forall s : string,
          Str.chars (Str.replace_newlines s)
          = map (fun c => if Ascii.eqb c Str.LF then " "%char else c)
                (Str.chars s))
    /\ (forall s : string, ~ In Str.LF (Str.chars (Str.replace_newlines s)))
    /\ App.exportCSV Example.kst Example.byCode (VObj Example.storeBare)
         Example.now
       = Ok {| App.content :=
                 String.concat App.newline
                   [ "date,pulse,bpSys,bpDia,dizziness,syncope,dyspnea,edema,bleeding,fatigue,meds_am_multaq,meds_am_edoxaban,meds_am_bisoprolol,meds_pm_multaq,notes";
                     "2025-11-01,,,,,,,,,,,,,,";
                     "2025-11-02,,,,true,,,,,,,true,,,a,b c" ];
               App.mime := "text/csv;charset=utf-8;";
               App.filename := "afibcare_2025-11-03.csv" |}.
Proof.
  intros tz localeCompare o now today Hlc Hiso Htoday. split.
  - assert (Hiso' : Forall (fun e => iso_dated e = true) (Props.values o)).
    { eapply Forall_impl; [| exact Hiso].
      intros e He. apply (iso_printable_parts e He). }
    destruct (sort_iso_dated localeCompare (Props.values o) Hlc Hiso')
      as (s & Hs & Hperm & _ & Hsorted).
    assert (Hp : Forall (fun e => printable e = true) s).
    { eapply Permutation_Forall; [exact Hperm |].
      eapply Forall_impl; [| exact Hiso].
      intros e He. apply (iso_printable_parts e He). }
    pose proof (csvRows_printable localeCompare o s Hs Hp) as Hrows.
    exists s. cbv zeta.
    split; [exact Hrows |].
    split; [exact Hperm |].
    split; [apply Sorted_date_le_strongly; exact Hsorted |].
    split.
    { simpl. rewrite length_map, <- (Permutation_length Hperm).
      unfold Props.values. rewrite length_map. lia. }
    split.
    { constructor; [reflexivity |].
      apply Forall_forall. intros r Hr. apply in_map_iff in Hr.
      destruct Hr as (e & <- & _). reflexivity. }
    unfold App.exportCSV. rewrite Hrows. simpl. rewrite Htoday. simpl.
    rewrite csvText_cellText. reflexivity.
  - split; [reflexivity |].
    split; [intros b; reflexivity |].
    split; [intros s; reflexivity |].
    split; [exact chars_replace_newlines |].
    split; [exact no_newline_left |].
    vm_compute. reflexivity.
Qed.

(** A run on three days stored out of order, in Korea on 2025-11-03. *)
Lemma exportCSV_rows_witness :
  orders_iso_dates Example.byCode
  /\ Forall (fun e => iso_printable e = true) (Props.values Example.store3)
  /\ App.fmtDate Example.kst (Date.of_value Example.now) = Ok Example.today
  /\ exists sorted,
      App.csvRows Example.byCode (VObj Example.store3)
      = Ok (App.csvHeader :: map csvFields sorted)
      /\ List.length (App.csvHeader :: map csvFields sorted) = 4.
Proof.
  assert (Hiso : Forall (fun e => iso_printable e = true)
                   (Props.values Example.store3)).
  { repeat constructor. }
  assert (Htoday : App.fmtDate Example.kst (Date.of_value Example.now)
                   = Ok Example.today).
  { vm_compute. reflexivity. }
  split; [exact byCode_orders_iso_dates |].
  split; [exact Hiso |]. split; [exact Htoday |].
  destruct (exportCSV_rows Example.kst Example.byCode Example.store3
              Example.now Example.today byCode_orders_iso_dates Hiso Htoday)
    as [(sorted & Hrows & _ & _ & Hlen & _) _].
  exists sorted. split; [exact Hrows | exact Hlen].
Defined.

(** C10.  The export is total over entries without their medication record
    or without notes: the row of any entry whose notes are a string or
    missing is computed without a throw, whatever its [meds] holds; a
    medication cell whose record, part or flag is missing is [undefined],
    which a joined row prints as the empty text; missing notes give the
    empty string; and a store of such entries with string dates is
    exported. *)
Theorem csvRow_total :
  forall localeCompare : string -> string -> Z,
    (forall e : value,
        JS.nullish e = false -> notes_ok e = true ->
        exists row,
          App.csvRow e = Ok row
          /\ row = csvFields e
          /\ List.length row = 15
          /\ (forall part name,
                 JS.nullish (field e "meds") = true
                 \/ JS.nullish (field (field e "meds") part) = true
                 \/ JS.get (field (field e "meds") part) name = Ok VUndef ->
                 App.med e part name = Ok VUndef)
          /\ (JS.truthy (field e "notes") = false ->
              nth 14 row VUndef = VStr ""))
    /\ (forall part name, exists v, App.med Example.bare part name = Ok v)
    /\ cellText VUndef = ""
    /\ (forall sep l, JS.join sep l = String.concat sep (map cellText l))
    /\ (forall o : obj,
          Forall (fun e => printable e = true) (Props.values o) ->
          exists sorted,
            App.csvRows localeCompare (VObj o)
            = Ok (App.csvHeader :: map csvFields sorted)
            /\ Permutation (Props.values o) sorted)
    /\ App.csvRow Example.bare
       = Ok [ VStr "2025-11-01"; VUndef; VUndef; VUndef; VUndef; VUndef;
              VUndef; VUndef; VUndef; VUndef; VUndef; VUndef; VUndef; VUndef;
              VStr "" ]
    /\ JS.join "," (csvFields Example.bare) = "2025-11-01,,,,,,,,,,,,,,"
    /\ JS.join "," (csvFields Example.partial)
       = "2025-11-02,,,,true,,,,,,,true,,,a,b c".
Proof.
  intros localeCompare. split; [| split; [| split; [| split; [| split]]]].
  - intros e H Hn. exists (csvFields e).
    split; [apply csvRow_fields; assumption |].
    split; [reflexivity |]. split; [reflexivity |]. split.
    + intros part name Hmiss. rewrite (med_field e part name H). f_equal.
      destruct Hmiss as [Hm | [Hp | Hf]].
      * destruct (field e "meds"); try discriminate Hm; reflexivity.
      * destruct (field (field e "meds") part); try discriminate Hp;
          reflexivity.
      * unfold field at 1. rewrite Hf. reflexivity.
    + intros Hf. simpl. unfold notes_text.
      destruct (field e "notes") as [| | b | n | s | l | o]; simpl in *;
        try reflexivity; try discriminate Hf.
      destruct s; [reflexivity | discriminate Hf].
  - intros part name. eexists. apply med_field. reflexivity.
  - reflexivity.
  - exact join_cellText.
  - intros o Hp.
    assert (Hd : Forall (fun e => dated e = true) (Props.values o)).
    { eapply Forall_impl; [| exact Hp].
      intros e He. apply (printable_parts e He). }
    destruct (sort_dated localeCompare (Props.values o) Hd)
      as (s & Hs & Hperm & _).
    exists s. split; [| exact Hperm].
    apply csvRows_printable; [exact Hs |].
    eapply Permutation_Forall; eassumption.
  - repeat split; vm_compute; reflexivity.
Qed.

(** A run on the entry that has a date and nothing else. *)
Lemma csvRow_total_witness :
  JS.nullish Example.bare = false
  /\ notes_ok Example.bare = true
  /\ exists row, App.csvRow Example.bare = Ok row /\ List.length row = 15.
Proof.
  split; [reflexivity |]. split; [reflexivity |].
  destruct (proj1 (csvRow_total Example.byCode) Example.bare eq_refl eq_refl)
    as (row & Hrow & _ & Hlen & _).
  exists row. split; [exact Hrow | exact Hlen].
Defined.

(* ================================================================== *)
(** ** The calendar *)

Section Calendar.
Local Open Scope Z_scope.

Lemma DayFromYear_succ (y : Z) :
  Date.DayFromYear (y + 1) = Date.DayFromYear y + Date.DaysInYear y.
Proof.
  unfold Date.DayFromYear, Date.DaysInYear.
  destruct (Z.eqb_spec (y mod 4) 0); destruct (Z.eqb_spec (y mod 100) 0);
    destruct (Z.eqb_spec (y mod 400) 0); cbn [negb];
    Z.div_mod_to_equations; lia.
Qed.

Lemma DaysInYear_leap (y : Z) : Date.DaysInYear y = 365 + Date.leap y.
Proof.
  unfold Date.leap, Date.DaysInYear.
  destruct (negb (y mod 4 =? 0)); [reflexivity |].
  destruct (negb (y mod 100 =? 0)); [reflexivity |].
  destruct (negb (y mod 400 =? 0)); reflexivity.
Qed.

Lemma leap_range (y : Z) : 0 <= Date.leap y <= 1.
Proof. unfold Date.leap. destruct (Date.DaysInYear y =? 366); lia. Qed.

(** The year of a day is the year that holds it. *)
Lemma YearFromDay_spec (d : Z) :
  Date.DayFromYear (Date.YearFromDay d) <= d
  < Date.DayFromYear (Date.YearFromDay d + 1).
Proof.
  unfold Date.YearFromDay.
  set (y0 := 1970 + 400 * d / 146097).
  assert (H1 : Date.DayFromYear (y0 - 1) <= d).
  { unfold Date.DayFromYear, y0. Z.div_mod_to_equations. lia. }
  assert (H2 : d < Date.DayFromYear (y0 + 2)).
  { unfold Date.DayFromYear, y0. Z.div_mod_to_equations. lia. }
  destruct (Z.leb_spec (Date.DayFromYear (y0 + 1)) d).
  - replace (y0 + 1 + 1) with (y0 + 2) by lia. lia.
  - destruct (Z.leb_spec (Date.DayFromYear y0) d).
    + lia.
    + replace (y0 - 1 + 1) with y0 by lia. lia.
Qed.

Lemma YearFromDay_range (d : Z) :
  firstDay <= d <= lastDay -> 0 <= Date.YearFromDay d <= 9999.
Proof.
  unfold firstDay, lastDay. intros Hd.
  pose proof (YearFromDay_spec d) as Hy.
  set (y := Date.YearFromDay d) in *.
  split.
  - destruct (Z.le_gt_cases 0 y) as [H | H]; [exact H | exfalso].
    assert (Date.DayFromYear (y + 1) <= -719528); [| lia].
    unfold Date.DayFromYear. Z.div_mod_to_equations. lia.
  - destruct (Z.le_gt_cases y 9999) as [H | H]; [exact H | exfalso].
    assert (2932897 <= Date.DayFromYear y); [| lia].
    unfold Date.DayFromYear. Z.div_mod_to_equations. lia.
Qed.

Lemma Day_of_day (d : Z) : Date.Day (d * Date.msPerDay) = d.
Proof. unfold Date.Day, Date.msPerDay. apply Z.div_mul. discriminate. Qed.

Lemma DayWithinYear_range (t : Z) :
  0 <= Date.DayWithinYear t < 365 + Date.InLeapYear t.
Proof.
  unfold Date.DayWithinYear, Date.InLeapYear, Date.YearFromTime.
  pose proof (YearFromDay_spec (Date.Day t)) as H.
  rewrite DayFromYear_succ, DaysInYear_leap in H. lia.
Qed.

Lemma MonthFromTime_range (t : Z) : 0 <= Date.MonthFromTime t <= 11.
Proof.
  unfold Date.MonthFromTime.
  repeat match goal with
         | |- context [if ?b then _ else _] => destruct b
         end; lia.
Qed.

Lemma DateFromTime_range (t : Z) : 1 <= Date.DateFromTime t <= 31.
Proof.
  unfold Date.DateFromTime, Date.MonthFromTime.
  pose proof (DayWithinYear_range t) as Hd.
  pose proof (leap_range (Date.YearFromTime t)) as Hl.
  fold (Date.InLeapYear t) in Hl.
  set (d := Date.DayWithinYear t) in *.
  set (l := Date.InLeapYear t) in *.
  repeat match goal with
         | |- context [if ?a <? ?b then _ else _] =>
             destruct (Z.ltb_spec a b)
         end; cbn [Date.month_start]; lia.
Qed.

(** The day number from the year, the month and the date. *)
Lemma Day_from_fields (t : Z) :
  Date.Day t =
  Date.DayFromYear (Date.YearFromTime t)
  + Date.month_start (Date.InLeapYear t) (Date.MonthFromTime t)
  + Date.DateFromTime t - 1.
Proof. unfold Date.DateFromTime, Date.DayWithinYear. lia. Qed.

(** [MakeDay] on the fields of a time, with the date moved by [i]. *)
Lemma MakeDay_shift (t i : Z) :
  Date.MakeDay (Date.YearFromTime t) (Date.MonthFromTime t)
               (Date.DateFromTime t - i)
  = Date.Day t - i.
Proof.
  pose proof (MonthFromTime_range t) as Hm.
  pose proof (Day_from_fields t) as Hd. unfold Date.InLeapYear in Hd.
  unfold Date.MakeDay.
  rewrite (Z.div_small (Date.MonthFromTime t) 12) by lia.
  rewrite (Z.mod_small (Date.MonthFromTime t) 12) by lia.
  rewrite Z.add_0_r. lia.
Qed.

Lemma Day_MakeDate (day time : Z) :
  0 <= time < Date.msPerDay -> Date.Day (Date.MakeDate day time) = day.
Proof.
  intros H. unfold Date.Day, Date.MakeDate.
  rewrite Z.add_comm, Z.div_add by discriminate.
  rewrite (Z.div_small _ _ H). reflexivity.
Qed.

Lemma TimeWithinDay_range (t : Z) : 0 <= Date.TimeWithinDay t < Date.msPerDay.
Proof.
  unfold Date.TimeWithinDay. apply Z.mod_pos_bound. reflexivity.
Qed.

(** The date part of the ISO string is a function of the day. *)
Lemma date_chars_Day (t1 t2 : Z) :
  Date.Day t1 = Date.Day t2 -> Date.date_chars t1 = Date.date_chars t2.
Proof.
  intros H.
  unfold Date.date_chars, Date.DateFromTime, Date.MonthFromTime,
    Date.DayWithinYear, Date.InLeapYear, Date.YearFromTime.
  rewrite H. reflexivity.
Qed.

Lemma length_pad (w : nat) (n : Z) : List.length (Date.pad w n) = w.
Proof.
  revert n. induction w as [| w IH]; intros n; simpl.
  - reflexivity.
  - rewrite length_app, IH. simpl. lia.
Qed.

Lemma length_date_chars (t : Z) : (10 <= List.length (Date.date_chars t))%nat.
Proof.
  unfold Date.date_chars, Date.iso_year.
  destruct ((0 <=? Date.YearFromTime t) && (Date.YearFromTime t <=? 9999));
    repeat (rewrite ?length_app, ?length_pad; cbn [List.length]); lia.
Qed.

Lemma slice_iso_string (t : Z) :
  Str.slice_to 10 (Date.iso_string t)
  = Str.of_chars (firstn 10 (Date.date_chars t)).
Proof.
  unfold Str.slice_to, Date.iso_string, Str.chars, Str.of_chars.
  rewrite list_ascii_of_string_of_list_ascii.
  rewrite firstn_app.
  replace (10 - List.length (Date.date_chars t))%nat with 0%nat
    by (pose proof (length_date_chars t); lia).
  rewrite firstn_O, app_nil_r. reflexivity.
Qed.

(** The first ten characters of the ISO string name the day. *)
Lemma slice_iso_string_Day (t : Z) :
  Str.slice_to 10 (Date.iso_string t) = isoDay (Date.Day t).
Proof.
  unfold isoDay. rewrite !slice_iso_string. f_equal. f_equal.
  apply date_chars_Day. rewrite Day_of_day. reflexivity.
Qed.

End Calendar.

(** ** ISO dates name their days *)

Section IsoDay.
Local Open Scope Z_scope.

Lemma digit_char_inj (a b : Z) :
  0 <= a < 10 -> 0 <= b < 10 ->
  Num.digit_char a = Num.digit_char b -> a = b.
Proof.
  intros Ha Hb H. unfold Num.digit_char in H.
  apply (f_equal N_of_ascii) in H.
  rewrite !N_ascii_embedding in H by lia. lia.
Qed.

Lemma pad_inj (w : nat) (a b : Z) :
  0 <= a < 10 ^ Z.of_nat w -> 0 <= b < 10 ^ Z.of_nat w ->
  Date.pad w a = Date.pad w b -> a = b.
Proof.
  revert a b. induction w as [| w IH]; intros a b Ha Hb H.
  - simpl in Ha, Hb. lia.
  - rewrite Nat2Z.inj_succ, Z.pow_succ_r in Ha, Hb by lia.
    simpl in H. apply app_inj_tail in H. destruct H as [Hq Hr].
    apply digit_char_inj in Hr;
      [| apply Z.mod_pos_bound; lia | apply Z.mod_pos_bound; lia].
    apply IH in Hq;
      [| split; [apply Z.div_pos; lia | apply Z.div_lt_upper_bound; lia]
       | split; [apply Z.div_pos; lia | apply Z.div_lt_upper_bound; lia]].
    rewrite (Z.div_mod a 10), (Z.div_mod b 10) by lia. congruence.
Qed.

Lemma app_length_inj {A : Type} (a a' b b' : list A) :
  List.length a = List.length a' -> (a ++ b = a' ++ b')%list ->
  a = a' /\ b = b'.
Proof.
  revert a'. induction a as [| x a IH]; intros [| x' a'] Hl H;
    try discriminate Hl.
  - split; [reflexivity | exact H].
  - simpl in H. injection H as -> H. injection Hl as Hl.
    destruct (IH a' Hl H) as [-> ->]. split; reflexivity.
Qed.

Lemma cons_eq_inv {A : Type} (x : A) (l l' : list A) :
  x :: l = x :: l' -> l = l'.
Proof. intros H. injection H as H. exact H. Qed.

Lemma of_chars_inj (l l' : list ascii) :
  Str.of_chars l = Str.of_chars l' -> l = l'.
Proof.
  unfold Str.of_chars. intros H.
  apply (f_equal list_ascii_of_string) in H.
  rewrite !list_ascii_of_string_of_list_ascii in H. exact H.
Qed.

(** In the four-digit years the ISO date is [YYYY-MM-DD]. *)
Lemma date_chars_in_range (t : Z) :
  0 <= Date.YearFromTime t <= 9999 ->
  firstn 10 (Date.date_chars t)
  = (Date.pad 4 (Date.YearFromTime t)
     ++ "-"%char :: Date.pad 2 (Date.MonthFromTime t + 1)
     ++ "-"%char :: Date.pad 2 (Date.DateFromTime t))%list.
Proof.
  intros Hy. unfold Date.date_chars, Date.iso_year.
  replace ((0 <=? Date.YearFromTime t) && (Date.YearFromTime t <=? 9999))%bool
    with true
    by (symmetry; apply andb_true_iff; split; apply Z.leb_le; lia).
  apply firstn_all2.
  repeat (rewrite ?length_app, ?length_pad; cbn [List.length]). lia.
Qed.

(** Different days of the four-digit years have different ISO dates. *)
Lemma isoDay_inj (d1 d2 : Z) :
  firstDay <= d1 <= lastDay -> firstDay <= d2 <= lastDay ->
  isoDay d1 = isoDay d2 -> d1 = d2.
Proof.
  intros H1 H2 H. unfold isoDay in H. rewrite !slice_iso_string in H.
  apply of_chars_inj in H.
  set (t1 := d1 * Date.msPerDay) in *. set (t2 := d2 * Date.msPerDay) in *.
  assert (Hy1 : 0 <= Date.YearFromTime t1 <= 9999).
  { unfold Date.YearFromTime, t1. rewrite Day_of_day.
    apply YearFromDay_range. exact H1. }
  assert (Hy2 : 0 <= Date.YearFromTime t2 <= 9999).
  { unfold Date.YearFromTime, t2. rewrite Day_of_day.
    apply YearFromDay_range. exact H2. }
  rewrite (date_chars_in_range t1 Hy1), (date_chars_in_range t2 Hy2) in H.
  apply app_length_inj in H; [| rewrite !length_pad; reflexivity].
  destruct H as [Hy H]. apply cons_eq_inv in H.
  apply app_length_inj in H; [| rewrite !length_pad; reflexivity].
  destruct H as [Hm Hd]. apply cons_eq_inv in Hd.
  pose proof (MonthFromTime_range t1). pose proof (MonthFromTime_range t2).
  pose proof (DateFromTime_range t1). pose proof (DateFromTime_range t2).
  apply pad_inj in Hy; [| simpl; lia | simpl; lia].
  apply pad_inj in Hm; [| simpl; lia | simpl; lia].
  apply pad_inj in Hd; [| simpl; lia | simpl; lia].
  assert (Hday : Date.Day t1 = Date.Day t2).
  { rewrite (Day_from_fields t1), (Day_from_fields t2).
    unfold Date.InLeapYear. rewrite Hy, Hd.
    replace (Date.MonthFromTime t1) with (Date.MonthFromTime t2) by lia.
    reflexivity. }
  unfold t1, t2 in Hday. rewrite !Day_of_day in Hday. exact Hday.
Qed.

Lemma time_of_day_bound (t : Z) :
  firstDay <= Date.Day t <= lastDay -> Z.abs t <= 253402300800000.
Proof.
  unfold firstDay, lastDay, Date.Day, Date.msPerDay. intros H.
  Z.div_mod_to_equations. lia.
Qed.

End IsoDay.

(* ================================================================== *)
(** ** The demo data: [fillDemo] *)

Section Demo.
Local Open Scope Z_scope.

Variable tz : Date.zone.
Variables Math_sin Math_cos : Num.num -> Num.num.
Variable todayStr : string.

Lemma TimeClip_valid (t : Z) :
  Z.abs t <= maxTime -> Date.TimeClip t = Some t.
Proof.
  unfold Date.TimeClip, maxTime. intros H.
  destruct (Z.leb_spec (Z.abs t) 8640000000000000); [reflexivity | lia].
Qed.

(** [fmtDate] of a valid time whose local day lies in the four-digit
    years: the ISO date of that local day. *)
Lemma fmtDate_local_day (tv : Z) :
  firstDay <= Date.Day (Date.LocalTime tz tv) <= lastDay ->
  App.fmtDate tz (Some tv) = Ok (isoDay (Date.Day (Date.LocalTime tz tv))).
Proof.
  intros Hd. pose proof (time_of_day_bound _ Hd) as Hb.
  unfold App.fmtDate, Date.of_value.
  change (tv - Date.tzOffset tz tv * 60000) with (Date.LocalTime tz tv).
  rewrite TimeClip_valid by (unfold maxTime; lia).
  cbn [Date.toISOString bind]. rewrite slice_iso_string_Day. reflexivity.
Qed.

(** The date that one turn of the loop computes: [i] days before the local
    day of the clock's reading. *)
Lemma demo_date (i now : Z) :
  civil_zone tz ->
  Z.abs now <= maxTime ->
  firstDay <= Date.Day (Date.LocalTime tz now) - i <= lastDay ->
  App.fmtDate tz
    (Date.setDate tz (Date.of_value now)
       (match Date.getDate tz (Date.of_value now) with
        | Some g => Some (g - i)
        | None => None
        end))
  = Ok (isoDay (Date.Day (Date.LocalTime tz now) - i)).
Proof.
  intros Hz Hnow Hd.
  unfold Date.of_value. rewrite (TimeClip_valid now Hnow).
  cbn [Date.getDate Date.setDate]. rewrite MakeDay_shift.
  set (lt := Date.LocalTime tz now) in *.
  set (newDate := Date.MakeDate (Date.Day lt - i) (Date.TimeWithinDay lt)).
  assert (Hnd : Date.Day newDate = Date.Day lt - i)
    by (apply Day_MakeDate; apply TimeWithinDay_range).
  destruct (Hz newDate) as [Hday Hnear].
  assert (Hnb : Z.abs newDate <= 253402300800000)
    by (apply time_of_day_bound; rewrite Hnd; exact Hd).
  rewrite TimeClip_valid
    by (unfold maxTime, Date.msPerDay in *; lia).
  rewrite fmtDate_local_day by (rewrite Hday, Hnd; exact Hd).
  rewrite Hday, Hnd. reflexivity.
Qed.

(** One turn of the loop writes one entry under its date. *)
Lemma demoEntry_key (i now : Z) (r0 r1 r2 r3 r4 r5 : Num.num) (map : obj) :
  civil_zone tz ->
  Z.abs now <= maxTime ->
  firstDay <= Date.Day (Date.LocalTime tz now) - i <= lastDay ->
  exists e,
    App.demoEntry tz Math_sin Math_cos todayStr i now r0 r1 r2 r3 r4 r5 map
    = Ok (Props.set (isoDay (Date.Day (Date.LocalTime tz now) - i))
                    (VObj e) map)
    /\ Props.lookup "date" e
       = Some (VStr (isoDay (Date.Day (Date.LocalTime tz now) - i))).
Proof.
  intros Hz Hnow Hd. unfold App.demoEntry. cbv zeta.
  rewrite (demo_date i now Hz Hnow Hd). cbn [bind].
  eexists. split; [reflexivity |].
  rewrite !lookup_set_other by discriminate.
  apply lookup_set_same.
Qed.

Lemma keys_set_new {A : Type} (k : string) (v : A) (o : Props.props A) :
  Props.lookup k o = None ->
  Permutation (Props.keys (Props.set k v o)) (Props.keys o ++ [k]).
Proof.
  intros E. unfold Props.set. rewrite E.
  destruct (Props.array_index k) as [i |].
  - eapply perm_trans; [apply keys_insert_index |].
    apply Permutation_cons_append.
  - unfold Props.keys. rewrite map_app. apply Permutation_refl.
Qed.

Variable clock : nat -> Z.
Variable random : nat -> Num.num.
Variable D : Z.

Hypothesis zone_ok : civil_zone tz.
Hypothesis clock_ok : reads_on_day tz clock 28 D.
Hypothesis days_ok : firstDay + 27 <= D <= lastDay.

(** The date of the turn numbered [j]. *)
Abbreviation turnDate j := (isoDay (D - 27 + Z.of_nat j)).

Lemma turnDate_inj (j k : nat) :
  (j < 28)%nat -> (k < 28)%nat -> turnDate j = turnDate k -> j = k.
Proof.
  intros Hj Hk H. apply isoDay_inj in H; unfold firstDay, lastDay in *; lia.
Qed.

(** The turns from [k] on add their dates, and only those. *)
Lemma demoLoop_keys (n : nat) :
  forall (k : nat) (map : obj),
    (k + n = 28)%nat ->
    (forall j, (k <= j < 28)%nat -> Props.lookup (turnDate j) map = None) ->
    exists map',
      App.demoLoop tz Math_sin Math_cos todayStr 28 clock random n k map
      = Ok map'
      /\ Permutation (Props.keys map')
           (Props.keys map ++ List.map (fun j => turnDate j) (seq k n))
      /\ (forall key e,
             Props.lookup key map' = Some e ->
             Props.lookup key map = Some e
             \/ (In key (List.map (fun j => turnDate j) (seq k n))
                 /\ exists o, e = VObj o
                              /\ Props.lookup "date" o = Some (VStr key))).
Proof.
  induction n as [| n IH]; intros k map Hk Hfree.
  - exists map. split; [reflexivity |]. split.
    + simpl. rewrite app_nil_r. apply Permutation_refl.
    + intros key e H. left. exact H.
  - destruct (clock_ok k) as [Hnow Hday]; [lia |].
    cbn [App.demoLoop].
    assert (Hi : 28 - 1 - Z.of_nat k = 27 - Z.of_nat k) by lia.
    rewrite Hi.
    destruct (demoEntry_key (27 - Z.of_nat k) (clock k)
                (random (6 * k)%nat) (random (6 * k + 1)%nat)
                (random (6 * k + 2)%nat) (random (6 * k + 3)%nat)
                (random (6 * k + 4)%nat) (random (6 * k + 5)%nat) map
                zone_ok Hnow)
      as (e & He & Hdate).
    { rewrite Hday. unfold firstDay, lastDay in *. lia. }
    rewrite Hday in He, Hdate.
    replace (D - (27 - Z.of_nat k)) with (D - 27 + Z.of_nat k) in He, Hdate
      by lia.
    rewrite He. cbn [bind].
    destruct (IH (S k) (Props.set (turnDate k) (VObj e) map)) as
      (map' & Hloop & Hperm & Hin).
    + lia.
    + intros j Hj. rewrite lookup_set_other.
      * apply Hfree. lia.
      * intros E. apply turnDate_inj in E; lia.
    + exists map'. split; [exact Hloop |]. split.
      * eapply perm_trans; [exact Hperm |].
        cbn [seq List.map].
        change (turnDate k :: List.map (fun j => turnDate j) (seq (S k) n))
          with ([turnDate k] ++ List.map (fun j => turnDate j) (seq (S k) n))%list.
        rewrite app_assoc. apply Permutation_app_tail.
        apply keys_set_new. apply Hfree. lia.
      * intros key e' H. destruct (Hin key e' H) as [Hold | [Hnew Ho]].
        -- destruct (String.eqb_spec key (turnDate k)) as [-> | Hne].
           ++ rewrite lookup_set_same in Hold. injection Hold as <-.
              right. split; [left; reflexivity |].
              exists e. split; [reflexivity | exact Hdate].
           ++ rewrite lookup_set_other in Hold by exact Hne.
              left. exact Hold.
        -- right. split; [right; exact Hnew | exact Ho].
Qed.

End Demo.

Lemma kst_civil : civil_zone Example.kst.
Proof.
  intros tl. unfold Date.LocalTime, Example.kst, Date.msPerMinute,
    Date.msPerDay. cbn [Date.tzOffset Date.UTC].
  split; [f_equal; lia | lia].
Qed.

Lemma saved_text (v : value) (ls : Storage.t) (text : string) :
  JSON.stringify v = Some text ->
  Storage.getItem App.STORAGE_KEY (App.saveEntries v ls) = VStr text.
Proof.
  intros H. unfold Storage.getItem, App.saveEntries, Storage.setItem.
  rewrite H, lookup_set_same. reflexivity.
Qed.

(** The demo data when the clock stays on one day.  In a civil time zone,
    with the clock's twenty-eight readings valid and on one local day [D]
    of the four-digit years: [fillDemo] returns, and the store it sets is the same whatever the prior store
    was; its keys are the ISO dates of the twenty-eight consecutive days
    that end on [D], each once, and [D] is the day that [fmtDate()] names
    at that time; every entry carries its key as its date; the store is
    written to the storage at once. *)
Theorem fillDemo_consecutive_days :
  forall (tz : Date.zone) (Math_sin Math_cos : Num.num -> Num.num)
         (todayStr : string) (clock : nat -> Z) (random : nat -> Num.num)
         (D : Z),
    civil_zone tz ->
    reads_on_day tz clock 28 D ->
    (firstDay + 27 <= D <= lastDay)%Z ->
    exists (map : obj) (text : string),
      (forall st : App.State,
          App.fillDemo tz Math_sin Math_cos todayStr clock random st
          = Ok {| App.entries := VObj map;
                  App.date := App.date st;
                  App.tab := App.tab st;
                  App.storage := App.saveEntries (VObj map) (App.storage st) |})
      /\ Permutation (Props.keys map) (daysUpTo 28 D)
      /\ NoDup (Props.keys map)
      /\ List.length (Props.keys map) = 28
      /\ last (daysUpTo 28 D) "" = isoDay D
      /\ (forall k, (k < 28)%nat ->
                    App.fmtDate tz (Date.of_value (clock k)) = Ok (isoDay D))
      /\ (forall key e,
             Props.lookup key map = Some e ->
             In key (daysUpTo 28 D)
             /\ exists o, e = VObj o
                          /\ Props.lookup "date" o = Some (VStr key))
      /\ JSON.stringify (VObj map) = Some text
      /\ (forall ls : Storage.t,
             Storage.getItem App.STORAGE_KEY (App.saveEntries (VObj map) ls)
             = VStr text).
Proof.
  intros tz Math_sin Math_cos todayStr clock random D Hz Hclock Hdays.
  destruct (demoLoop_keys tz Math_sin Math_cos todayStr clock random D
              Hz Hclock Hdays 28 0 [])
    as (map & Hloop & Hperm & Hin).
  { reflexivity. }
  { intros j _. reflexivity. }
  cbn [Props.keys List.map app] in Hperm.
  assert (Hdates : List.map (fun j => isoDay (D - 27 + Z.of_nat j)%Z)
                     (seq 0 28) = daysUpTo 28 D) by reflexivity.
  rewrite Hdates in Hperm, Hin.
  assert (Hnd : NoDup (daysUpTo 28 D)).
  { rewrite <- Hdates. apply NoDup_map_NoDup_ForallPairs; [| apply seq_NoDup].
    intros j k Hj Hk E. apply in_seq in Hj. apply in_seq in Hk.
    apply (turnDate_inj D Hdays j k); [lia | lia | exact E]. }
  destruct (JSON.stringify (VObj map)) as [text |] eqn:Htext;
    [| discriminate Htext].
  exists map, text.
  split.
  { intros st. unfold App.fillDemo. cbv zeta.
    change (Z.to_nat 28) with 28%nat. rewrite Hloop. reflexivity. }
  split; [exact Hperm |].
  split; [eapply Permutation_NoDup; [apply Permutation_sym; exact Hperm
                                     | exact Hnd] |].
  split; [rewrite (Permutation_length Hperm); reflexivity |].
  split.
  { unfold daysUpTo. cbn [seq List.map last]. f_equal. lia. }
  split.
  { intros k Hk. destruct (Hclock k Hk) as [Hnow Hday].
    unfold Date.of_value. rewrite (TimeClip_valid _ Hnow).
    rewrite fmtDate_local_day; rewrite Hday;
      [reflexivity | unfold firstDay, lastDay in *; lia]. }
  split.
  { intros key e H. destruct (Hin key e H) as [Hold | Hnew];
      [discriminate Hold | exact Hnew]. }
  split; [exact Htext |].
  intros ls. apply saved_text. exact Htext.
Qed.

(** A run in Korea at 17:00 on 2025-11-03, the day numbered 20395. *)
Lemma fillDemo_consecutive_days_witness :
  civil_zone Example.kst
  /\ reads_on_day Example.kst (fun _ => Example.now) 28 20395
  /\ (firstDay + 27 <= 20395 <= lastDay)%Z
  /\ exists map : obj,
      App.fillDemo Example.kst (fun x => x) (fun x => x) Example.today
        (fun _ => Example.now) (fun _ => Num.zero)
        (Example.state Example.store1 "2025-11-01")
      = Ok (stateOf map "2025-11-01" "오늘 체크"
              (App.saveEntries (VObj map) []))
      /\ Permutation (Props.keys map) (daysUpTo 28 20395).
Proof.
  assert (Hclock : reads_on_day Example.kst (fun _ => Example.now) 28 20395).
  { intros k _. split; [vm_compute; discriminate | reflexivity]. }
  assert (Hdays : (firstDay + 27 <= 20395 <= lastDay)%Z).
  { unfold firstDay, lastDay. lia. }
  split; [exact kst_civil |]. split; [exact Hclock |]. split; [exact Hdays |].
  destruct (fillDemo_consecutive_days Example.kst (fun x => x) (fun x => x)
              Example.today (fun _ => Example.now) (fun _ => Num.zero) 20395
              kst_civil Hclock Hdays)
    as (map & text & Hfill & Hperm & _).
  exists map. split; [apply Hfill | exact Hperm].
Defined.

(* ================================================================== *)
(** ** Well-formed stores and the handlers *)

Lemma state_eta (st : App.State) (o : obj) :
  App.entries st = VObj o ->
  st = stateOf o (App.date st) (App.tab st) (App.storage st).
Proof. destruct st; simpl; intros ->; reflexivity. Qed.

Lemma wfEntry_fresh (todayStr d : string) : wfEntry d (freshEntry todayStr d).
Proof.
  unfold wfEntry, freshEntry.
  eexists _, "", _. split; [vm_compute; reflexivity |].
  split; [distinct_keys |].
  split; [reflexivity |]. split; [reflexivity |]. split; [reflexivity |].
  eexists _, _, _. split; [reflexivity |].
  split; [distinct_keys |].
  split; [reflexivity |].
  split; [eexists; split; [reflexivity | distinct_keys] |].
  split; [reflexivity |].
  eexists; split; [reflexivity | distinct_keys].
Qed.

Lemma wfEntry_shown (todayStr : string) (o : obj) (d : string) :
  wfStore o -> wfEntry d (shown todayStr o d).
Proof.
  intros [_ Hwf]. unfold shown.
  destruct (Props.lookup d o) as [e |] eqn:E; [| apply wfEntry_fresh].
  destruct (JS.truthy e); [apply Hwf; exact E | apply wfEntry_fresh].
Qed.

Lemma spread_patch (e : obj) (k : string) (v : value) :
  JS.spread (JS.spread [] (VObj e)) (VObj [(k, v)])
  = Props.set k v (JS.spread [] (VObj e)).
Proof. reflexivity. Qed.

(** A patch of one field that is neither the date nor the medication
    record keeps an entry well formed, as long as notes stay a string. *)
Lemma wfEntry_patch (d : string) (e : value) (k : string) (v : value) :
  wfEntry d e -> k <> "date" -> k <> "meds" ->
  (k = "notes" -> exists s, v = VStr s) ->
  wfEntry d (VObj (JS.spread (JS.spread [] e) (VObj [(k, v)]))).
Proof.
  intros (eo & notes & meds & -> & Hnd & Hdate & Hnotes & Hmeds & Hwm)
         Hk1 Hk2 Hk3.
  rewrite spread_patch.
  destruct (string_dec k "notes") as [-> | Hn].
  - destruct (Hk3 eq_refl) as [s ->].
    eexists _, s, meds. split; [reflexivity |].
    split; [apply NoDup_keys_set, NoDup_keys_spread |].
    split; [rewrite lookup_set_other by discriminate;
            rewrite lookup_spread_obj by exact Hnd; exact Hdate |].
    split; [apply lookup_set_same |].
    split; [rewrite lookup_set_other by discriminate;
            rewrite lookup_spread_obj by exact Hnd; exact Hmeds |].
    exact Hwm.
  - eexists _, notes, meds. split; [reflexivity |].
    split; [apply NoDup_keys_set, NoDup_keys_spread |].
    split; [rewrite lookup_set_other by congruence;
            rewrite lookup_spread_obj by exact Hnd; exact Hdate |].
    split; [rewrite lookup_set_other by congruence;
            rewrite lookup_spread_obj by exact Hnd; exact Hnotes |].
    split; [rewrite lookup_set_other by congruence;
            rewrite lookup_spread_obj by exact Hnd; exact Hmeds |].
    exact Hwm.
Qed.

(** A patch of the medication record by a well-formed one. *)
Lemma wfEntry_patch_meds (d : string) (e meds' : value) :
  wfEntry d e -> wfMeds meds' ->
  wfEntry d (VObj (JS.spread (JS.spread [] e) (VObj [("meds", meds')]))).
Proof.
  intros (eo & notes & meds & -> & Hnd & Hdate & Hnotes & Hmeds & Hwm) Hwm'.
  rewrite spread_patch.
  eexists _, notes, meds'. split; [reflexivity |].
  split; [apply NoDup_keys_set, NoDup_keys_spread |].
  split; [rewrite lookup_set_other by discriminate;
          rewrite lookup_spread_obj by exact Hnd; exact Hdate |].
  split; [rewrite lookup_set_other by discriminate;
          rewrite lookup_spread_obj by exact Hnd; exact Hnotes |].
  split; [apply lookup_set_same | exact Hwm'].
Qed.

(** What a medication toggle builds from a well-formed record is well
    formed. *)
Lemma wfMeds_toggle (meds : value) (part name : string) (v : bool) :
  wfMeds meds -> part = "am" \/ part = "pm" ->
  exists p,
    JS.get meds part = Ok p
    /\ wfMeds (VObj (Props.set part
                       (VObj (Props.set name (VBool v) (JS.spread [] p)))
                       (JS.spread [] meds))).
Proof.
  intros (m & am & pm & -> & Hnd & Ham & [a [-> Ha]] & Hpm & [p [-> Hp]]) Hpart.
  destruct Hpart as [-> | ->].
  - eexists. split; [simpl; rewrite Ham; reflexivity |].
    eexists _, _, (VObj p). split; [reflexivity |].
    split; [apply NoDup_keys_set, NoDup_keys_spread |].
    split; [apply lookup_set_same |].
    split; [eexists; split; [reflexivity |];
            apply NoDup_keys_set, NoDup_keys_spread |].
    split; [rewrite lookup_set_other by discriminate;
            rewrite lookup_spread_obj by exact Hnd; exact Hpm |].
    eexists; split; [reflexivity | exact Hp].
  - eexists. split; [simpl; rewrite Hpm; reflexivity |].
    eexists _, (VObj a), _. split; [reflexivity |].
    split; [apply NoDup_keys_set, NoDup_keys_spread |].
    split; [rewrite lookup_set_other by discriminate;
            rewrite lookup_spread_obj by exact Hnd; exact Ham |].
    split; [eexists; split; [reflexivity | exact Ha] |].
    split; [apply lookup_set_same |].
    eexists; split; [reflexivity |].
    apply NoDup_keys_set, NoDup_keys_spread.
Qed.

Lemma wfEntry_meds (d : string) (e : value) :
  wfEntry d e -> exists meds, JS.get e "meds" = Ok meds /\ wfMeds meds.
Proof.
  intros (eo & notes & meds & -> & _ & _ & _ & Hmeds & Hwm).
  exists meds. split; [simpl; rewrite Hmeds; reflexivity | exact Hwm].
Qed.

(** The store after an update of the day [d] by a well-formed entry. *)
Lemma wfStore_updated (todayStr : string) (o : obj) (d : string)
      (patch : value) :
  wfStore o ->
  wfEntry d (VObj (JS.spread (JS.spread [] (shown todayStr o d)) patch)) ->
  wfStore (updated todayStr o d patch).
Proof.
  intros Hwf He. split; [apply NoDup_keys_updated |].
  intros k e Hk.
  destruct (string_dec k d) as [-> | Hne].
  - rewrite lookup_updated_same in Hk. injection Hk as <-. exact He.
  - rewrite lookup_updated_other in Hk by (apply Hwf || exact Hne).
    apply Hwf; exact Hk.
Qed.

Lemma NoDup_keys_delete {A : Type} (k : string) (o : Props.props A) :
  NoDup (Props.keys o) -> NoDup (Props.keys (Props.delete k o)).
Proof.
  induction o as [| [k' v] o IH]; simpl; intros H; [constructor |].
  inversion H as [| ? ? Hin Hnd]; subst.
  destruct (String.eqb k k'); [apply IH; exact Hnd |].
  simpl. constructor; [| apply IH; exact Hnd].
  intros Hin'. apply Hin.
  apply lookup_None_keys in Hin. 
  clear - Hin'. induction o as [| [k2 v2] o IH]; simpl in *; [contradiction |].
  destruct (String.eqb k k2); simpl in *; [right; apply IH; exact Hin' |].
  destruct Hin' as [-> | Hin']; [left; reflexivity | right; apply IH; exact Hin'].
Qed.

Lemma wfStore_deleted (o : obj) (d : string) :
  wfStore o -> wfStore (Props.delete d (JS.spread [] (VObj o))).
Proof.
  intros [Hnd Hwf]. split; [apply NoDup_keys_delete, NoDup_keys_spread |].
  intros k e Hk.
  destruct (string_dec k d) as [-> | Hne].
  - rewrite lookup_delete_same in Hk. discriminate Hk.
  - rewrite lookup_delete_other in Hk by exact Hne.
    rewrite lookup_spread_obj in Hk by exact Hnd.
    apply Hwf; exact Hk.
Qed.

Lemma wfStore_set (o : obj) (k : string) (e : value) :
  wfStore o -> wfEntry k e -> wfStore (Props.set k e o).
Proof.
  intros [Hnd Hwf] He. split; [apply NoDup_keys_set; exact Hnd |].
  intros k' e' Hk.
  destruct (string_dec k' k) as [-> | Hne].
  - rewrite lookup_set_same in Hk. injection Hk as <-. exact He.
  - rewrite lookup_set_other in Hk by exact Hne. apply Hwf; exact Hk.
Qed.

Lemma wfStore_nil : wfStore [].
Proof. split; [constructor | intros k e H; discriminate H]. Qed.

Section DemoStore.

Variable tz : Date.zone.
Variable Math_sin Math_cos : Num.num -> Num.num.
Variable todayStr : string.

(** Whatever the clock and the random numbers, a turn of the demo loop
    that returns adds a well-formed entry under its date. *)
Lemma demoEntry_wf (i now : Z) (r0 r1 r2 r3 r4 r5 : Num.num) (map map' : obj) :
  wfStore map ->
  App.demoEntry tz Math_sin Math_cos todayStr i now r0 r1 r2 r3 r4 r5 map
  = Ok map' ->
  wfStore map'.
Proof.
  intros Hwf. unfold App.demoEntry.
  destruct (App.fmtDate tz _) as [ds | err]; simpl; [| discriminate].
  intros H. injection H as <-.
  apply wfStore_set; [exact Hwf |].
  eexists _, "", _. split; [reflexivity |].
  split; [do 8 apply NoDup_keys_set; apply NoDup_keys_spread |].
  split; [do 7 (rewrite lookup_set_other by discriminate);
          apply lookup_set_same |].
  split; [do 8 (rewrite lookup_set_other by discriminate); reflexivity |].
  split; [apply lookup_set_same |].
  eexists _, _, _. split; [reflexivity |].
  split; [distinct_keys |].
  split; [reflexivity |].
  split; [eexists; split; [reflexivity | distinct_keys] |].
  split; [reflexivity |].
  eexists; split; [reflexivity | distinct_keys].
Qed.

Lemma demoLoop_wf (days : Z) (clock : nat -> Z) (random : nat -> Num.num)
      (n : nat) :
  forall (k : nat) (map map' : obj),
    wfStore map ->
    App.demoLoop tz Math_sin Math_cos todayStr days clock random n k map
    = Ok map' ->
    wfStore map'.
Proof.
  induction n as [| n IH]; simpl; intros k map map' Hwf H.
  - injection H as <-. exact Hwf.
  - destruct (App.demoEntry _ _ _ _ _ _ _ _ _ _ _ _ _) as [m1 | err] eqn:E;
      simpl in H; [| discriminate H].
    eapply IH; [| exact H]. eapply demoEntry_wf; [exact Hwf | exact E].
Qed.

End DemoStore.

Lemma In_lookup {A : Type} (k : string) (v : A) (o : Props.props A) :
  NoDup (Props.keys o) -> In (k, v) o -> Props.lookup k o = Some v.
Proof.
  induction o as [| [k' v'] o IH]; simpl; intros Hnd Hin; [contradiction |].
  inversion Hnd as [| ? ? Hnot Hnd']; subst.
  destruct Hin as [E | Hin].
  - injection E as -> ->. rewrite String.eqb_refl. reflexivity.
  - destruct (String.eqb_spec k k') as [-> | _]; [| apply IH; assumption].
    exfalso. apply Hnot. change k' with (fst (k', v)).
    apply in_map; exact Hin.
Qed.

Lemma wfEntry_dated (k : string) (e : value) :
  wfEntry k e -> dated e = true /\ date_of e = k.
Proof.
  intros (eo & notes & meds & -> & _ & Hdate & _).
  unfold dated, date_of, field; simpl; rewrite Hdate. split; reflexivity.
Qed.

Lemma wfEntry_printable (k : string) (e : value) :
  wfEntry k e -> printable e = true.
Proof.
  intros H. unfold printable. rewrite (proj1 (wfEntry_dated k e H)).
  destruct H as (eo & notes & meds & -> & _ & _ & Hnotes & _).
  unfold notes_ok; simpl; rewrite Hnotes. reflexivity.
Qed.

Lemma wfEntry_not_nullish (k : string) (e : value) :
  wfEntry k e -> JS.nullish e = false.
Proof. intros (eo & ? & ? & -> & _). reflexivity. Qed.

Lemma wfStore_values (o : obj) (e : value) :
  wfStore o -> In e (Props.values o) -> exists k, wfEntry k e.
Proof.
  intros [Hnd Hwf] Hin. unfold Props.values in Hin.
  apply in_map_iff in Hin. destruct Hin as [[k e'] [E Hin]]. simpl in E; subst e'.
  exists k. apply Hwf. apply In_lookup; assumption.
Qed.

Lemma wfStore_printable (o : obj) :
  wfStore o -> Forall (fun e => printable e = true) (Props.values o).
Proof.
  intros Hwf. apply Forall_forall. intros e Hin.
  destruct (wfStore_values o e Hwf Hin) as [k Hk].
  eapply wfEntry_printable; exact Hk.
Qed.

Lemma wfStore_dated (o : obj) :
  wfStore o -> Forall (fun e => dated e = true) (Props.values o).
Proof.
  intros Hwf. apply Forall_forall. intros e Hin.
  destruct (wfStore_values o e Hwf Hin) as [k Hk].
  apply (wfEntry_dated k e Hk).
Qed.

Lemma warnFlags_eq (e : value) :
  JS.nullish e = false -> App.warnFlags e = Ok (warnList e).
Proof.
  intros He. unfold App.warnFlags, warnList.
  rewrite !(get_field e) by exact He. simpl.
  rewrite !push_if_flagIf. simpl. rewrite <- app_assoc. reflexivity.
Qed.

Lemma dangerFlags_list (e : value) :
  JS.nullish e = false -> App.dangerFlags e = Ok (dangerList e).
Proof. exact (dangerFlags_eq e). Qed.

Lemma alerts_eq (e : value) :
  JS.nullish e = false ->
  Ui.alerts e
  = Ok (match dangerList e, warnList e with
        | _ :: _, _ => [dangerBox (dangerList e)]
        | [], _ :: _ => [warnBox (warnList e)]
        | [], [] => []
        end).
Proof.
  intros He. unfold Ui.alerts.
  rewrite dangerFlags_list, warnFlags_eq by exact He. simpl.
  destruct (dangerList e) as [| f fs], (warnList e) as [| w ws]; reflexivity.
Qed.

(** *** The cells of the history table *)

Lemma labelCell_symptoms (x1 x2 x3 x4 x5 : value) :
  JS.or
    (VStr (JS.join " · "
             (filter JS.truthy
                [ JS.and x1 (VStr "어지럼"); JS.and x2 (VStr "실신");
                  JS.and x3 (VStr "호흡곤란"); JS.and x4 (VStr "부종");
                  JS.and x5 (VStr "출혈") ])))
    (VStr "-")
  = labelCell " · "
      (flagIf (JS.truthy x1) "어지럼" ++ flagIf (JS.truthy x2) "실신"
       ++ flagIf (JS.truthy x3) "호흡곤란" ++ flagIf (JS.truthy x4) "부종"
       ++ flagIf (JS.truthy x5) "출혈").
Proof.
  unfold JS.and.
  destruct (JS.truthy x1) eqn:E1, (JS.truthy x2) eqn:E2,
           (JS.truthy x3) eqn:E3, (JS.truthy x4) eqn:E4,
           (JS.truthy x5) eqn:E5;
    simpl; rewrite ?E1, ?E2, ?E3, ?E4, ?E5; reflexivity.
Qed.

Lemma labelCell_meds (x1 x2 x3 x4 : value) :
  JS.or
    (VStr (JS.join ", "
             (filter JS.truthy
                [ Ui.cond x1 (VStr "아침 멀택") VNull;
                  Ui.cond x2 (VStr "아침 릭시아나") VNull;
                  Ui.cond x3 (VStr "아침 콩브렐") VNull;
                  Ui.cond x4 (VStr "저녁 멀택") VNull ])))
    (VStr "-")
  = labelCell ", "
      (flagIf (JS.truthy x1) "아침 멀택" ++ flagIf (JS.truthy x2) "아침 릭시아나"
       ++ flagIf (JS.truthy x3) "아침 콩브렐"
       ++ flagIf (JS.truthy x4) "저녁 멀택").
Proof.
  unfold Ui.cond.
  destruct (JS.truthy x1), (JS.truthy x2), (JS.truthy x3), (JS.truthy x4);
    reflexivity.
Qed.

(** [(x || {}).name] is truthy exactly when [x.name] is, read with [?.]. *)
Lemma or_empty_field (x : value) (name : string) :
  JS.get (JS.or x (VObj [])) name = Ok (field (JS.or x (VObj [])) name)
  /\ JS.truthy (field (JS.or x (VObj [])) name) = JS.truthy (field x name).
Proof.
  unfold JS.or.
  destruct (JS.truthy x) eqn:E.
  - split; [apply get_field; destruct x; try reflexivity; discriminate E
           | reflexivity].
  - split; [reflexivity |].
    destruct x as [| | b | n | s | l | o]; try reflexivity;
      try discriminate E.
    simpl in E. apply negb_false_iff, String.eqb_eq in E. subst s.
    unfold field; simpl. unfold JS.element.
    destruct (String.eqb name "length"); [reflexivity |].
    destruct (Props.array_index name) as [i |]; [| reflexivity].
    simpl. destruct (N.to_nat i); reflexivity.
Qed.

Lemma historyRow_rowOf (e : value) :
  JS.nullish e = false -> Ui.historyRow e = Ok (rowOf e).
Proof.
  intros He. unfold Ui.historyRow.
  rewrite !(get_field e) by exact He. cbn [bind].
  rewrite !get_opt_field. cbn [bind].
  set (am := field (field e "meds") "am").
  set (pm := field (field e "meds") "pm").
  rewrite (proj1 (or_empty_field am "multaq")),
          (proj1 (or_empty_field am "edoxaban")),
          (proj1 (or_empty_field am "bisoprolol")),
          (proj1 (or_empty_field pm "multaq")). cbn [bind].
  rewrite labelCell_symptoms, labelCell_meds.
  rewrite !(proj2 (or_empty_field _ _)).
  reflexivity.
Qed.

Lemma detail_total (e : value) :
  JS.nullish e = false -> exists d, Ui.detail e = Ok d.
Proof.
  intros He. unfold Ui.detail.
  rewrite !(get_field e) by exact He. simpl. eexists; reflexivity.
Qed.

Lemma medFlag_wf (d : string) (e : value) (m : Ui.Med) :
  wfEntry d e -> exists x, Ui.medFlag e m = Ok x.
Proof.
  intros (eo & notes & meds & -> & _ & _ & _ & Hmeds
          & (mo & am & pm & -> & _ & Ham & [a [-> _]] & Hpm & [p [-> _]])).
  unfold Ui.medFlag. simpl. rewrite Hmeds. simpl.
  destruct m; simpl; rewrite ?Ham, ?Hpm; simpl; eexists; reflexivity.
Qed.

Lemma form_total (d date : string) (e : value) (boxes : list Ui.AlertBox) :
  wfEntry d e -> exists f, Ui.form date e boxes = Ok f.
Proof.
  intros Hwf. unfold Ui.form.
  rewrite !(get_field e) by (eapply wfEntry_not_nullish; exact Hwf). simpl.
  destruct (medFlag_wf d e Ui.AmMultaq Hwf) as [x1 ->].
  destruct (medFlag_wf d e Ui.AmEdoxaban Hwf) as [x2 ->].
  destruct (medFlag_wf d e Ui.AmBisoprolol Hwf) as [x3 ->].
  destruct (medFlag_wf d e Ui.PmMultaq Hwf) as [x4 ->].
  simpl. eexists; reflexivity.
Qed.

Lemma In_fatigueFlag (c1 c2 c3 : bool) :
  In App.fatigueFlag
     (flagIf c1 App.dizzinessFlag ++ flagIf c2 App.edemaFlag
      ++ flagIf c3 App.fatigueFlag)
  <-> c3 = true.
Proof.
  destruct c1, c2, c3; simpl; split; intros H; try reflexivity;
    try discriminate H; auto;
    repeat (destruct H as [H | H]; try discriminate H); contradiction.
Qed.

Lemma is_string_eq (x : value) (s : string) :
  App.is_string x s = true <-> x = VStr s.
Proof.
  destruct x; simpl; split; intros H; try discriminate H.
  - apply String.eqb_eq in H. subst; reflexivity.
  - injection H as ->. apply String.eqb_refl.
Qed.

Section HistoryOrder.

Variable localeCompare : string -> string -> Z.

Lemma by_date_desc_dated (x y : value) :
  dated x = true -> dated y = true ->
  JS.sort_compare (Ui.by_date_desc localeCompare) x y
  = Ok (localeCompare (date_of y) (date_of x)).
Proof.
  intros Hx Hy.
  assert (Ex : JS.sort_compare (Ui.by_date_desc localeCompare) x y
               = Ui.by_date_desc localeCompare x y).
  { destruct x; try discriminate Hx; destruct y; try discriminate Hy;
      reflexivity. }
  rewrite Ex. unfold Ui.by_date_desc.
  rewrite (dated_get x Hx), (dated_get y Hy). reflexivity.
Qed.

Lemma sort_desc_dated (l : list value) :
  Forall (fun e => dated e = true) l ->
  exists s,
    JS.sort (Ui.by_date_desc localeCompare) l = Ok s
    /\ Permutation l s /\ Forall (fun e => dated e = true) s.
Proof.
  intros Hl.
  destruct (sort_ok (Ui.by_date_desc localeCompare)
              (fun e => dated e = true) (fun _ _ => True)) with (l := l)
    as (s & Hs & Hperm & HP & _).
  - intros x y Hx Hy. eexists. apply by_date_desc_dated; assumption.
  - intros. exact I.
  - intros. exact I.
  - exact Hl.
  - exists s. auto.
Qed.

Lemma sort_desc_iso_dated (l : list value) :
  orders_iso_dates localeCompare ->
  Forall (fun e => iso_dated e = true) l ->
  exists s,
    JS.sort (Ui.by_date_desc localeCompare) l = Ok s
    /\ Permutation l s /\ Forall (fun e => iso_dated e = true) s
    /\ Sorted date_ge s.
Proof.
  intros Hlc Hl.
  apply (sort_ok (Ui.by_date_desc localeCompare)
           (fun e => iso_dated e = true) date_ge); [| | | exact Hl].
  - intros x y Hx Hy. eexists.
    apply by_date_desc_dated; apply iso_dated_dated; assumption.
  - intros x y c Hx Hy Hc Hle.
    rewrite (by_date_desc_dated x y (iso_dated_dated x Hx)
               (iso_dated_dated y Hy)) in Hc.
    injection Hc as <-.
    pose proof (Hlc _ _ (iso_dated_date_of y Hy) (iso_dated_date_of x Hx))
      as E.
    unfold date_ge, date_le, String.leb. rewrite <- E.
    destruct (Z.compare_spec (localeCompare (date_of y) (date_of x)) 0);
      [reflexivity | reflexivity | lia].
  - intros x y c Hx Hy Hc Hgt.
    rewrite (by_date_desc_dated x y (iso_dated_dated x Hx)
               (iso_dated_dated y Hy)) in Hc.
    injection Hc as <-.
    pose proof (Hlc _ _ (iso_dated_date_of y Hy) (iso_dated_date_of x Hx))
      as E.
    unfold date_ge, date_le, String.leb. rewrite String.compare_antisym, <- E.
    destruct (Z.compare_spec (localeCompare (date_of y) (date_of x)) 0);
      [lia | lia | reflexivity].
Qed.

Lemma historyRows_sorted (o : obj) (s : list value) :
  JS.sort (Ui.by_date_desc localeCompare) (Props.values o) = Ok s ->
  Forall (fun e => dated e = true) s ->
  Ui.historyRows localeCompare (VObj o) = Ok (map rowOf s).
Proof.
  intros Hs Hd. unfold Ui.historyRows. simpl. rewrite Hs. simpl.
  apply mapM_map. eapply Forall_impl; [| exact Hd].
  intros e He. apply historyRow_rowOf, dated_not_nullish, He.
Qed.

Lemma date_ge_trans (a b c : value) :
  date_ge a b -> date_ge b c -> date_ge a c.
Proof. unfold date_ge. intros H1 H2. eapply date_le_trans; eassumption. Qed.

Lemma Sorted_date_ge_strongly (l : list value) :
  Sorted date_ge l -> StronglySorted date_ge l.
Proof. apply Sorted_StronglySorted. intros a b c. apply date_ge_trans. Qed.

End HistoryOrder.

(** Two lists with the same members and pairwise distinct keys, both
    ascending by key, are equal. *)
Lemma leb_antisym (a b : string) :
  String.leb a b = true -> String.leb b a = true -> a = b.
Proof.
  unfold String.leb. intros H1 H2.
  destruct (String.compare a b) eqn:E.
  - apply String.compare_eq_iff; exact E.
  - rewrite String.compare_antisym, E in H2. discriminate H2.
  - discriminate H1.
Qed.

Lemma sorted_unique_by {A : Type} (key : A -> string) (l1 : list A) :
  forall l2,
    NoDup (map key l1) ->
    Permutation l1 l2 ->
    StronglySorted (fun a b => String.leb (key a) (key b) = true) l1 ->
    StronglySorted (fun a b => String.leb (key a) (key b) = true) l2 ->
    l1 = l2.
Proof.
  induction l1 as [| a l1 IH]; intros l2 Hnd Hperm H1 H2.
  - apply Permutation_nil in Hperm. subst; reflexivity.
  - destruct l2 as [| b l2];
      [apply Permutation_sym, Permutation_nil in Hperm; discriminate |].
    inversion H1 as [| ? ? Hs1 Ha]; subst.
    inversion H2 as [| ? ? Hs2 Hb]; subst.
    assert (Hab : a = b).
    { assert (Hin_a : In a (b :: l2))
        by (eapply Permutation_in; [exact Hperm | left; reflexivity]).
      assert (Hin_b : In b (a :: l1))
        by (eapply Permutation_in;
            [apply Permutation_sym; exact Hperm | left; reflexivity]).
      destruct Hin_a as [E | Hin_a]; [symmetry; exact E |].
      destruct Hin_b as [E | Hin_b]; [exact E |].
      rewrite Forall_forall in Ha, Hb.
      pose proof (leb_antisym _ _ (Ha b Hin_b) (Hb a Hin_a)) as Ed.
      exfalso. simpl in Hnd. inversion Hnd as [| ? ? Hnot _]; subst.
      apply Hnot. rewrite Ed. apply in_map. exact Hin_b. }
    subst b. f_equal.
    apply IH; [inversion Hnd; assumption | | assumption | assumption].
    eapply Permutation_cons_inv; exact Hperm.
Qed.

Lemma sorted_unique (l1 l2 : list value) :
  NoDup (map date_of l1) ->
  Permutation l1 l2 ->
  StronglySorted date_le l1 -> StronglySorted date_le l2 ->
  l1 = l2.
Proof. apply (sorted_unique_by date_of). Qed.

Lemma StronglySorted_rev (l : list value) :
  StronglySorted date_ge l -> StronglySorted date_le (rev l).
Proof.
  induction l as [| a l IH]; simpl; intros H; [constructor |].
  inversion H as [| ? ? Hs Ha]; subst.
  assert (Hgen : forall l1 x, StronglySorted date_le l1 ->
                   Forall (fun y => date_le y x) l1 ->
                   StronglySorted date_le (l1 ++ [x])).
  { clear. induction l1 as [| y l1 IH]; simpl; intros x Hs Hall.
    - repeat constructor.
    - inversion Hs; subst. inversion Hall; subst.
      constructor; [apply IH; assumption |].
      apply Forall_app. split; [assumption | repeat constructor; assumption]. }
  apply Hgen; [apply IH; exact Hs |].
  apply Forall_rev. exact Ha.
Qed.

Section ChartsAndHistory.

Variable localeCompare : string -> string -> Z.

(** With distinct ISO dates the history table is the chart order,
    reversed. *)
Lemma charts_history_reverse (o : obj) :
  orders_iso_dates localeCompare ->
  Forall (fun e => iso_dated e = true) (Props.values o) ->
  NoDup (map date_of (Props.values o)) ->
  exists ascending,
    Permutation (Props.values o) ascending
    /\ StronglySorted date_le ascending
    /\ JS.sort (App.by_date localeCompare) (Props.values o) = Ok ascending
    /\ App.daysData localeCompare (VObj o) = Ok (map chartPoint ascending)
    /\ Ui.historyRows localeCompare (VObj o)
       = Ok (map rowOf (rev ascending)).
Proof.
  intros Hlc Hiso Hnd.
  destruct (sort_iso_dated localeCompare (Props.values o) Hlc Hiso)
    as (asc & Hasc & Hperm & Hiso_a & Hsorted_a).
  destruct (sort_desc_iso_dated localeCompare (Props.values o) Hlc Hiso)
    as (desc & Hdesc & Hperm' & Hiso_d & Hsorted_d).
  pose proof (Sorted_date_le_strongly asc Hsorted_a) as Hsa.
  pose proof (StronglySorted_rev desc
                (Sorted_date_ge_strongly desc Hsorted_d)) as Hsd.
  assert (E : asc = rev desc).
  { apply sorted_unique; [| | exact Hsa | exact Hsd].
    - eapply Permutation_NoDup; [| exact Hnd].
      apply Permutation_map; exact Hperm.
    - eapply perm_trans; [apply Permutation_sym; exact Hperm |].
      eapply perm_trans; [exact Hperm' | apply Permutation_rev]. }
  exists asc.
  split; [exact Hperm |]. split; [exact Hsa |]. split; [exact Hasc |].
  split.
  - apply daysData_dated; [exact Hasc |].
    eapply Forall_impl; [| exact Hiso_a].
    intros e He. apply iso_dated_dated; exact He.
  - rewrite E, rev_involutive.
    apply historyRows_sorted; [exact Hdesc |].
    eapply Forall_impl; [| exact Hiso_d].
    intros e He. apply iso_dated_dated; exact He.
Qed.

End ChartsAndHistory.

(** *** The number of recorded days *)

Lemma length_keys {A : Type} (o : Props.props A) :
  List.length (Props.keys o) = List.length o.
Proof. apply length_map. Qed.

Lemma length_set {A : Type} (k : string) (v : A) (o : Props.props A) :
  List.length (Props.set k v o)
  = match Props.lookup k o with
    | Some _ => List.length o
    | None => S (List.length o)
    end.
Proof.
  destruct (Props.lookup k o) as [x |] eqn:E.
  - rewrite <- !length_keys. unfold Props.set. rewrite E.
    rewrite keys_replace. reflexivity.
  - rewrite <- !length_keys.
    rewrite (Permutation_length (keys_set_new k v o E)).
    rewrite length_app. simpl. lia.
Qed.

Lemma keys_assign_new {A : Type} (src : Props.props A) :
  forall acc : Props.props A,
    NoDup (Props.keys src) ->
    (forall k, In k (Props.keys src) -> Props.lookup k acc = None) ->
    Permutation (Props.keys (Props.assign acc src))
                (Props.keys acc ++ Props.keys src).
Proof.
  induction src as [| [k v] src IH]; intros acc Hnd Hnew.
  - simpl. rewrite app_nil_r. apply Permutation_refl.
  - inversion Hnd as [| ? ? Hnot Hnd']; subst.
    change (Props.assign acc ((k, v) :: src))
      with (Props.assign (Props.set k v acc) src).
    eapply perm_trans.
    + apply IH; [exact Hnd' |].
      intros k' Hin. rewrite lookup_set_other.
      * apply Hnew. right. exact Hin.
      * intros ->. apply Hnot. exact Hin.
    + eapply perm_trans.
      * apply Permutation_app_tail. apply keys_set_new.
        apply Hnew. left. reflexivity.
      * rewrite <- app_assoc. apply Permutation_refl.
Qed.

Lemma length_spread_obj (o : obj) :
  NoDup (Props.keys o) -> List.length (JS.spread [] (VObj o)) = List.length o.
Proof.
  intros Hnd. rewrite <- !length_keys. unfold JS.spread. simpl.
  rewrite (Permutation_length (keys_assign_new o [] Hnd (fun _ _ => eq_refl))).
  reflexivity.
Qed.

Lemma length_delete {A : Type} (k : string) (o : Props.props A) :
  NoDup (Props.keys o) ->
  List.length (Props.delete k o)
  = match Props.lookup k o with
    | Some _ => pred (List.length o)
    | None => List.length o
    end.
Proof.
  induction o as [| [k' v] o IH]; simpl; intros Hnd; [reflexivity |].
  inversion Hnd as [| ? ? Hnot Hnd']; subst.
  destruct (String.eqb_spec k k') as [-> | Hne].
  - rewrite IH by exact Hnd'.
    apply lookup_None_keys in Hnot. rewrite Hnot. reflexivity.
  - simpl. rewrite IH by exact Hnd'.
    destruct (Props.lookup k o) eqn:E; [| reflexivity].
    destruct o; [discriminate E | reflexivity].
Qed.

(** *** The handlers keep the store well formed *)

Section Handlers.

Variable tz : Date.zone.
Variable localeCompare : string -> string -> Z.
Variable Math_sin Math_cos : Num.num -> Num.num.
Variable todayStr : string.

Lemma step_wf (a : Ui.Action) (st st' : App.State) :
  wfState st ->
  Ui.step tz localeCompare Math_sin Math_cos todayStr a st = Ok st' ->
  wfState st'.
Proof.
  intros [o [Ho Hwf]] H.
  pose proof (state_eta st o Ho) as Est.
  destruct a as [d | t | f text | s v | m v | now | clock random |];
    simpl in H.
  - injection H as <-. exists o. split; [exact Ho | exact Hwf].
  - injection H as <-. exists o. split; [exact Ho | exact Hwf].
  - rewrite Est, updateEntry_updated in H. injection H as <-.
    eexists. split; [reflexivity |].
    apply wfStore_updated; [exact Hwf |].
    apply wfEntry_patch.
    + apply wfEntry_shown; exact Hwf.
    + destruct f; discriminate.
    + destruct f; discriminate.
    + intros _. eexists; reflexivity.
  - rewrite Est, updateEntry_updated in H. injection H as <-.
    eexists. split; [reflexivity |].
    apply wfStore_updated; [exact Hwf |].
    apply wfEntry_patch.
    + apply wfEntry_shown; exact Hwf.
    + destruct s; discriminate.
    + destruct s; discriminate.
    + destruct s; discriminate.
  - unfold App.toggleMed in H. rewrite Est, entry_shown in H. cbn [bind] in H.
    pose proof (wfEntry_shown todayStr o (App.date st) Hwf) as Hshown.
    destruct (wfEntry_meds _ _ Hshown) as [meds [Hm Hwm]].
    rewrite Hm in H. cbn [bind] in H.
    destruct (wfMeds_toggle meds (Ui.medPart m) (Ui.medName m) v Hwm)
      as [p [Hp Hwm']].
    { destruct m; [left | left | left | right]; reflexivity. }
    rewrite Hp in H. cbn [bind] in H.
    rewrite updateEntry_updated in H. injection H as <-.
    eexists. split; [reflexivity |].
    apply wfStore_updated; [exact Hwf |].
    apply wfEntry_patch_meds; [exact Hshown | exact Hwm'].
  - destruct (App.exportCSV _ _ _ _) as [dl | err]; simpl in H;
      [| discriminate H].
    injection H as <-. exists o. split; [exact Ho | exact Hwf].
  - unfold App.fillDemo in H.
    destruct (App.demoLoop _ _ _ _ _ _ _ _ _ _) as [map | err] eqn:E;
      simpl in H; [| discriminate H].
    injection H as <-. exists map. split; [reflexivity |].
    eapply demoLoop_wf; [apply wfStore_nil | exact E].
  - unfold App.resetToday in H. injection H as <-.
    eexists. split; [simpl; rewrite Ho; reflexivity |].
    apply wfStore_deleted; exact Hwf.
Qed.

Lemma step_returns (a : Ui.Action) (st : App.State) :
  wfState st -> clockFree a = true ->
  exists st',
    Ui.step tz localeCompare Math_sin Math_cos todayStr a st = Ok st'.
Proof.
  intros [o [Ho Hwf]] Ha.
  pose proof (state_eta st o Ho) as Est.
  destruct a as [d | t | f text | s v | m v | now | clock random |];
    simpl in Ha; try discriminate Ha; simpl.
  - eexists; reflexivity.
  - eexists; reflexivity.
  - rewrite Est, updateEntry_updated. eexists; reflexivity.
  - rewrite Est, updateEntry_updated. eexists; reflexivity.
  - unfold App.toggleMed. rewrite Est, entry_shown. cbn [bind].
    pose proof (wfEntry_shown todayStr o (App.date st) Hwf) as Hshown.
    destruct (wfEntry_meds _ _ Hshown) as [meds [Hm Hwm]].
    rewrite Hm. cbn [bind].
    destruct (wfMeds_toggle meds (Ui.medPart m) (Ui.medName m) v Hwm)
      as [p [Hp Hwm']].
    { destruct m; [left | left | left | right]; reflexivity. }
    rewrite Hp. cbn [bind].
    rewrite updateEntry_updated. eexists; reflexivity.
  - eexists; reflexivity.
Qed.

Lemma export_returns (o : obj) (now : Z) (today : string) :
  wfStore o ->
  App.fmtDate tz (Date.of_value now) = Ok today ->
  exists dl, App.exportCSV tz localeCompare (VObj o) now = Ok dl
             /\ App.filename dl = ("afibcare_" ++ today ++ ".csv")%string.
Proof.
  intros Hwf Hnow.
  destruct (sort_dated localeCompare (Props.values o) (wfStore_dated o Hwf))
    as (s & Hs & Hperm & Hd).
  assert (Hp : Forall (fun e => printable e = true) s).
  { eapply Permutation_Forall; [exact Hperm |].
    apply wfStore_printable; exact Hwf. }
  unfold App.exportCSV.
  rewrite (csvRows_printable localeCompare o s Hs Hp). cbn [bind].
  rewrite Hnow. cbn [bind]. eexists. split; reflexivity.
Qed.

Lemma render_wf (st : App.State) (o : obj) :
  App.entries st = VObj o -> wfStore o ->
  exists (f : Ui.Form) (d : Ui.Detail) (asc desc : list value),
    Permutation (Props.values o) asc
    /\ Permutation (Props.values o) desc
    /\ Ui.render localeCompare todayStr st
       = Ok (if String.eqb (App.tab st) "오늘 체크" then Ui.CheckIn f
             else if String.eqb (App.tab st) "기록 보기"
             then Ui.History (List.length o) d (map rowOf desc)
             else if String.eqb (App.tab st) "그래프"
             then Ui.Charts (map chartPoint asc)
             else if String.eqb (App.tab st) "교육" then Ui.Education
             else Ui.HeaderOnly)
    /\ Ui.f_date f = App.date st.
Proof.
  intros Ho Hwf.
  pose proof (state_eta st o Ho) as Est.
  pose proof (wfEntry_shown todayStr o (App.date st) Hwf) as Hshown.
  pose proof (wfEntry_not_nullish _ _ Hshown) as Hnn.
  destruct (sort_dated localeCompare (Props.values o) (wfStore_dated o Hwf))
    as (asc & Hasc & Hperm & Hd).
  destruct (sort_desc_dated localeCompare (Props.values o)
              (wfStore_dated o Hwf))
    as (desc & Hdesc & Hperm' & Hd').
  destruct (form_total _ (App.date st) _
              (match dangerList (shown todayStr o (App.date st)),
                     warnList (shown todayStr o (App.date st)) with
               | _ :: _, _ =>
                   [dangerBox (dangerList (shown todayStr o (App.date st)))]
               | [], _ :: _ =>
                   [warnBox (warnList (shown todayStr o (App.date st)))]
               | [], [] => []
               end) Hshown) as [f Hf].
  destruct (detail_total _ Hnn) as [d Hdet].
  exists f, d, asc, desc.
  split; [exact Hperm |]. split; [exact Hperm' |].
  split.
  - unfold Ui.render.
    rewrite Est at 1. rewrite entry_shown. cbn [bind].
    rewrite Ho.
    rewrite (daysData_dated localeCompare o asc Hasc Hd). cbn [bind].
    rewrite (alerts_eq _ Hnn). cbn [bind].
    rewrite Hf, Hdet.
    rewrite (historyRows_sorted localeCompare o desc Hdesc Hd').
    cbn [bind JS.Object_keys JS.nullish JS.own_props].
    rewrite length_keys.
    destruct (String.eqb (App.tab st) "오늘 체크"); [reflexivity |].
    destruct (String.eqb (App.tab st) "기록 보기"); [reflexivity |].
    destruct (String.eqb (App.tab st) "그래프"); [reflexivity |].
    destruct (String.eqb (App.tab st) "교육"); reflexivity.
  - unfold Ui.form in Hf.
    rewrite !(get_field _ _ Hnn) in Hf. cbn [bind] in Hf.
    destruct (Ui.medFlag _ Ui.AmMultaq); [| discriminate Hf].
    destruct (Ui.medFlag _ Ui.AmEdoxaban); [| discriminate Hf].
    destruct (Ui.medFlag _ Ui.AmBisoprolol); [| discriminate Hf].
    destruct (Ui.medFlag _ Ui.PmMultaq); [| discriminate Hf].
    cbn [bind] in Hf. injection Hf as <-. reflexivity.
Qed.

End Handlers.

(* ================================================================== *)
(** ** The cache worker *)

Section Worker.

Variable Response : Type.
Variable ok : Response -> bool.

Lemma delete_filter {A : Type} (k : string) (o : Props.props A) :
  Props.delete k o = filter (fun kv => negb (String.eqb k (fst kv))) o.
Proof.
  induction o as [| [k' v] o IH]; simpl; [reflexivity |].
  destruct (String.eqb k k'); simpl; [exact IH | rewrite IH; reflexivity].
Qed.

Lemma filter_all {A : Type} (p : A -> bool) (l : list A) :
  (forall x, In x l -> p x = true) -> filter p l = l.
Proof.
  induction l as [| x l IH]; simpl; intros H; [reflexivity |].
  rewrite (H x (or_introl eq_refl)). f_equal. apply IH.
  intros y Hy. apply H. right; exact Hy.
Qed.

Lemma filter_twice {A : Type} (p q : A -> bool) (l : list A) :
  filter p (filter q l) = filter (fun x => q x && p x) l.
Proof.
  induction l as [| x l IH]; simpl; [reflexivity |].
  destruct (q x); simpl; [destruct (p x); rewrite IH; reflexivity | exact IH].
Qed.

Lemma activate_fold (ks : list string) :
  forall acc : SW.CacheStorage Response,
    fold_left
      (fun acc k =>
         if negb (String.eqb k SW.CACHE) then Props.delete k acc else acc)
      ks acc
    = filter
        (fun kv =>
           forallb (fun k => String.eqb k SW.CACHE
                             || negb (String.eqb k (fst kv))) ks)
        acc.
Proof.
  induction ks as [| k ks IH]; intros acc; simpl.
  - symmetry. apply filter_all. reflexivity.
  - rewrite IH.
    destruct (String.eqb k SW.CACHE) eqn:E; simpl.
    + reflexivity.
    + rewrite delete_filter, filter_twice. reflexivity.
Qed.

(** Activation keeps the caches named [CACHE] and no other. *)
Lemma activate_filter (cs : SW.CacheStorage Response) :
  SW.activate Response cs = filter (fun kv => String.eqb (fst kv) SW.CACHE) cs.
Proof.
  unfold SW.activate. rewrite activate_fold.
  apply filter_ext_in. intros [name c] Hin. simpl.
  destruct (String.eqb_spec name SW.CACHE) as [-> | Hne].
  - apply forallb_forall. intros k _.
    destruct (String.eqb k SW.CACHE); reflexivity.
  - apply not_true_is_false. intros Hall.
    rewrite forallb_forall in Hall.
    assert (Hk : In name (Props.keys cs)).
    { change name with (fst (name, c)). apply in_map. exact Hin. }
    specialize (Hall name Hk). rewrite String.eqb_refl in Hall.
    apply (proj2 (String.eqb_neq _ _)) in Hne. rewrite Hne in Hall.
    discriminate Hall.
Qed.

Lemma lookup_filter_key {A : Type} (k name : string) (o : Props.props A) :
  Props.lookup name (filter (fun kv => String.eqb (fst kv) k) o)
  = if String.eqb name k then Props.lookup k o else None.
Proof.
  induction o as [| [k' v] o IH]; simpl.
  - destruct (String.eqb name k); reflexivity.
  - destruct (String.eqb_spec k' k) as [-> | Hne]; simpl; rewrite IH.
    + rewrite String.eqb_refl.
      destruct (String.eqb name k); reflexivity.
    + destruct (String.eqb_spec name k) as [-> | Hne']; [| reflexivity].
      destruct (String.eqb_spec k k') as [E | _]; [| reflexivity].
      exfalso. apply Hne. symmetry; exact E.
Qed.

Lemma filter_key_single {A : Type} (k : string) (v : A) (o : Props.props A) :
  NoDup (Props.keys o) -> Props.lookup k o = Some v ->
  filter (fun kv => String.eqb (fst kv) k) o = [(k, v)].
Proof.
  induction o as [| [k' v'] o IH]; simpl; intros Hnd H; [discriminate H |].
  inversion Hnd as [| ? ? Hnot Hnd']; subst.
  destruct (String.eqb_spec k k') as [<- | Hne].
  - injection H as ->. rewrite String.eqb_refl. f_equal.
    clear IH Hnd Hnd'. induction o as [| [k2 v2] o IH]; [reflexivity |].
    simpl in *. destruct (String.eqb_spec k2 k) as [-> | _].
    + exfalso. apply Hnot. left; reflexivity.
    + apply IH. intros Hin. apply Hnot. right; exact Hin.
  - apply not_eq_sym, (proj2 (String.eqb_neq _ _)) in Hne. rewrite Hne.
    apply IH; assumption.
Qed.

Lemma filter_key_none {A : Type} (k : string) (o : Props.props A) :
  Props.lookup k o = None ->
  filter (fun kv => String.eqb (fst kv) k) o = [].
Proof.
  induction o as [| [k' v'] o IH]; simpl; intros H; [reflexivity |].
  destruct (String.eqb_spec k k') as [<- | Hne]; [discriminate H |].
  apply not_eq_sym, (proj2 (String.eqb_neq _ _)) in Hne. rewrite Hne.
  apply IH; exact H.
Qed.

(** After activation a request is answered from [CACHE] or not at all. *)
Lemma match_all_activate (cs : SW.CacheStorage Response) (url : string) :
  NoDup (Props.keys cs) ->
  SW.match_all Response url (SW.activate Response cs)
  = match Props.lookup SW.CACHE cs with
    | Some c => Props.lookup url c
    | None => None
    end.
Proof.
  intros Hnd. rewrite activate_filter.
  destruct (Props.lookup SW.CACHE cs) as [c |] eqn:E.
  - rewrite (filter_key_single SW.CACHE c cs Hnd E).
    unfold SW.match_all. simpl. destruct (Props.lookup url c); reflexivity.
  - rewrite (filter_key_none SW.CACHE cs E). reflexivity.
Qed.

(** What [caches.open(CACHE)] leaves. *)
Lemma open_lookup (cs : SW.CacheStorage Response) :
  let c := fst (SW.open Response SW.CACHE cs) in
  let cs1 := snd (SW.open Response SW.CACHE cs) in
  Props.lookup SW.CACHE cs1 = Some c
  /\ (forall name, name <> SW.CACHE ->
        Props.lookup name cs1 = Props.lookup name cs)
  /\ c = match Props.lookup SW.CACHE cs with Some c0 => c0 | None => [] end.
Proof.
  unfold SW.open.
  destruct (Props.lookup SW.CACHE cs) as [c0 |] eqn:E; simpl.
  - repeat split. exact E.
  - split.
    { rewrite (lookup_app_None _ _ _ E). reflexivity. }
    split; [| reflexivity].
    intros name Hne.
    destruct (Props.lookup name cs) as [x |] eqn:En.
    + apply lookup_app_Some. exact En.
    + rewrite (lookup_app_None _ _ _ En). simpl.
      apply (proj2 (String.eqb_neq _ _)) in Hne. rewrite Hne. reflexivity.
Qed.

Lemma open_NoDup (cs : SW.CacheStorage Response) :
  NoDup (Props.keys cs) ->
  NoDup (Props.keys (snd (SW.open Response SW.CACHE cs))).
Proof.
  intros Hnd. unfold SW.open.
  destruct (Props.lookup SW.CACHE cs) as [c0 |] eqn:E; simpl; [exact Hnd |].
  unfold Props.keys. rewrite map_app. simpl.
  apply NoDup_app; [exact Hnd | distinct_keys |].
  intros k Hin Hin'. destruct Hin' as [<- | []].
  apply lookup_None_keys in E. apply E. exact Hin.
Qed.

(** [addAll(ASSETS)] is fulfilled exactly when the three assets are fetched
    and are ok, and then the cache answers each asset with what was
    fetched. *)
Lemma addAll_assets (net : SW.Network Response) (c : SW.Cache Response) :
  (exists c',
      SW.addAll Response ok net SW.ASSETS c = Ok c'
      /\ (forall url, In url SW.ASSETS ->
            exists r, net url = Some r /\ ok r = true
                      /\ Props.lookup url c' = Some r)
      /\ (forall url, ~ In url SW.ASSETS ->
            Props.lookup url c' = Props.lookup url c))
  \/ (SW.addAll Response ok net SW.ASSETS c = Throw TypeError
      /\ exists url, In url SW.ASSETS
                     /\ (net url = None
                         \/ exists r, net url = Some r /\ ok r = false)).
Proof.
  unfold SW.addAll, SW.ASSETS, SW.fetch. simpl.
  destruct (net "/") as [r1 |] eqn:E1; simpl;
    [| right; split; [reflexivity |];
       exists "/"; split; [left; reflexivity | left; exact E1]].
  destruct (ok r1) eqn:O1; simpl;
    [| right; split; [reflexivity |];
       exists "/"; split; [left; reflexivity |];
       right; exists r1; split; assumption].
  destruct (net "/index.html") as [r2 |] eqn:E2; simpl;
    [| right; split; [reflexivity |];
       exists "/index.html"; split; [right; left; reflexivity | left; exact E2]].
  destruct (ok r2) eqn:O2; simpl;
    [| right; split; [reflexivity |];
       exists "/index.html"; split; [right; left; reflexivity |];
       right; exists r2; split; assumption].
  destruct (net "/manifest.webmanifest") as [r3 |] eqn:E3; simpl;
    [| right; split; [reflexivity |];
       exists "/manifest.webmanifest";
       split; [right; right; left; reflexivity | left; exact E3]].
  destruct (ok r3) eqn:O3; simpl;
    [| right; split; [reflexivity |];
       exists "/manifest.webmanifest";
       split; [right; right; left; reflexivity |];
       right; exists r3; split; assumption].
  left. eexists. split; [reflexivity |]. split.
  - intros url [<- | [<- | [<- | []]]].
    + exists r1. repeat split; try assumption.
      rewrite !lookup_set_other by discriminate. apply lookup_set_same.
    + exists r2. repeat split; try assumption.
      rewrite lookup_set_other by discriminate. apply lookup_set_same.
    + exists r3. repeat split; try assumption. apply lookup_set_same.
  - intros url Hnot.
    rewrite !lookup_set_other; [reflexivity | | |];
      intros ->; apply Hnot; simpl; auto.
Qed.

End Worker.

(* ================================================================== *)
(** ** ISO dates: their shape and their order *)

Section IsoOrder.
Local Open Scope Z_scope.

Lemma chars_of_chars (l : list ascii) : Str.chars (Str.of_chars l) = l.
Proof. apply list_ascii_of_string_of_list_ascii. Qed.

Lemma of_chars_chars (s : string) : Str.of_chars (Str.chars s) = s.
Proof. apply string_of_list_ascii_of_string. Qed.

Lemma N_of_digit_char (x : Z) :
  0 <= x < 10 -> N_of_ascii (Num.digit_char x) = (48 + Z.to_N x)%N.
Proof.
  intros Hx. unfold Num.digit_char. apply N_ascii_embedding. lia.
Qed.

Lemma is_digit_digit_char (x : Z) :
  0 <= x < 10 -> is_digit (Num.digit_char x) = true.
Proof.
  intros Hx. unfold is_digit. rewrite N_of_digit_char by exact Hx.
  apply andb_true_iff. split; apply N.leb_le; lia.
Qed.

Lemma pad_digits (w : nat) :
  forall n, Forall (fun c => is_digit c = true) (Date.pad w n).
Proof.
  induction w as [| w IH]; intros n; simpl; [constructor |].
  apply Forall_app. split; [apply IH |].
  constructor; [| constructor].
  apply is_digit_digit_char. apply Z.mod_pos_bound. lia.
Qed.

Lemma iso_date_parts (y m d : list ascii) :
  List.length y = 4%nat -> List.length m = 2%nat -> List.length d = 2%nat ->
  Forall (fun c => is_digit c = true) y ->
  Forall (fun c => is_digit c = true) m ->
  Forall (fun c => is_digit c = true) d ->
  iso_date (Str.of_chars (y ++ "-"%char :: m ++ "-"%char :: d)) = true.
Proof.
  intros Ly Lm Ld Hy Hm Hd.
  destruct y as [| y1 [| y2 [| y3 [| y4 [| ? ?]]]]]; try discriminate Ly.
  destruct m as [| m1 [| m2 [| ? ?]]]; try discriminate Lm.
  destruct d as [| d1 [| d2 [| ? ?]]]; try discriminate Ld.
  unfold iso_date. rewrite chars_of_chars. simpl.
  repeat match goal with
         | H : Forall _ (_ :: _) |- _ => inversion H; clear H; subst
         end.
  repeat match goal with
         | H : is_digit _ = true |- _ => rewrite H; clear H
         end.
  reflexivity.
Qed.

Lemma day_fields_range (d : Z) :
  firstDay <= d <= lastDay ->
  0 <= Date.YearFromTime (d * Date.msPerDay) <= 9999.
Proof.
  intros H. unfold Date.YearFromTime. rewrite Day_of_day.
  apply YearFromDay_range. exact H.
Qed.

Lemma isoDay_chars (d : Z) :
  firstDay <= d <= lastDay ->
  isoDay d
  = Str.of_chars
      (Date.pad 4 (Date.YearFromTime (d * Date.msPerDay))
       ++ "-"%char :: Date.pad 2 (Date.MonthFromTime (d * Date.msPerDay) + 1)
       ++ "-"%char :: Date.pad 2 (Date.DateFromTime (d * Date.msPerDay)))%list.
Proof.
  intros H. unfold isoDay. rewrite slice_iso_string.
  rewrite (date_chars_in_range _ (day_fields_range d H)). reflexivity.
Qed.

(** The ISO date of a day of the four-digit years has the shape
    [YYYY-MM-DD]. *)
Lemma iso_date_isoDay (d : Z) :
  firstDay <= d <= lastDay -> iso_date (isoDay d) = true.
Proof.
  intros H. rewrite (isoDay_chars d H).
  apply iso_date_parts; try apply length_pad; apply pad_digits.
Qed.

(** *** The order of the strings *)

Lemma string_compare_refl (s : string) : String.compare s s = Eq.
Proof.
  induction s as [| c s IH]; simpl; [reflexivity |].
  unfold Ascii.compare. rewrite N.compare_refl. exact IH.
Qed.

Lemma compare_of_chars_cons (c : ascii) (a b : list ascii) :
  String.compare (Str.of_chars (c :: a)) (Str.of_chars (c :: b))
  = String.compare (Str.of_chars a) (Str.of_chars b).
Proof.
  simpl. unfold Ascii.compare. rewrite N.compare_refl. reflexivity.
Qed.

Lemma compare_of_chars_app (a a' b b' : list ascii) :
  List.length a = List.length a' ->
  String.compare (Str.of_chars (a ++ b)) (Str.of_chars (a' ++ b'))
  = match String.compare (Str.of_chars a) (Str.of_chars a') with
    | Eq => String.compare (Str.of_chars b) (Str.of_chars b')
    | c => c
    end.
Proof.
  revert a'. induction a as [| x a IH]; intros [| x' a'] Hl;
    try discriminate Hl.
  - reflexivity.
  - injection Hl as Hl. simpl.
    destruct (Ascii.compare x x'); try reflexivity.
    apply (IH a' Hl).
Qed.

Lemma compare_digit_char (x y : Z) :
  0 <= x < 10 -> 0 <= y < 10 ->
  Ascii.compare (Num.digit_char x) (Num.digit_char y) = (x ?= y).
Proof.
  intros Hx Hy. unfold Ascii.compare.
  rewrite !N_of_digit_char by assumption.
  destruct (Z.compare_spec x y) as [E | E | E].
  - subst. apply N.compare_refl.
  - apply N.compare_lt_iff. lia.
  - apply N.compare_gt_iff. lia.
Qed.

Lemma compare_div_mod (a b : Z) :
  0 <= a -> 0 <= b ->
  match a / 10 ?= b / 10 with
  | Eq => a mod 10 ?= b mod 10
  | c => c
  end = (a ?= b).
Proof.
  intros Ha Hb.
  destruct (Z.compare_spec (a / 10) (b / 10)) as [E | E | E].
  - destruct (Z.compare_spec (a mod 10) (b mod 10)) as [E' | E' | E'];
      symmetry.
    + apply Z.compare_eq_iff.
      rewrite (Z.div_mod a 10), (Z.div_mod b 10) by lia. congruence.
    + apply Z.compare_lt_iff. Z.div_mod_to_equations. lia.
    + apply Z.compare_gt_iff. Z.div_mod_to_equations. lia.
  - symmetry. apply Z.compare_lt_iff. Z.div_mod_to_equations. lia.
  - symmetry. apply Z.compare_gt_iff. Z.div_mod_to_equations. lia.
Qed.

(** Numbers padded to the same width compare as they do. *)
Lemma compare_pad (w : nat) :
  forall a b,
    0 <= a -> 0 <= b ->
    String.compare (Str.of_chars (Date.pad w a)) (Str.of_chars (Date.pad w b))
    = match w with
      | O => Eq
      | S _ => (a mod 10 ^ Z.of_nat w ?= b mod 10 ^ Z.of_nat w)
      end.
Proof.
  induction w as [| w IH]; intros a b Ha Hb; [reflexivity |].
  cbn [Date.pad].
  rewrite compare_of_chars_app by (rewrite !length_pad; reflexivity).
  rewrite IH by (apply Z.div_pos; lia).
  assert (Hlast :
    String.compare (Str.of_chars [Num.digit_char (a mod 10)])
                   (Str.of_chars [Num.digit_char (b mod 10)])
    = (a mod 10 ?= b mod 10)).
  { simpl. rewrite compare_digit_char by (apply Z.mod_pos_bound; lia).
    destruct (a mod 10 ?= b mod 10); reflexivity. }
  rewrite Hlast.
  destruct w as [| w'].
  - change (Z.of_nat 1) with 1. rewrite Z.pow_1_r. reflexivity.
  - set (p := 10 ^ Z.of_nat (S w')).
    assert (Hp : 0 < p) by (apply Z.pow_pos_nonneg; lia).
    replace (10 ^ Z.of_nat (S (S w'))) with (10 * p)
      by (unfold p; rewrite (Nat2Z.inj_succ (S w')), Z.pow_succ_r by lia;
          reflexivity).
    assert (Hdm : forall x, 0 <= x ->
              (x mod (10 * p)) / 10 = (x / 10) mod p
              /\ (x mod (10 * p)) mod 10 = x mod 10).
    { intros x Hx. split.
      - rewrite Z.rem_mul_r by lia.
        rewrite (Z.mul_comm 10 ((x / 10) mod p)), Z.div_add by lia.
        rewrite (Z.div_small (x mod 10) 10) by (apply Z.mod_pos_bound; lia).
        lia.
      - rewrite Z.rem_mul_r by lia.
        rewrite (Z.mul_comm 10 ((x / 10) mod p)), Z.mod_add by lia.
        apply Z.mod_mod. lia. }
    destruct (Hdm a Ha) as [Ea1 Ea2]. destruct (Hdm b Hb) as [Eb1 Eb2].
    rewrite <- Ea1, <- Eb1, <- Ea2, <- Eb2.
    apply compare_div_mod; apply Z.mod_pos_bound; lia.
Qed.

Lemma compare_pad_small (w : nat) (a b : Z) :
  0 <= a < 10 ^ Z.of_nat (S w) -> 0 <= b < 10 ^ Z.of_nat (S w) ->
  String.compare (Str.of_chars (Date.pad (S w) a))
                 (Str.of_chars (Date.pad (S w) b))
  = (a ?= b).
Proof.
  intros Ha Hb. rewrite compare_pad by lia.
  rewrite !Z.mod_small by assumption. reflexivity.
Qed.

(** *** The order of the days *)

Lemma DayFromYear_mono (a b : Z) :
  a <= b -> Date.DayFromYear a <= Date.DayFromYear b.
Proof.
  intros H. unfold Date.DayFromYear. Z.div_mod_to_equations. lia.
Qed.

Lemma month_start_mono (l a b : Z) :
  0 <= l <= 1 -> 0 <= a -> a <= b -> b <= 11 ->
  Date.month_start l a <= Date.month_start l b.
Proof.
  intros Hl Ha Hab Hb.
  assert (Ea : a = 0 \/ a = 1 \/ a = 2 \/ a = 3 \/ a = 4 \/ a = 5 \/ a = 6
               \/ a = 7 \/ a = 8 \/ a = 9 \/ a = 10 \/ a = 11) by lia.
  assert (Eb : b = 0 \/ b = 1 \/ b = 2 \/ b = 3 \/ b = 4 \/ b = 5 \/ b = 6
               \/ b = 7 \/ b = 8 \/ b = 9 \/ b = 10 \/ b = 11) by lia.
  repeat (destruct Ea as [-> | Ea]); try subst a;
    repeat (destruct Eb as [-> | Eb]); try subst b;
    cbv beta iota delta [Date.month_start]; lia.
Qed.

(** The month of a day starts on or before it, and the next month after
    it. *)
Lemma month_bounds (t : Z) :
  Date.month_start (Date.InLeapYear t) (Date.MonthFromTime t)
  <= Date.DayWithinYear t
  /\ (Date.MonthFromTime t < 11 ->
      Date.DayWithinYear t
      < Date.month_start (Date.InLeapYear t) (Date.MonthFromTime t + 1)).
Proof.
  pose proof (DayWithinYear_range t) as Hd.
  pose proof (leap_range (Date.YearFromTime t)) as Hl.
  unfold Date.MonthFromTime.
  fold (Date.InLeapYear t) in Hl.
  set (d := Date.DayWithinYear t) in *.
  set (l := Date.InLeapYear t) in *.
  cbv zeta.
  repeat match goal with
         | |- context [?a <? ?b] =>
             destruct (Z.ltb_spec a b); [month_cases |]
         end.
  month_cases.
Qed.

Lemma fields_order (t1 t2 : Z) :
  Date.Day t1 < Date.Day t2 ->
  Date.YearFromTime t1 < Date.YearFromTime t2
  \/ (Date.YearFromTime t1 = Date.YearFromTime t2
      /\ (Date.MonthFromTime t1 < Date.MonthFromTime t2
          \/ (Date.MonthFromTime t1 = Date.MonthFromTime t2
              /\ Date.DateFromTime t1 < Date.DateFromTime t2))).
Proof.
  intros Hlt.
  pose proof (YearFromDay_spec (Date.Day t1)) as Hy1.
  pose proof (YearFromDay_spec (Date.Day t2)) as Hy2.
  fold (Date.YearFromTime t1) in Hy1. fold (Date.YearFromTime t2) in Hy2.
  destruct (Z.lt_trichotomy (Date.YearFromTime t1) (Date.YearFromTime t2))
    as [Hy | [Hy | Hy]]; [left; exact Hy | | exfalso].
  2:{ pose proof (DayFromYear_mono (Date.YearFromTime t2 + 1)
                    (Date.YearFromTime t1)). lia. }
  right. split; [exact Hy |].
  pose proof (month_bounds t1) as [Hm1 Hn1].
  pose proof (month_bounds t2) as [Hm2 Hn2].
  pose proof (MonthFromTime_range t1) as Hr1.
  pose proof (MonthFromTime_range t2) as Hr2.
  pose proof (leap_range (Date.YearFromTime t1)) as Hl.
  assert (El : Date.InLeapYear t2 = Date.InLeapYear t1)
    by (unfold Date.InLeapYear; rewrite Hy; reflexivity).
  assert (Hw : Date.DayWithinYear t1 < Date.DayWithinYear t2)
    by (unfold Date.DayWithinYear; rewrite Hy; lia).
  rewrite El in Hm2, Hn2. fold (Date.InLeapYear t1) in Hl.
  destruct (Z.lt_trichotomy (Date.MonthFromTime t1) (Date.MonthFromTime t2))
    as [Hm | [Hm | Hm]]; [left; exact Hm | | exfalso].
  - right. split; [exact Hm |].
    unfold Date.DateFromTime. rewrite El, Hm. lia.
  - pose proof (month_start_mono (Date.InLeapYear t1)
                  (Date.MonthFromTime t2 + 1) (Date.MonthFromTime t1)
                  Hl ltac:(lia) ltac:(lia) ltac:(lia)).
    specialize (Hn2 ltac:(lia)). lia.
Qed.

(** ISO dates of the four-digit years compare, character by character, as
    their days do. *)
Lemma compare_isoDay (d1 d2 : Z) :
  firstDay <= d1 <= lastDay -> firstDay <= d2 <= lastDay ->
  String.compare (isoDay d1) (isoDay d2) = (d1 ?= d2).
Proof.
  assert (Hlt : forall a b,
             firstDay <= a <= lastDay -> firstDay <= b <= lastDay ->
             a < b -> String.compare (isoDay a) (isoDay b) = Lt).
  { intros a b Ha Hb Hab.
    rewrite (isoDay_chars a Ha), (isoDay_chars b Hb).
    set (ta := a * Date.msPerDay). set (tb := b * Date.msPerDay).
    pose proof (day_fields_range a Ha) as Hya.
    pose proof (day_fields_range b Hb) as Hyb.
    fold ta in Hya. fold tb in Hyb.
    pose proof (MonthFromTime_range ta) as Hma.
    pose proof (MonthFromTime_range tb) as Hmb.
    pose proof (DateFromTime_range ta) as Hda.
    pose proof (DateFromTime_range tb) as Hdb.
    assert (Hday : Date.Day ta < Date.Day tb)
      by (unfold ta, tb; rewrite !Day_of_day; exact Hab).
    rewrite compare_of_chars_app by (rewrite !length_pad; reflexivity).
    rewrite compare_pad_small by (simpl; lia).
    rewrite compare_of_chars_cons.
    rewrite compare_of_chars_app by (rewrite !length_pad; reflexivity).
    rewrite compare_pad_small by (simpl; lia).
    rewrite compare_of_chars_cons.
    rewrite compare_pad_small by (simpl; lia).
    destruct (fields_order ta tb Hday) as [Hy | [Hy [Hm | [Hm Hd]]]].
    - apply Z.compare_lt_iff in Hy. rewrite Hy. reflexivity.
    - rewrite Hy, Z.compare_refl.
      assert (Hm' : Date.MonthFromTime ta + 1 < Date.MonthFromTime tb + 1)
        by lia.
      apply Z.compare_lt_iff in Hm'. rewrite Hm'. reflexivity.
    - rewrite Hy, Hm, !Z.compare_refl.
      apply Z.compare_lt_iff. exact Hd. }
  intros H1 H2.
  destruct (Z.compare_spec d1 d2) as [E | E | E].
  - subst. apply string_compare_refl.
  - apply Hlt; assumption.
  - rewrite String.compare_antisym, (Hlt d2 d1 H2 H1 E). reflexivity.
Qed.

End IsoOrder.

(* ================================================================== *)
(** ** What is saved is what is loaded *)

Lemma chars_app (a b : string) :
  Str.chars (a ++ b)%string = Str.chars a ++ Str.chars b.
Proof.
  unfold Str.chars. induction a as [| c a IH]; simpl; [reflexivity |].
  rewrite IH. reflexivity.
Qed.

(** *** String literals *)

Lemma escape_step (c : ascii) (f : nat) (acc tl : list ascii) :
  JSON.parse_string (S f) acc (JSON.escape_char c ++ tl)
  = JSON.parse_string f (c :: acc) tl.
Proof. destruct c as [[] [] [] [] [] [] [] []]; reflexivity. Qed.

Lemma escape_nonempty (c : ascii) : (1 <= List.length (JSON.escape_char c))%nat.
Proof. destruct c as [[] [] [] [] [] [] [] []]; simpl; lia. Qed.

Lemma length_escaped (cs : list ascii) :
  (List.length cs <= List.length (flat_map JSON.escape_char cs))%nat.
Proof.
  induction cs as [| c cs IH]; simpl; [lia |].
  rewrite length_app. pose proof (escape_nonempty c). lia.
Qed.

Lemma parse_string_escaped (cs : list ascii) :
  forall (f : nat) (acc rest : list ascii),
    (List.length cs < f)%nat ->
    JSON.parse_string f acc
      (flat_map JSON.escape_char cs ++ JSON.quote :: rest)
    = Some (Str.of_chars (rev acc ++ cs), rest).
Proof.
  induction cs as [| c cs IH]; intros f acc rest Hf.
  - destruct f as [| f]; [inversion Hf |].
    simpl. rewrite app_nil_r. reflexivity.
  - destruct f as [| f]; [inversion Hf |].
    simpl flat_map. rewrite <- app_assoc, escape_step.
    rewrite IH by (simpl in Hf; lia).
    simpl. rewrite <- app_assoc. reflexivity.
Qed.

Lemma chars_quote_string (s : string) :
  Str.chars (JSON.quote_string s)
  = JSON.quote :: flat_map JSON.escape_char (Str.chars s) ++ [JSON.quote].
Proof. unfold JSON.quote_string. apply chars_of_chars. Qed.

(** A quoted string, read back after its opening quote. *)
Lemma parse_quoted (s : string) (rest : list ascii) :
  exists r,
    Str.chars (JSON.quote_string s) ++ rest = JSON.quote :: r
    /\ JSON.parse_string (List.length r) [] r = Some (s, rest).
Proof.
  rewrite chars_quote_string. simpl. rewrite <- app_assoc. simpl.
  eexists. split; [reflexivity |].
  rewrite parse_string_escaped.
  - simpl. rewrite of_chars_chars. reflexivity.
  - rewrite length_app. simpl. pose proof (length_escaped (Str.chars s)). lia.
Qed.

(** *** Plain values *)

Lemma distinct_NoDup (l : list string) : distinct l = true <-> NoDup l.
Proof.
  induction l as [| k l IH]; simpl.
  - split; [constructor | reflexivity].
  - rewrite andb_true_iff, negb_true_iff, IH. split.
    + intros [Hk Hl]. constructor; [| exact Hl].
      intros Hin. apply not_true_iff_false in Hk. apply Hk.
      apply existsb_exists. exists k. split; [exact Hin | apply String.eqb_refl].
    + intros H. inversion H as [| ? ? Hnot Hnd]; subst. split; [| exact Hnd].
      apply not_true_iff_false. intros Hex.
      apply existsb_exists in Hex. destruct Hex as [x [Hin Hx]].
      apply String.eqb_eq in Hx. subst x. apply Hnot; exact Hin.
Qed.

Lemma plain_obj (o : obj) :
  plain (VObj o) = true
  <-> Forall (fun kv : string * value => plain (snd kv) = true) o
      /\ Forall (fun k => keyLike k = true) (Props.keys o)
      /\ NoDup (Props.keys o).
Proof.
  simpl. rewrite !andb_true_iff, !forallb_forall, !Forall_forall,
    distinct_NoDup.
  tauto.
Qed.

Lemma plain_arr (l : list value) :
  plain (VArr l) = true <-> Forall (fun x => plain x = true) l.
Proof. simpl. rewrite forallb_forall, Forall_forall. tauto. Qed.

Lemma plain_stringify (v : value) :
  plain v = true -> JSON.stringify v = Some (JSON.or_null (JSON.stringify v)).
Proof. destruct v; simpl; intros H; try discriminate H; reflexivity. Qed.

(** The members of a plain object are all printed. *)
Lemma members_text (o : obj) :
  Forall (fun kv : string * value => plain (snd kv) = true) o ->
  flat_map (fun kv : string * value =>
              match JSON.stringify (snd kv) with
              | Some t => [(JSON.quote_string (fst kv) ++ ":" ++ t)%string]
              | None => []
              end) o
  = map (fun kv : string * value =>
           (JSON.quote_string (fst kv) ++ ":"
            ++ JSON.or_null (JSON.stringify (snd kv)))%string) o.
Proof.
  induction 1 as [| kv o Hkv Ho IH]; [reflexivity |].
  cbn [flat_map map]. rewrite IH.
  destruct (JSON.stringify (snd kv)) as [t |] eqn:E; [reflexivity |].
  rewrite (plain_stringify _ Hkv) in E. discriminate E.
Qed.

(** The text of a plain value starts with a character that is not white
    space and closes nothing. *)
Lemma text_head (v : value) :
  plain v = true ->
  exists c r,
    Str.chars (JSON.or_null (JSON.stringify v)) = c :: r
    /\ JSON.is_ws c = false
    /\ Ascii.eqb c "]" = false /\ Ascii.eqb c "}" = false.
Proof.
  destruct v as [| | b | n | s | l | o]; intros H;
    try discriminate H; cbn [JSON.stringify JSON.or_null].
  - eexists _, _. split; [reflexivity |]. repeat split.
  - destruct b; eexists _, _; (split; [reflexivity |]); repeat split.
  - rewrite chars_quote_string.
    eexists _, _. split; [reflexivity |]. repeat split.
  - eexists _, _. split; [reflexivity |]. repeat split.
  - eexists _, _. split; [reflexivity |]. repeat split.
Qed.

Lemma skip_ws_head (c : ascii) (r : list ascii) :
  JSON.is_ws c = false -> JSON.skip_ws (c :: r) = c :: r.
Proof. intros H. simpl. rewrite H. reflexivity. Qed.

(** *** The parser, by the first character *)

Lemma parse_value_null (f : nat) (rest : list ascii) :
  JSON.parse_value (S f) (Str.chars "null" ++ rest) = Some (VNull, rest).
Proof. reflexivity. Qed.

Lemma parse_value_true (f : nat) (rest : list ascii) :
  JSON.parse_value (S f) (Str.chars "true" ++ rest) = Some (VBool true, rest).
Proof. reflexivity. Qed.

Lemma parse_value_false (f : nat) (rest : list ascii) :
  JSON.parse_value (S f) (Str.chars "false" ++ rest)
  = Some (VBool false, rest).
Proof. reflexivity. Qed.

Lemma parse_value_string (f : nat) (s : string) (rest : list ascii) :
  JSON.parse_value (S f) (Str.chars (JSON.quote_string s) ++ rest)
  = Some (VStr s, rest).
Proof.
  destruct (parse_quoted s rest) as (r & -> & Hr).
  change (JSON.parse_value (S f) (JSON.quote :: r))
    with (match JSON.parse_string (List.length r) [] r with
          | Some (s, r') => Some (VStr s, r')
          | None => None
          end).
  rewrite Hr. reflexivity.
Qed.

Lemma parse_value_array (f : nat) (r : list ascii) :
  JSON.parse_value (S f) ("["%char :: r)
  = match JSON.skip_ws r with
    | c' :: r' =>
        if Ascii.eqb c' "]" then Some (VArr [], r')
        else match JSON.parse_elements f [] r with
             | Some (vs, r'') => Some (VArr vs, r'')
             | None => None
             end
    | [] => None
    end.
Proof. reflexivity. Qed.

Lemma parse_value_object (f : nat) (r : list ascii) :
  JSON.parse_value (S f) ("{"%char :: r)
  = match JSON.skip_ws r with
    | c' :: r' =>
        if Ascii.eqb c' "}" then Some (VObj [], r')
        else match JSON.parse_members f [] r with
             | Some (o, r'') => Some (VObj o, r'')
             | None => None
             end
    | [] => None
    end.
Proof. reflexivity. Qed.

Lemma parse_elements_step (f : nat) (acc : list value) (l : list ascii) :
  JSON.parse_elements (S f) acc l
  = match JSON.parse_value f l with
    | Some (v, r) =>
        match JSON.skip_ws r with
        | c :: r' =>
            if Ascii.eqb c "," then JSON.parse_elements f (v :: acc) r'
            else if Ascii.eqb c "]" then Some (rev (v :: acc), r')
            else None
        | [] => None
        end
    | None => None
    end.
Proof. reflexivity. Qed.

Lemma parse_members_step (f : nat) (acc : obj) (r : list ascii) :
  JSON.parse_members (S f) acc (JSON.quote :: r)
  = match JSON.parse_string (List.length r) [] r with
    | Some (k, r1) =>
        match JSON.skip_ws r1 with
        | c :: r2 =>
            if Ascii.eqb c ":" then
              match JSON.parse_value f r2 with
              | Some (v, r3) =>
                  let acc' := Props.set k v acc in
                  match JSON.skip_ws r3 with
                  | c' :: r4 =>
                      if Ascii.eqb c' "," then JSON.parse_members f acc' r4
                      else if Ascii.eqb c' "}" then Some (acc', r4)
                      else None
                  | [] => None
                  end
              | None => None
              end
            else None
        | [] => None
        end
    | None => None
    end.
Proof. reflexivity. Qed.

(** *** The round trip, by the fuel *)

Section RoundTrip.

Variable fuel : nat.

Hypothesis parses :
  forall f, (f <= fuel)%nat ->
    forall (v : value) (rest : list ascii),
      plain v = true -> (size v <= f)%nat ->
      JSON.parse_value f (Str.chars (JSON.or_null (JSON.stringify v)) ++ rest)
      = Some (v, rest).

Lemma parse_elements_plain (l : list value) :
  forall (f : nat) (acc : list value) (rest : list ascii),
    l <> [] ->
    Forall (fun x => plain x = true) l ->
    (f <= S fuel)%nat ->
    (list_sum (map (fun x => S (size x)) l) <= f)%nat ->
    JSON.parse_elements f acc
      (Str.chars
         (String.concat ","
            (map (fun x => JSON.or_null (JSON.stringify x)) l))
       ++ "]"%char :: rest)
    = Some (rev acc ++ l, rest).
Proof.
  induction l as [| x l IH]; intros f acc rest Hne Hall Hf Hsize;
    [contradiction |].
  inversion Hall as [| ? ? Hx Hl]; subst.
  simpl in Hsize.
  destruct f as [| f]; [lia |].
  rewrite parse_elements_step.
  destruct l as [| y l].
  - simpl String.concat.
    rewrite parses by (assumption || lia).
    reflexivity.
  - change (String.concat ","
              (map (fun x => JSON.or_null (JSON.stringify x)) (x :: y :: l)))
      with (JSON.or_null (JSON.stringify x) ++ ","
            ++ String.concat ","
                 (map (fun x => JSON.or_null (JSON.stringify x)) (y :: l)))%string.
    rewrite !chars_app, <- !app_assoc.
    rewrite parses by (assumption || lia).
    change (Str.chars "," ++ ?t) with (","%char :: t).
    simpl JSON.skip_ws. cbn iota. simpl Ascii.eqb. cbn iota.
    rewrite IH; [| discriminate | exact Hl | lia | simpl in *; lia].
    simpl. rewrite <- app_assoc. reflexivity.
Qed.

Lemma parse_members_plain (o : obj) :
  forall (f : nat) (acc : obj) (rest : list ascii),
    o <> [] ->
    Forall (fun kv : string * value => plain (snd kv) = true) o ->
    (f <= S fuel)%nat ->
    (list_sum (map (fun kv : string * value => S (size (snd kv))) o) <= f)%nat ->
    JSON.parse_members f acc
      (Str.chars
         (String.concat ","
            (map (fun kv : string * value =>
                    (JSON.quote_string (fst kv) ++ ":"
                     ++ JSON.or_null (JSON.stringify (snd kv)))%string) o))
       ++ "}"%char :: rest)
    = Some (Props.assign acc o, rest).
Proof.
  induction o as [| [k v] o IH]; intros f acc rest Hne Hall Hf Hsize;
    [contradiction |].
  inversion Hall as [| ? ? Hv Ho]; subst. simpl in Hv.
  simpl in Hsize.
  destruct f as [| f]; [lia |].
  destruct o as [| kv' o].
  - change (String.concat ","
              (map (fun kv : string * value =>
                      (JSON.quote_string (fst kv) ++ ":"
                       ++ JSON.or_null (JSON.stringify (snd kv)))%string)
                   [(k, v)]))
      with (JSON.quote_string k ++ ":"
            ++ JSON.or_null (JSON.stringify v))%string.
    rewrite !chars_app, <- !app_assoc.
    match goal with
    | |- JSON.parse_members _ _ (Str.chars (JSON.quote_string k) ++ ?t) = _ =>
        destruct (parse_quoted k t) as (r & -> & Hr)
    end.
    rewrite parse_members_step, Hr.
    change (Str.chars ":" ++ ?t) with (":"%char :: t).
    simpl JSON.skip_ws. cbn iota. simpl Ascii.eqb. cbn iota.
    rewrite parses by (assumption || lia).
    reflexivity.
  - change (String.concat ","
              (map (fun kv : string * value =>
                      (JSON.quote_string (fst kv) ++ ":"
                       ++ JSON.or_null (JSON.stringify (snd kv)))%string)
                   ((k, v) :: kv' :: o)))
      with ((JSON.quote_string k ++ ":"
             ++ JSON.or_null (JSON.stringify v)) ++ ","
            ++ String.concat ","
                 (map (fun kv : string * value =>
                         (JSON.quote_string (fst kv) ++ ":"
                          ++ JSON.or_null (JSON.stringify (snd kv)))%string)
                      (kv' :: o)))%string.
    rewrite !chars_app, <- !app_assoc.
    match goal with
    | |- JSON.parse_members _ _ (Str.chars (JSON.quote_string k) ++ ?t) = _ =>
        destruct (parse_quoted k t) as (r & -> & Hr)
    end.
    rewrite parse_members_step, Hr.
    change (Str.chars ":" ++ ?t) with (":"%char :: t).
    simpl JSON.skip_ws. cbn iota. simpl Ascii.eqb. cbn iota.
    rewrite parses by (assumption || lia).
    change (Str.chars "," ++ ?t) with (","%char :: t).
    simpl JSON.skip_ws. cbn iota. simpl Ascii.eqb. cbn iota. cbv zeta.
    rewrite IH; [| discriminate | exact Ho | lia | simpl in *; lia].
    reflexivity.
Qed.

End RoundTrip.

Lemma concat_head (sep s : string) (l : list string) :
  String.concat sep (s :: l)
  = (s ++ match l with
          | [] => ""
          | _ :: _ => sep ++ String.concat sep l
          end)%string.
Proof.
  destruct l; simpl; [| reflexivity].
  induction s as [| c s IH]; simpl; [reflexivity | rewrite <- IH; reflexivity].
Qed.

(** With keys that are distinct, new and not array indices, copying the
    properties appends them. *)
Lemma assign_keyLike (o : obj) :
  forall acc : obj,
    Forall (fun k => keyLike k = true) (Props.keys o) ->
    NoDup (Props.keys o) ->
    (forall k, In k (Props.keys o) -> Props.lookup k acc = None) ->
    Props.assign acc o = acc ++ o.
Proof.
  induction o as [| [k v] o IH]; intros acc Hkeys Hnd Hnew.
  - simpl. rewrite app_nil_r. reflexivity.
  - inversion Hkeys as [| ? ? Hk Hkeys']; subst.
    inversion Hnd as [| ? ? Hnot Hnd']; subst.
    change (Props.assign acc ((k, v) :: o))
      with (Props.assign (Props.set k v acc) o).
    assert (Eset : Props.set k v acc = acc ++ [(k, v)]).
    { unfold Props.set. rewrite (Hnew k (or_introl eq_refl)).
      unfold keyLike in Hk.
      destruct (Props.array_index k); [discriminate Hk | reflexivity]. }
    rewrite Eset, IH; [rewrite <- app_assoc; reflexivity | exact Hkeys'
                      | exact Hnd' |].
    intros k' Hin.
    rewrite (lookup_app_None k' acc _ (Hnew k' (or_intror Hin))). simpl.
    destruct (String.eqb_spec k' k) as [-> | _]; [| reflexivity].
    exfalso. apply Hnot. exact Hin.
Qed.

Lemma spread_plain (o : obj) :
  plain (VObj o) = true -> JS.spread [] (VObj o) = o.
Proof.
  intros H. apply plain_obj in H. destruct H as (_ & Hk & Hnd).
  unfold JS.spread. simpl JS.own_props.
  apply (assign_keyLike o [] Hk Hnd). reflexivity.
Qed.

(** The parser reads back the text of a plain value, and stops where the
    text stops. *)
Lemma parse_value_plain (f : nat) :
  forall (v : value) (rest : list ascii),
    plain v = true -> (size v <= f)%nat ->
    JSON.parse_value f (Str.chars (JSON.or_null (JSON.stringify v)) ++ rest)
    = Some (v, rest).
Proof.
  induction f as [f IH] using lt_wf_ind. intros v rest Hp Hs.
  destruct f as [| f]; [destruct v; simpl in Hs; lia |].
  assert (parses : forall f', (f' <= f)%nat ->
            forall v rest, plain v = true -> (size v <= f')%nat ->
              JSON.parse_value f'
                (Str.chars (JSON.or_null (JSON.stringify v)) ++ rest)
              = Some (v, rest)).
  { intros f' Hf'. apply IH. lia. }
  destruct v as [| | b | n | s | l | o]; try discriminate Hp;
    cbn [JSON.stringify JSON.or_null].
  - apply parse_value_null.
  - destruct b; [apply parse_value_true | apply parse_value_false].
  - apply parse_value_string.
  - apply plain_arr in Hp. simpl in Hs.
    rewrite !chars_app, <- !app_assoc.
    change (Str.chars "[" ++ ?t) with ("["%char :: t).
    change (Str.chars "]" ++ ?t) with ("]"%char :: t).
    rewrite parse_value_array.
    destruct l as [| x l]; [reflexivity |].
    rewrite (parse_elements_plain f parses (x :: l) f [] rest);
      [| discriminate | exact Hp | lia | simpl in *; lia].
    inversion Hp as [| ? ? Hx _]; subst.
    destruct (text_head x Hx) as (c & r & Ec & Hws & Hclose & _).
    cbn [map]. rewrite concat_head, chars_app, Ec.
    rewrite <- app_comm_cons, <- app_comm_cons.
    rewrite skip_ws_head by exact Hws. rewrite Hclose. reflexivity.
  - pose proof Hp as Hp'. apply plain_obj in Hp. simpl in Hs.
    destruct Hp as (Hvals & Hkeys & Hnd).
    rewrite (members_text o Hvals).
    rewrite !chars_app, <- !app_assoc.
    change (Str.chars "{" ++ ?t) with ("{"%char :: t).
    change (Str.chars "}" ++ ?t) with ("}"%char :: t).
    rewrite parse_value_object.
    destruct o as [| kv o]; [reflexivity |].
    rewrite (parse_members_plain f parses (kv :: o) f [] rest);
      [| discriminate | exact Hvals | lia | simpl in *; lia].
    rewrite (assign_keyLike (kv :: o) [] Hkeys Hnd) by reflexivity.
    cbn [map]. rewrite concat_head, !chars_app, chars_quote_string.
    rewrite <- !app_comm_cons.
    rewrite skip_ws_head by reflexivity.
    reflexivity.
Qed.

(** *** The text is longer than the value is big *)

Lemma value_induction (P : value -> Prop) :
  P VUndef -> P VNull -> (forall b, P (VBool b)) -> (forall n, P (VNum n)) ->
  (forall s, P (VStr s)) ->
  (forall l, Forall P l -> P (VArr l)) ->
  (forall o, Forall (fun kv : string * value => P (snd kv)) o -> P (VObj o)) ->
  forall v, P v.
Proof.
  intros H1 H2 H3 H4 H5 Harr Hobj.
  fix IH 1. intros [| | b | n | s | l | o].
  - exact H1.
  - exact H2.
  - apply H3.
  - apply H4.
  - apply H5.
  - apply Harr. induction l as [| x l IHl]; constructor; [apply IH | exact IHl].
  - apply Hobj. induction o as [| [k x] o IHo]; constructor;
      [apply IH | exact IHo].
Qed.

Lemma length_chars_app (a b : string) :
  List.length (Str.chars (a ++ b)%string)
  = (List.length (Str.chars a) + List.length (Str.chars b))%nat.
Proof. rewrite chars_app. apply length_app. Qed.

Lemma length_concat_texts {A : Type} (g : A -> string) (n : A -> nat)
      (l : list A) :
  Forall (fun x => (n x <= List.length (Str.chars (g x)))%nat) l ->
  (list_sum (map n l)
   <= List.length (Str.chars (String.concat "," (map g l))))%nat.
Proof.
  induction 1 as [| x l Hx Hl IH]; [simpl; lia |].
  cbn [map]. rewrite concat_head, length_chars_app. simpl list_sum.
  destruct l as [| y l]; [simpl in *; lia |].
  cbn [map] in *. cbv iota. rewrite length_chars_app. simpl list_sum in *.
  lia.
Qed.

Lemma size_text (v : value) :
  plain v = true ->
  (S (size v) <= List.length (Str.chars (JSON.or_null (JSON.stringify v))))%nat.
Proof.
  induction v as [| | b | n | s | l IHl | o IHo] using value_induction;
    intros Hp; try discriminate Hp; cbn [JSON.stringify JSON.or_null].
  - simpl. lia.
  - destruct b; simpl; lia.
  - rewrite chars_quote_string. simpl. rewrite length_app. simpl. lia.
  - apply plain_arr in Hp.
    rewrite !length_chars_app. simpl size.
    assert (H : (list_sum (map (fun x => S (size x)) l)
                 <= List.length
                      (Str.chars
                         (String.concat ","
                            (map (fun x => JSON.or_null (JSON.stringify x))
                                 l))))%nat).
    { apply length_concat_texts.
      rewrite Forall_forall in *. intros x Hx. apply IHl; auto. }
    simpl. lia.
  - pose proof Hp as Hp'. apply plain_obj in Hp.
    destruct Hp as (Hvals & _ & _).
    rewrite (members_text o Hvals).
    rewrite !length_chars_app. simpl size.
    assert (H : (list_sum (map (fun kv : string * value => S (size (snd kv))) o)
                 <= List.length
                      (Str.chars
                         (String.concat ","
                            (map (fun kv : string * value =>
                                    (JSON.quote_string (fst kv) ++ ":"
                                     ++ JSON.or_null
                                          (JSON.stringify (snd kv)))%string)
                                 o))))%nat).
    { apply length_concat_texts.
      rewrite Forall_forall in *. intros kv Hkv.
      rewrite !length_chars_app.
      pose proof (IHo kv Hkv (Hvals kv Hkv)). lia. }
    change (List.length (Str.chars "{")) with 1%nat.
    change (List.length (Str.chars "}")) with 1%nat.
    lia.
Qed.

(** [JSON.parse(JSON.stringify(v))] is [v], for a plain [v]. *)
Lemma parse_stringify_plain (v : value) :
  plain v = true ->
  exists text, JSON.stringify v = Some text /\ JSON.parse text = Ok v.
Proof.
  intros Hp. exists (JSON.or_null (JSON.stringify v)).
  split; [apply plain_stringify; exact Hp |].
  unfold JSON.parse.
  pose proof (size_text v Hp) as Hs.
  pose proof (parse_value_plain
                (2 * List.length
                       (Str.chars (JSON.or_null (JSON.stringify v))) + 2)
                v [] Hp ltac:(lia)) as H.
  rewrite app_nil_r in H. rewrite H. reflexivity.
Qed.

(** *** Saving and loading the entries *)

Lemma save_load (o : obj) (ls : Storage.t) :
  plain (VObj o) = true ->
  App.loadEntries (App.saveEntries (VObj o) ls) = Ok (VObj o).
Proof.
  intros Hp.
  destruct (parse_stringify_plain (VObj o) Hp) as (text & Hs & Hparse).
  pose proof (saved_text (VObj o) ls text Hs) as Hget.
  unfold Storage.getItem in Hget.
  rewrite loadEntries_cases.
  destruct (Props.lookup App.STORAGE_KEY (App.saveEntries (VObj o) ls))
    as [raw |]; [| discriminate Hget].
  injection Hget as ->.
  assert (Hne : String.eqb text "" = false).
  { cbn [JSON.stringify] in Hs. injection Hs as <-. reflexivity. }
  rewrite Hne, Hparse. reflexivity.
Qed.

Lemma save_other_keys (v : value) (ls : Storage.t) (k : string) :
  k <> App.STORAGE_KEY ->
  Props.lookup k (App.saveEntries v ls) = Props.lookup k ls.
Proof.
  intros Hk. unfold App.saveEntries, Storage.setItem.
  apply lookup_set_other. exact Hk.
Qed.

(** *** The handlers of the form keep the store plain *)

Lemma lookup_In {A : Type} (k : string) (v : A) (o : Props.props A) :
  Props.lookup k o = Some v -> In (k, v) o.
Proof.
  induction o as [| [k' v'] o IH]; simpl; intros H; [discriminate H |].
  destruct (String.eqb_spec k k') as [-> | _].
  - injection H as ->. left; reflexivity.
  - right. apply IH; exact H.
Qed.

Lemma In_replace {A : Type} (k : string) (v : A) (o : Props.props A)
      (kv : string * A) :
  In kv (Props.replace k v o) -> kv = (k, v) \/ In kv o.
Proof.
  induction o as [| [k' v'] o IH]; simpl; intros H; [contradiction |].
  destruct (String.eqb k k'); simpl in H.
  - destruct H as [<- | H]; [left; reflexivity | right; right; exact H].
  - destruct H as [<- | H]; [right; left; reflexivity |].
    destruct (IH H) as [E | Hin]; [left; exact E | right; right; exact Hin].
Qed.

Lemma In_insert_index {A : Type} (i : N) (k : string) (v : A)
      (o : Props.props A) (kv : string * A) :
  In kv (Props.insert_index i k v o) -> kv = (k, v) \/ In kv o.
Proof.
  induction o as [| [k' v'] o IH]; simpl; intros H.
  - destruct H as [<- | []]. left; reflexivity.
  - destruct (Props.array_index k') as [j |].
    + destruct (j <? i)%N; simpl in H.
      * destruct H as [<- | H]; [right; left; reflexivity |].
        destruct (IH H) as [E | Hin];
          [left; exact E | right; right; exact Hin].
      * destruct H as [<- | H]; [left; reflexivity | right; exact H].
    + destruct H as [<- | H]; [left; reflexivity | right; exact H].
Qed.

Lemma In_set {A : Type} (k : string) (v : A) (o : Props.props A)
      (kv : string * A) :
  In kv (Props.set k v o) -> kv = (k, v) \/ In kv o.
Proof.
  unfold Props.set.
  destruct (Props.lookup k o); [apply In_replace |].
  destruct (Props.array_index k); [apply In_insert_index |].
  intros H. apply in_app_or in H.
  destruct H as [H | [<- | []]]; [right; exact H | left; reflexivity].
Qed.

Lemma plain_set (k : string) (v : value) (o : obj) :
  plain (VObj o) = true -> plain v = true -> keyLike k = true ->
  plain (VObj (Props.set k v o)) = true.
Proof.
  intros Ho Hv Hk. apply plain_obj in Ho. destruct Ho as (Hvals & Hkeys & Hnd).
  apply plain_obj. split; [| split].
  - apply Forall_forall. intros kv Hin.
    destruct (In_set k v o kv Hin) as [-> | Hin']; [exact Hv |].
    rewrite Forall_forall in Hvals. apply Hvals; exact Hin'.
  - apply Forall_forall. intros k' Hin.
    unfold Props.keys in Hin. apply in_map_iff in Hin.
    destruct Hin as [kv [<- Hin]].
    destruct (In_set k v o kv Hin) as [-> | Hin']; [exact Hk |].
    rewrite Forall_forall in Hkeys. apply Hkeys.
    unfold Props.keys. apply in_map; exact Hin'.
  - apply NoDup_keys_set; exact Hnd.
Qed.

Lemma plain_delete (k : string) (o : obj) :
  plain (VObj o) = true -> plain (VObj (Props.delete k o)) = true.
Proof.
  intros Ho. apply plain_obj in Ho. destruct Ho as (Hvals & Hkeys & Hnd).
  apply plain_obj. rewrite delete_filter. split; [| split].
  - apply Forall_forall. intros kv Hin. apply filter_In in Hin.
    rewrite Forall_forall in Hvals. apply Hvals, Hin.
  - apply Forall_forall. intros k' Hin.
    unfold Props.keys in Hin. apply in_map_iff in Hin.
    destruct Hin as [kv [<- Hin]]. apply filter_In in Hin.
    rewrite Forall_forall in Hkeys. apply Hkeys.
    unfold Props.keys. apply in_map, Hin.
  - rewrite <- delete_filter. apply NoDup_keys_delete; exact Hnd.
Qed.

Lemma plain_lookup (k : string) (v : value) (o : obj) :
  plain (VObj o) = true -> Props.lookup k o = Some v -> plain v = true.
Proof.
  intros Ho Hk. apply plain_obj in Ho. destruct Ho as (Hvals & _).
  rewrite Forall_forall in Hvals.
  apply (Hvals (k, v)). apply lookup_In; exact Hk.
Qed.

Lemma plain_fresh (todayStr d : string) : plain (freshEntry todayStr d) = true.
Proof. reflexivity. Qed.

Lemma plain_shown (todayStr : string) (o : obj) (d : string) :
  plain (VObj o) = true -> plain (shown todayStr o d) = true.
Proof.
  intros Ho. unfold shown.
  destruct (Props.lookup d o) as [e |] eqn:E; [| apply plain_fresh].
  destruct (JS.truthy e); [| apply plain_fresh].
  eapply plain_lookup; [exact Ho | exact E].
Qed.

(** The store after an update by a patch of one plain field. *)
Lemma plain_updated (todayStr : string) (o : obj) (d k : string) (v : value) :
  wfStore o -> plain (VObj o) = true -> keyLike d = true ->
  plain v = true -> keyLike k = true ->
  plain (VObj (updated todayStr o d (VObj [(k, v)]))) = true.
Proof.
  intros Hwf Ho Hd Hv Hk. unfold updated.
  rewrite (spread_plain o Ho).
  apply plain_set; [exact Ho | | exact Hd].
  pose proof (plain_shown todayStr o d Ho) as Hs.
  destruct (wfEntry_shown todayStr o d Hwf) as (eo & ? & ? & E & _).
  rewrite E in *. rewrite spread_patch, (spread_plain eo Hs).
  apply plain_set; assumption.
Qed.

Section FormHandlers.

Variable tz : Date.zone.
Variable localeCompare : string -> string -> Z.
Variable Math_sin Math_cos : Num.num -> Num.num.
Variable todayStr : string.

Lemma step_plain (a : Ui.Action) (st st' : App.State) :
  wfState st -> plain (App.entries st) = true ->
  keyLike (App.date st) = true ->
  formAction a = true ->
  Ui.step tz localeCompare Math_sin Math_cos todayStr a st = Ok st' ->
  plain (App.entries st') = true
  /\ keyLike (App.date st') = true
  /\ (persisted st -> persisted st').
Proof.
  intros [o [Ho Hwf]] Hp Hd Ha H.
  pose proof (state_eta st o Ho) as Est.
  rewrite Ho in Hp.
  destruct a as [d | t | f text | s v | m v | now | clock random |];
    simpl in H; try discriminate Ha.
  - injection H as <-. simpl. rewrite Ho. repeat split; auto.
  - injection H as <-. simpl. rewrite Ho. repeat split; auto.
  - rewrite Est, updateEntry_updated in H. injection H as <-.
    assert (Hp' : plain (VObj (updated todayStr o (App.date st)
                                 (VObj [(Ui.textKey f, VStr text)]))) = true).
    { apply plain_updated;
        [exact Hwf | exact Hp | exact Hd | reflexivity
        | destruct f; reflexivity]. }
    split; [exact Hp' |]. split; [exact Hd |].
    intros _. unfold persisted. cbn [App.storage App.entries].
    apply save_load; exact Hp'.
  - rewrite Est, updateEntry_updated in H. injection H as <-.
    assert (Hp' : plain (VObj (updated todayStr o (App.date st)
                                 (VObj [(Ui.symptomKey s, VBool v)]))) = true).
    { apply plain_updated;
        [exact Hwf | exact Hp | exact Hd | reflexivity
        | destruct s; reflexivity]. }
    split; [exact Hp' |]. split; [exact Hd |].
    intros _. unfold persisted. cbn [App.storage App.entries].
    apply save_load; exact Hp'.
  - unfold App.toggleMed in H. rewrite Est, entry_shown in H. cbn [bind] in H.
    pose proof (wfEntry_shown todayStr o (App.date st) Hwf) as Hshown.
    pose proof (plain_shown todayStr o (App.date st) Hp) as Hps.
    destruct Hshown as (eo & notes & meds & Ee & _ & _ & _ & Hmeds & Hwm).
    rewrite Ee in H, Hps. cbn [JS.get] in H. rewrite Hmeds in H.
    cbn [bind] in H.
    pose proof (plain_lookup _ _ _ Hps Hmeds) as Hpm.
    destruct Hwm as (mo & am & pm & -> & _ & Ham & [a [-> _]]
                     & Hpm' & [p [-> _]]).
    assert (Hpart : exists po,
               Props.lookup (Ui.medPart m) mo = Some (VObj po)
               /\ plain (VObj po) = true).
    { destruct m; simpl;
        [exists a | exists a | exists a | exists p];
        (split; [assumption |]);
        first [exact (plain_lookup _ _ _ Hpm Ham)
              | exact (plain_lookup _ _ _ Hpm Hpm')]. }
    destruct Hpart as (po & Hpo & Hppo).
    cbn [JS.get] in H. rewrite Hpo in H. cbn [bind] in H.
    rewrite updateEntry_updated in H. injection H as <-.
    match goal with
    | |- plain (App.entries {| App.entries := VObj (updated _ _ _ ?patch) |})
         = true /\ _ =>
        assert (Hp' : plain (VObj (updated todayStr o (App.date st) patch))
                      = true)
    end.
    { apply plain_updated;
        [exact Hwf | exact Hp | exact Hd | | reflexivity].
      rewrite (spread_plain mo Hpm), (spread_plain po Hppo).
      apply plain_set; [exact Hpm | | destruct m; reflexivity].
      apply plain_set; [exact Hppo | reflexivity | destruct m; reflexivity]. }
    split; [exact Hp' |]. split; [exact Hd |].
    intros _. unfold persisted. cbn [App.storage App.entries].
    apply save_load; exact Hp'.
  - destruct (App.exportCSV _ _ _ _) as [dl | err]; simpl in H;
      [| discriminate H].
    injection H as <-. rewrite Ho. repeat split; auto.
  - unfold App.resetToday in H. injection H as <-.
    cbn [App.entries App.date App.storage App.with_entries].
    rewrite Ho, (spread_plain o Hp).
    pose proof (plain_delete (App.date st) o Hp) as Hp'.
    split; [exact Hp' |]. split; [exact Hd |].
    intros _. unfold persisted. cbn [App.storage App.entries].
    apply save_load; exact Hp'.
Qed.

End FormHandlers.

(* ================================================================== *)
(** ** One field at a time *)

Section Edits.

Variable todayStr : string.

(** The entry that the form shows after an edit of one field. *)
Lemma edit_entry (o : obj) (d tb : string) (ls : Storage.t) (eo : obj)
      (k : string) (v : value) :
  shown todayStr o d = VObj eo -> NoDup (Props.keys eo) ->
  exists st1 o1 e1,
    App.updateEntry todayStr (VObj [(k, v)]) (stateOf o d tb ls) = Ok st1
    /\ st1 = stateOf o1 d tb (App.saveEntries (VObj o1) ls)
    /\ o1 = updated todayStr o d (VObj [(k, v)])
    /\ shown todayStr o1 d = VObj e1
    /\ NoDup (Props.keys e1)
    /\ (forall x, Props.lookup x e1
                  = if String.eqb x k then Some v else Props.lookup x eo).
Proof.
  intros Hshown Hnd.
  exists (stateOf (updated todayStr o d (VObj [(k, v)])) d tb
            (App.saveEntries (VObj (updated todayStr o d (VObj [(k, v)]))) ls)),
         (updated todayStr o d (VObj [(k, v)])),
         (Props.set k v (JS.spread [] (VObj eo))).
  split; [apply updateEntry_updated |].
  split; [reflexivity |]. split; [reflexivity |].
  split.
  { unfold shown at 1. rewrite lookup_updated_same, Hshown, spread_patch.
    reflexivity. }
  split; [apply NoDup_keys_set, NoDup_keys_spread |].
  intros x. destruct (String.eqb_spec x k) as [-> | Hne].
  - apply lookup_set_same.
  - rewrite lookup_set_other by exact Hne.
    apply lookup_spread_obj; exact Hnd.
Qed.

Lemma field_obj (o : obj) (k : string) :
  field (VObj o) k
  = match Props.lookup k o with Some x => x | None => VUndef end.
Proof. reflexivity. Qed.

End Edits.

(* ================================================================== *)
(** ** The demo data in the views *)

Lemma StronglySorted_map {A B : Type} (R : B -> B -> Prop) (f : A -> B)
      (l : list A) :
  StronglySorted (fun a b => R (f a) (f b)) l -> StronglySorted R (map f l).
Proof.
  induction 1 as [| a l Hs IH Ha]; simpl; constructor; [exact IH |].
  apply Forall_map. exact Ha.
Qed.

Lemma StronglySorted_map_seq {B : Type} (R : B -> B -> Prop) (f : nat -> B)
      (n : nat) :
  forall a,
    (forall i j, (a <= i)%nat -> (i < j)%nat -> (j < a + n)%nat ->
                 R (f i) (f j)) ->
    StronglySorted R (map f (seq a n)).
Proof.
  induction n as [| n IH]; intros a H; simpl; constructor.
  - apply IH. intros i j Hi Hij Hj. apply H; lia.
  - apply Forall_map, Forall_forall. intros j Hj.
    apply in_seq in Hj. apply H; lia.
Qed.

Lemma wfStore_dates (o : obj) :
  wfStore o -> map date_of (Props.values o) = Props.keys o.
Proof.
  intros [Hnd Hwf]. unfold Props.values, Props.keys. rewrite map_map.
  apply map_ext_in. intros [k e] Hin. simpl.
  apply (wfEntry_dated k e). apply Hwf. apply In_lookup; assumption.
Qed.

(** The twenty-eight days up to [D], oldest first, are in ascending order
    as strings. *)
Lemma daysUpTo_sorted (D : Z) :
  (firstDay + 27 <= D <= lastDay)%Z ->
  StronglySorted (fun a b => String.leb a b = true) (daysUpTo 28 D).
Proof.
  intros HD. unfold daysUpTo.
  apply StronglySorted_map_seq. intros i j Hi Hij Hj.
  unfold String.leb. rewrite compare_isoDay by lia.
  replace (D - (Z.of_nat 28 - 1) + Z.of_nat i
           ?= D - (Z.of_nat 28 - 1) + Z.of_nat j)%Z with Lt; [reflexivity |].
  symmetry. apply Z.compare_lt_iff. lia.
Qed.

Lemma In_daysUpTo (D : Z) (s : string) :
  (firstDay + 27 <= D <= lastDay)%Z -> In s (daysUpTo 28 D) ->
  iso_date s = true.
Proof.
  intros HD Hin. unfold daysUpTo in Hin. apply in_map_iff in Hin.
  destruct Hin as [j [<- Hj]]. apply in_seq in Hj.
  apply iso_date_isoDay. lia.
Qed.

Section DemoViews.

Variable tz : Date.zone.
Variable localeCompare : string -> string -> Z.
Variable Math_sin Math_cos : Num.num -> Num.num.
Variable todayStr : string.

Lemma demo_store (clock : nat -> Z) (random : nat -> Num.num) (D : Z) :
  civil_zone tz -> reads_on_day tz clock 28 D ->
  (firstDay + 27 <= D <= lastDay)%Z ->
  exists map,
    App.demoLoop tz Math_sin Math_cos todayStr 28 clock random 28 0 []
    = Ok map
    /\ wfStore map
    /\ Permutation (Props.keys map) (daysUpTo 28 D)
    /\ Forall (fun e => iso_dated e = true) (Props.values map).
Proof.
  intros Hcivil Hclock HD.
  destruct (demoLoop_keys tz Math_sin Math_cos todayStr clock random D
              Hcivil Hclock HD 28 0 [] eq_refl (fun _ _ => eq_refl))
    as (map & Hloop & Hperm & _).
  exists map. split; [exact Hloop |].
  assert (Hwf : wfStore map)
    by (eapply demoLoop_wf; [apply wfStore_nil | exact Hloop]).
  split; [exact Hwf |]. split; [exact Hperm |].
  apply Forall_forall. intros e Hin.
  unfold Props.values in Hin. apply in_map_iff in Hin.
  destruct Hin as [[k e'] [E Hin]]. simpl in E. subst e'.
  pose proof (proj2 Hwf k e (In_lookup k e map (proj1 Hwf) Hin)) as He.
  destruct He as (eo & ? & ? & -> & _ & Hdate & _).
  unfold iso_dated. simpl. rewrite Hdate.
  apply (In_daysUpTo D k HD).
  eapply Permutation_in; [exact Hperm |].
  change k with (fst (k, VObj eo)). apply in_map. exact Hin.
Qed.

Lemma demo_views (D : Z) (map : obj) :
  orders_iso_dates localeCompare ->
  (firstDay + 27 <= D <= lastDay)%Z ->
  wfStore map ->
  Permutation (Props.keys map) (daysUpTo 28 D) ->
  Forall (fun e => iso_dated e = true) (Props.values map) ->
  exists asc,
    List.map date_of asc = daysUpTo 28 D
    /\ Permutation (Props.values map) asc
    /\ App.daysData localeCompare (VObj map) = Ok (List.map chartPoint asc)
    /\ Ui.historyRows localeCompare (VObj map)
       = Ok (List.map rowOf (rev asc))
    /\ App.csvRows localeCompare (VObj map)
       = Ok (App.csvHeader :: List.map csvFields asc).
Proof.
  intros Hlc HD Hwf Hperm Hiso.
  pose proof (wfStore_dates map Hwf) as Hdates.
  assert (Hnd : NoDup (List.map date_of (Props.values map)))
    by (rewrite Hdates; apply Hwf).
  destruct (charts_history_reverse localeCompare map Hlc Hiso Hnd)
    as (asc & Hpa & Hsa & Hsort & Hdays & Hrows).
  exists asc.
  split.
  { apply (sorted_unique_by (fun s : string => s)).
    - rewrite map_id. eapply Permutation_NoDup; [| exact Hnd].
      apply Permutation_map; exact Hpa.
    - eapply perm_trans;
        [apply Permutation_map, Permutation_sym; exact Hpa |].
      rewrite Hdates. exact Hperm.
    - apply StronglySorted_map. exact Hsa.
    - apply daysUpTo_sorted; exact HD. }
  split; [exact Hpa |]. split; [exact Hdays |]. split; [exact Hrows |].
  apply csvRows_printable; [exact Hsort |].
  eapply Permutation_Forall; [exact Hpa |].
  apply wfStore_printable; exact Hwf.
Qed.

End DemoViews.

(* ================================================================== *)
(** ** The storage beside the entries *)

Section OtherKeys.

Variable tz : Date.zone.
Variable localeCompare : string -> string -> Z.
Variable Math_sin Math_cos : Num.num -> Num.num.
Variable todayStr : string.

Lemma updateEntry_other_keys (patch : value) (st st' : App.State)
      (k : string) :
  App.updateEntry todayStr patch st = Ok st' -> k <> App.STORAGE_KEY ->
  Props.lookup k (App.storage st') = Props.lookup k (App.storage st).
Proof.
  unfold App.updateEntry. intros H Hk.
  destruct (App.entry todayStr st) as [e | err]; simpl in H;
    [| discriminate H].
  injection H as <-. simpl. apply save_other_keys; exact Hk.
Qed.

Lemma step_other_keys (a : Ui.Action) (st st' : App.State) (k : string) :
  Ui.step tz localeCompare Math_sin Math_cos todayStr a st = Ok st' ->
  k <> App.STORAGE_KEY ->
  Props.lookup k (App.storage st') = Props.lookup k (App.storage st).
Proof.
  intros H Hk.
  destruct a as [d | t | f text | s v | m v | now | clock random |];
    simpl in H.
  - injection H as <-. reflexivity.
  - injection H as <-. reflexivity.
  - eapply updateEntry_other_keys; eassumption.
  - eapply updateEntry_other_keys; eassumption.
  - unfold App.toggleMed in H.
    destruct (App.entry todayStr st) as [e | err]; simpl in H;
      [| discriminate H].
    destruct (JS.get e "meds") as [meds | err]; simpl in H;
      [| discriminate H].
    destruct (JS.get meds (Ui.medPart m)) as [p | err]; simpl in H;
      [| discriminate H].
    eapply updateEntry_other_keys; eassumption.
  - destruct (App.exportCSV _ _ _ _) as [dl | err]; simpl in H;
      [| discriminate H].
    injection H as <-. reflexivity.
  - unfold App.fillDemo in H.
    destruct (App.demoLoop _ _ _ _ _ _ _ _ _ _) as [store | err];
      simpl in H; [| discriminate H].
    injection H as <-. simpl. apply save_other_keys; exact Hk.
  - unfold App.resetToday in H. injection H as <-. simpl.
    apply save_other_keys; exact Hk.
Qed.

End OtherKeys.

(* ================================================================== *)
(** ** Typed stores and the handlers *)

Lemma typedStore_wf (o : obj) : typedStore o -> wfStore o.
Proof.
  intros [Hnd H]. split; [exact Hnd |].
  intros k e Hk. apply (H k e Hk).
Qed.

Lemma typedState_wf (st : App.State) : typedState st -> wfState st.
Proof.
  intros (o & Ho & H). exists o. split; [exact Ho | apply typedStore_wf, H].
Qed.

Lemma typedStore_fields (o : obj) :
  typedStore o <->
  wfStore o /\ forall k e, Props.lookup k o = Some e -> typedFields e.
Proof.
  split.
  - intros H. split; [apply typedStore_wf; exact H |].
    intros k e Hk. apply (proj2 H k e Hk).
  - intros [[Hnd Hwf] Hf]. split; [exact Hnd |].
    intros k e Hk. split; [apply Hwf; exact Hk | eapply Hf; exact Hk].
Qed.

Lemma readings_set (k : string) (v : value) (eo : obj) :
  readings eo -> (k <> "meds" -> primitive v = true) ->
  readings (Props.set k v eo).
Proof.
  intros H Hv x v' Hx Hne.
  destruct (string_dec x k) as [-> | Hxk].
  - rewrite lookup_set_same in Hx. injection Hx as <-. apply Hv; exact Hne.
  - rewrite lookup_set_other in Hx by exact Hxk. eapply H; eassumption.
Qed.

Lemma readings_spread (eo : obj) :
  NoDup (Props.keys eo) -> readings eo -> readings (JS.spread [] (VObj eo)).
Proof.
  intros Hnd H x v Hx Hne. rewrite lookup_spread_obj in Hx by exact Hnd.
  eapply H; eassumption.
Qed.

Lemma flagsPart_set (name : string) (v : value) (po : obj) :
  NoDup (Props.keys po) -> flagsPart (VObj po) -> primitive v = true ->
  flagsPart (VObj (Props.set name v (JS.spread [] (VObj po)))).
Proof.
  intros Hnd (po' & E & H) Hv. injection E as <-.
  eexists. split; [reflexivity |].
  intros x v' Hx. destruct (string_dec x name) as [-> | Hne].
  - rewrite lookup_set_same in Hx. injection Hx as <-. exact Hv.
  - rewrite lookup_set_other in Hx by exact Hne.
    rewrite lookup_spread_obj in Hx by exact Hnd. eapply H; exact Hx.
Qed.

Lemma typedFields_fresh (todayStr d : string) :
  typedFields (freshEntry todayStr d).
Proof.
  unfold typedFields, freshEntry.
  eexists _, _, _, _. split; [vm_compute; reflexivity |].
  split; [unfold readings; solve_lookups |].
  split; [reflexivity |]. split; [reflexivity |].
  split; [eexists; split; [reflexivity | solve_lookups] |].
  split; [reflexivity |].
  eexists; split; [reflexivity | solve_lookups].
Qed.

Lemma typedFields_shown (todayStr : string) (o : obj) (d : string) :
  typedStore o -> typedFields (shown todayStr o d).
Proof.
  intros [_ H]. unfold shown.
  destruct (Props.lookup d o) as [e |] eqn:E; [| apply typedFields_fresh].
  destruct (JS.truthy e); [apply (H d e E) | apply typedFields_fresh].
Qed.

(** A patch of one primitive field that is not the medication record. *)
Lemma typedFields_patch (d : string) (e : value) (k : string) (v : value) :
  wfEntry d e -> typedFields e -> k <> "meds" -> primitive v = true ->
  typedFields (VObj (JS.spread (JS.spread [] e) (VObj [(k, v)]))).
Proof.
  intros (eo' & ? & ? & E' & Hnd & _)
         (eo & mo & am & pm & -> & Hr & Hm & Ham & Hfa & Hpm & Hfp) Hk Hv.
  injection E' as <-.
  rewrite spread_patch.
  eexists _, mo, am, pm. split; [reflexivity |].
  split; [apply readings_set; [apply readings_spread; assumption |];
          intros _; exact Hv |].
  split; [rewrite lookup_set_other by congruence;
          rewrite lookup_spread_obj by exact Hnd; exact Hm |].
  repeat split; assumption.
Qed.

(** The patch of a medication toggle. *)
Lemma typedFields_toggle (d : string) (e : value) (part name : string)
      (v : bool) :
  wfEntry d e -> typedFields e -> part = "am" \/ part = "pm" ->
  exists meds p,
    JS.get e "meds" = Ok meds /\ JS.get meds part = Ok p
    /\ typedFields
         (VObj (JS.spread (JS.spread [] e)
                  (VObj [("meds",
                          VObj (Props.set part
                                  (VObj (Props.set name (VBool v)
                                           (JS.spread [] p)))
                                  (JS.spread [] meds)))]))).
Proof.
  intros (eo' & notes & meds' & E' & Hnd & _ & _ & Hmeds' & Hwm)
         (eo & mo & am & pm & -> & Hr & Hm & Ham & Hfa & Hpm & Hfp) Hpart.
  injection E' as <-. rewrite Hm in Hmeds'. injection Hmeds' as <-.
  destruct Hwm as (mo' & am' & pm' & Emo & Hndm & Ham' & [a [Ea Hnda]]
                   & Hpm' & [p [Ep Hndp]]).
  injection Emo as <-. rewrite Ham in Ham'. injection Ham' as <-.
  rewrite Hpm in Hpm'. injection Hpm' as <-. subst am pm.
  exists (VObj mo).
  destruct Hpart as [-> | ->].
  - exists (VObj a). split; [simpl; rewrite Hm; reflexivity |].
    split; [simpl; rewrite Ham; reflexivity |].
    rewrite spread_patch.
    eexists _, _, _, (VObj p). split; [reflexivity |].
    split; [apply readings_set; [apply readings_spread; assumption |];
            intros Hc; contradiction Hc; reflexivity |].
    split; [apply lookup_set_same |].
    split; [apply lookup_set_same |].
    split; [apply flagsPart_set; [exact Hnda | exact Hfa | reflexivity] |].
    split; [rewrite lookup_set_other by discriminate;
            rewrite lookup_spread_obj by exact Hndm; exact Hpm |].
    exact Hfp.
  - exists (VObj p). split; [simpl; rewrite Hm; reflexivity |].
    split; [simpl; rewrite Hpm; reflexivity |].
    rewrite spread_patch.
    eexists _, _, (VObj a), _. split; [reflexivity |].
    split; [apply readings_set; [apply readings_spread; assumption |];
            intros Hc; contradiction Hc; reflexivity |].
    split; [apply lookup_set_same |].
    split; [rewrite lookup_set_other by discriminate;
            rewrite lookup_spread_obj by exact Hndm; exact Ham |].
    split; [exact Hfa |].
    split; [apply lookup_set_same |].
    apply flagsPart_set; [exact Hndp | exact Hfp | reflexivity].
Qed.

Section TypedHandlers.

Variable tz : Date.zone.
Variable localeCompare : string -> string -> Z.
Variable Math_sin Math_cos : Num.num -> Num.num.
Variable todayStr : string.

Lemma demoEntry_typed (i now : Z) (r0 r1 r2 r3 r4 r5 : Num.num)
      (map map' : obj) :
  (forall k e, Props.lookup k map = Some e -> typedFields e) ->
  App.demoEntry tz Math_sin Math_cos todayStr i now r0 r1 r2 r3 r4 r5 map
  = Ok map' ->
  forall k e, Props.lookup k map' = Some e -> typedFields e.
Proof.
  intros Hf. unfold App.demoEntry.
  destruct (App.fmtDate tz _) as [ds | err]; simpl; [| discriminate].
  intros H. injection H as <-. intros k e Hk.
  destruct (string_dec k ds) as [-> | Hne];
    [| rewrite lookup_set_other in Hk by exact Hne; eapply Hf; exact Hk].
  rewrite lookup_set_same in Hk. injection Hk as <-.
  eexists _, _, _, _. split; [reflexivity |].
  split.
  { apply readings_set; [| intros Hc; contradiction Hc; reflexivity].
    do 7 (apply readings_set; [| intros _; reflexivity]).
    unfold readings. solve_lookups. }
  split; [apply lookup_set_same |].
  split; [reflexivity |].
  split; [eexists; split; [reflexivity | solve_lookups] |].
  split; [reflexivity |].
  eexists; split; [reflexivity | solve_lookups].
Qed.

Lemma demoLoop_typed (days : Z) (clock : nat -> Z) (random : nat -> Num.num)
      (n : nat) :
  forall (k : nat) (map map' : obj),
    (forall x e, Props.lookup x map = Some e -> typedFields e) ->
    App.demoLoop tz Math_sin Math_cos todayStr days clock random n k map
    = Ok map' ->
    forall x e, Props.lookup x map' = Some e -> typedFields e.
Proof.
  induction n as [| n IH]; simpl; intros k map map' Hf H.
  - injection H as <-. exact Hf.
  - destruct (App.demoEntry _ _ _ _ _ _ _ _ _ _ _ _ _) as [m1 | err] eqn:E;
      simpl in H; [| discriminate H].
    eapply IH; [| exact H]. eapply demoEntry_typed; [exact Hf | exact E].
Qed.

Lemma step_typed (a : Ui.Action) (st st' : App.State) :
  typedState st ->
  Ui.step tz localeCompare Math_sin Math_cos todayStr a st = Ok st' ->
  typedState st'.
Proof.
  intros Ht H.
  pose proof (step_wf tz localeCompare Math_sin Math_cos todayStr a st st'
                (typedState_wf st Ht) H) as (o' & Ho' & Hwf').
  exists o'. split; [exact Ho' |].
  apply typedStore_fields. split; [exact Hwf' |].
  destruct Ht as (o & Ho & Hto).
  pose proof (typedStore_wf o Hto) as Hwf.
  pose proof (proj2 (proj1 (typedStore_fields o) Hto)) as Hf.
  pose proof (state_eta st o Ho) as Est.
  pose proof (wfEntry_shown todayStr o (App.date st) Hwf) as Hshown.
  pose proof (typedFields_shown todayStr o (App.date st) Hto) as Htf.
  assert (Hupd : forall patch,
             typedFields
               (VObj (JS.spread (JS.spread [] (shown todayStr o (App.date st)))
                        patch)) ->
             forall k e,
               Props.lookup k (updated todayStr o (App.date st) patch)
               = Some e -> typedFields e).
  { intros patch Hp k e Hk.
    destruct (string_dec k (App.date st)) as [-> | Hne].
    - rewrite lookup_updated_same in Hk. injection Hk as <-. exact Hp.
    - rewrite lookup_updated_other in Hk by (apply Hwf || exact Hne).
      eapply Hf; exact Hk. }
  destruct a as [d | t | f text | s v | m v | now | clock random |];
    simpl in H.
  - injection H as <-. simpl in Ho'. rewrite Ho in Ho'. injection Ho' as <-.
    exact Hf.
  - injection H as <-. simpl in Ho'. rewrite Ho in Ho'. injection Ho' as <-.
    exact Hf.
  - rewrite Est, updateEntry_updated in H. injection H as <-.
    simpl in Ho'. injection Ho' as <-.
    apply Hupd. eapply typedFields_patch;
      [exact Hshown | exact Htf | destruct f; discriminate | reflexivity].
  - rewrite Est, updateEntry_updated in H. injection H as <-.
    simpl in Ho'. injection Ho' as <-.
    apply Hupd. eapply typedFields_patch;
      [exact Hshown | exact Htf | destruct s; discriminate | reflexivity].
  - unfold App.toggleMed in H. rewrite Est, entry_shown in H. cbn [bind] in H.
    destruct (typedFields_toggle _ _ (Ui.medPart m) (Ui.medName m) v
                Hshown Htf) as (meds & p & Hm & Hp & Htyped).
    { destruct m; [left | left | left | right]; reflexivity. }
    rewrite Hm in H. cbn [bind] in H. rewrite Hp in H. cbn [bind] in H.
    rewrite updateEntry_updated in H. injection H as <-.
    simpl in Ho'. injection Ho' as <-.
    apply Hupd. exact Htyped.
  - destruct (App.exportCSV _ _ _ _) as [dl | err]; simpl in H;
      [| discriminate H].
    injection H as <-. rewrite Ho in Ho'. injection Ho' as <-. exact Hf.
  - unfold App.fillDemo in H.
    destruct (App.demoLoop _ _ _ _ _ _ _ _ _ _) as [map | err] eqn:E;
      simpl in H; [| discriminate H].
    injection H as <-. simpl in Ho'. injection Ho' as <-.
    eapply demoLoop_typed; [| exact E].
    intros x e Hx. discriminate Hx.
  - unfold App.resetToday in H. injection H as <-.
    simpl in Ho'. rewrite Ho in Ho'. injection Ho' as <-.
    intros k e Hk.
    destruct (string_dec k (App.date st)) as [-> | Hne].
    + rewrite lookup_delete_same in Hk. discriminate Hk.
    + rewrite lookup_delete_other in Hk by exact Hne.
      rewrite lookup_spread_obj in Hk by apply Hwf.
      eapply Hf; exact Hk.
Qed.

End TypedHandlers.

Lemma typedStore_nil : typedStore [].
Proof. split; [constructor | intros k e H; discriminate H]. Qed.

Section HandlerWrites.

Variable tz : Date.zone.
Variable localeCompare : string -> string -> Z.
Variable Math_sin Math_cos : Num.num -> Num.num.
Variable todayStr : string.

(** What a handler that returns has written: the handlers that write save
    the entries they set, and keep the date and the tab; the others leave
    the entries and the storage alone. *)
Lemma step_writes (a : Ui.Action) (st st' : App.State) :
  Ui.step tz localeCompare Math_sin Math_cos todayStr a st = Ok st' ->
  (writes a = true ->
   App.storage st' = App.saveEntries (App.entries st') (App.storage st)
   /\ App.date st' = App.date st /\ App.tab st' = App.tab st)
  /\ (writes a = false ->
      App.entries st' = App.entries st /\ App.storage st' = App.storage st).
Proof.
  assert (Hupd : forall patch st1,
             App.updateEntry todayStr patch st = Ok st1 ->
             App.storage st1
             = App.saveEntries (App.entries st1) (App.storage st)
             /\ App.date st1 = App.date st /\ App.tab st1 = App.tab st).
  { intros patch st1 H. unfold App.updateEntry in H.
    destruct (App.entry todayStr st) as [e | err]; simpl in H;
      [| discriminate H].
    injection H as <-. repeat split. }
  destruct a as [d | t | f text | s v | m v | now | clock random |];
    simpl; intros H.
  - injection H as <-. split; [discriminate | intros _; split; reflexivity].
  - injection H as <-. split; [discriminate | intros _; split; reflexivity].
  - split; [intros _; eapply Hupd; exact H | discriminate].
  - split; [intros _; eapply Hupd; exact H | discriminate].
  - split; [intros _ | discriminate].
    unfold App.toggleMed in H.
    destruct (App.entry todayStr st) as [e | err]; simpl in H;
      [| discriminate H].
    destruct (JS.get e "meds") as [meds | err]; simpl in H;
      [| discriminate H].
    destruct (JS.get meds (Ui.medPart m)) as [p | err]; simpl in H;
      [| discriminate H].
    eapply Hupd; exact H.
  - destruct (App.exportCSV _ _ _ _) as [dl | err]; simpl in H;
      [| discriminate H].
    injection H as <-. split; [discriminate | intros _; split; reflexivity].
  - split; [intros _ | discriminate].
    unfold App.fillDemo in H.
    destruct (App.demoLoop _ _ _ _ _ _ _ _ _ _) as [map | err]; simpl in H;
      [| discriminate H].
    injection H as <-. repeat split.
  - split; [intros _ | discriminate].
    unfold App.resetToday in H. injection H as <-. repeat split.
Qed.

End HandlerWrites.

(* ================================================================== *)
(** ** The views of a well-formed store, field by field *)

Lemma medFlag_field (d : string) (e : value) (m : Ui.Med) :
  wfEntry d e ->
  Ui.medFlag e m
  = Ok (field (field (field e "meds") (Ui.medPart m)) (Ui.medName m)).
Proof.
  intros (eo & notes & meds & -> & _ & _ & _ & Hmeds
          & (mo & am & pm & -> & _ & Ham & [a [-> _]] & Hpm & [p [-> _]])).
  unfold Ui.medFlag, field. simpl. rewrite Hmeds. simpl.
  destruct m; simpl; rewrite ?Ham, ?Hpm; reflexivity.
Qed.

Lemma form_formOf (d date : string) (e : value) :
  wfEntry d e -> Ui.form date e (alertsOf e) = Ok (formOf date e).
Proof.
  intros Hwf. unfold Ui.form.
  rewrite !(get_field e) by (eapply wfEntry_not_nullish; exact Hwf).
  cbn [bind].
  rewrite (medFlag_field d e Ui.AmMultaq Hwf),
          (medFlag_field d e Ui.AmEdoxaban Hwf),
          (medFlag_field d e Ui.AmBisoprolol Hwf),
          (medFlag_field d e Ui.PmMultaq Hwf).
  reflexivity.
Qed.

Lemma detail_detailOf (e : value) :
  JS.nullish e = false -> Ui.detail e = Ok (detailOf e).
Proof.
  intros He. unfold Ui.detail.
  rewrite !(get_field e) by exact He. reflexivity.
Qed.

Lemma alerts_alertsOf (e : value) :
  JS.nullish e = false -> Ui.alerts e = Ok (alertsOf e).
Proof. apply alerts_eq. Qed.

Section Views.

Variable localeCompare : string -> string -> Z.
Variable todayStr : string.

(** One rendering, on a store of well-formed entries with ISO dates. *)
Lemma render_viewOf (st : App.State) (o : obj) :
  App.entries st = VObj o -> wfStore o ->
  orders_iso_dates localeCompare ->
  Forall (fun e => iso_dated e = true) (Props.values o) ->
  exists ascending,
    Permutation (Props.values o) ascending
    /\ StronglySorted date_le ascending
    /\ Ui.render localeCompare todayStr st
       = Ok (viewOf (App.tab st) (App.date st)
                    (shown todayStr o (App.date st)) (List.length o)
                    ascending).
Proof.
  intros Ho Hwf Hlc Hiso.
  pose proof (state_eta st o Ho) as Est.
  pose proof (wfEntry_shown todayStr o (App.date st) Hwf) as Hshown.
  pose proof (wfEntry_not_nullish _ _ Hshown) as Hnn.
  assert (Hnd : NoDup (map date_of (Props.values o)))
    by (rewrite (wfStore_dates o Hwf); apply Hwf).
  destruct (charts_history_reverse localeCompare o Hlc Hiso Hnd)
    as (asc & Hperm & Hsorted & _ & Hdays & Hrows).
  exists asc. split; [exact Hperm |]. split; [exact Hsorted |].
  unfold Ui.render, viewOf.
  rewrite Est at 1. rewrite entry_shown. cbn [bind].
  rewrite Ho, Hdays. cbn [bind].
  rewrite (alerts_alertsOf _ Hnn). cbn [bind].
  rewrite (form_formOf _ _ _ Hshown), (detail_detailOf _ Hnn), Hrows.
  cbn [bind JS.Object_keys JS.nullish JS.own_props].
  rewrite length_keys.
  destruct (String.eqb (App.tab st) "오늘 체크"); [reflexivity |].
  destruct (String.eqb (App.tab st) "기록 보기"); [reflexivity |].
  destruct (String.eqb (App.tab st) "그래프"); [reflexivity |].
  destruct (String.eqb (App.tab st) "교육"); reflexivity.
Qed.

End Views.

(* ================================================================== *)
(** ** The demo data across midnight *)

(** C8 (the demo data, run across local midnight).  [fillDemo] reads the
    clock anew in every turn of its loop ([new Date()], line 230) and counts
    the days back from that reading.  In Korea, with the first fourteen
    readings at 2025-11-03 23:59:59.999 and the last fourteen at 2025-11-04
    00:00:00.000, the run returns, replaces the store and saves it, and the
    store has twenty-eight distinct keys: but these are the fourteen days up
    to 2025-10-20 and the fourteen days up to 2025-11-04.  The day
    2025-10-21 is skipped, and the keys are neither the twenty-eight days
    that end on 2025-11-04 nor those that end on 2025-11-03. *)
Theorem fillDemo_over_midnight :
  App.fmtDate Example.kst (Date.of_value (clockOverMidnight 0))
  = Ok "2025-11-03"
  /\ App.fmtDate Example.kst (Date.of_value (clockOverMidnight 27))
     = Ok "2025-11-04"
  /\ exists map : obj,
      App.fillDemo Example.kst (fun x => x) (fun x => x) Example.today
        clockOverMidnight (fun _ => Num.zero)
        (Example.state Example.store1 "2025-11-01")
      = Ok (stateOf map "2025-11-01" "오늘 체크"
              (App.saveEntries (VObj map) []))
      /\ Props.keys map
         = [ "2025-10-07"; "2025-10-08"; "2025-10-09"; "2025-10-10";
             "2025-10-11"; "2025-10-12"; "2025-10-13"; "2025-10-14";
             "2025-10-15"; "2025-10-16"; "2025-10-17"; "2025-10-18";
             "2025-10-19"; "2025-10-20";
             "2025-10-22"; "2025-10-23"; "2025-10-24"; "2025-10-25";
             "2025-10-26"; "2025-10-27"; "2025-10-28"; "2025-10-29";
             "2025-10-30"; "2025-10-31"; "2025-11-01"; "2025-11-02";
             "2025-11-03"; "2025-11-04" ]
      /\ Props.keys map = daysUpTo 14 20381 ++ daysUpTo 14 20396
      /\ List.length (Props.keys map) = 28%nat
      /\ NoDup (Props.keys map)
      /\ ~ In "2025-10-21" (Props.keys map)
      /\ In "2025-10-21" (daysUpTo 28 20396)
      /\ ~ Permutation (Props.keys map) (daysUpTo 28 20396)
      /\ ~ Permutation (Props.keys map) (daysUpTo 28 20395).
Proof.
  split; [vm_compute; reflexivity |].
  split; [vm_compute; reflexivity |].
  exists (match
             App.fillDemo Example.kst (fun x => x) (fun x => x) Example.today
               clockOverMidnight (fun _ => Num.zero)
               (Example.state Example.store1 "2025-11-01")
           with
           | Ok st => match App.entries st with VObj m => m | _ => [] end
           | Throw _ => []
           end).
  split; [vm_compute; reflexivity |].
  assert (Hkeys : forall m : obj,
             Props.keys m
             = [ "2025-10-07"; "2025-10-08"; "2025-10-09"; "2025-10-10";
                 "2025-10-11"; "2025-10-12"; "2025-10-13"; "2025-10-14";
                 "2025-10-15"; "2025-10-16"; "2025-10-17"; "2025-10-18";
                 "2025-10-19"; "2025-10-20";
                 "2025-10-22"; "2025-10-23"; "2025-10-24"; "2025-10-25";
                 "2025-10-26"; "2025-10-27"; "2025-10-28"; "2025-10-29";
                 "2025-10-30"; "2025-10-31"; "2025-11-01"; "2025-11-02";
                 "2025-11-03"; "2025-11-04" ] ->
             Props.keys m = daysUpTo 14 20381 ++ daysUpTo 14 20396
             /\ List.length (Props.keys m) = 28%nat
             /\ NoDup (Props.keys m)
             /\ ~ In "2025-10-21" (Props.keys m)
             /\ In "2025-10-21" (daysUpTo 28 20396)
             /\ ~ Permutation (Props.keys m) (daysUpTo 28 20396)
             /\ ~ Permutation (Props.keys m) (daysUpTo 28 20395)).
  { intros m ->.
    assert (Hout : ~ In "2025-10-21"
                     [ "2025-10-07"; "2025-10-08"; "2025-10-09"; "2025-10-10";
                       "2025-10-11"; "2025-10-12"; "2025-10-13"; "2025-10-14";
                       "2025-10-15"; "2025-10-16"; "2025-10-17"; "2025-10-18";
                       "2025-10-19"; "2025-10-20";
                       "2025-10-22"; "2025-10-23"; "2025-10-24"; "2025-10-25";
                       "2025-10-26"; "2025-10-27"; "2025-10-28"; "2025-10-29";
                       "2025-10-30"; "2025-10-31"; "2025-11-01"; "2025-11-02";
                       "2025-11-03"; "2025-11-04" ])
      by (simpl; intuition discriminate).
    assert (Hin : In "2025-10-21" (daysUpTo 28 20396))
      by (vm_compute; do 13 right; left; reflexivity).
    split; [vm_compute; reflexivity |].
    split; [reflexivity |].
    split; [apply distinct_NoDup; reflexivity |].
    split; [exact Hout |].
    split; [exact Hin |].
    split.
    - intros Hp. apply Hout.
      apply (Permutation_in _ (Permutation_sym Hp) Hin).
    - intros Hp.
      assert (H4 : In "2025-11-04" (daysUpTo 28 20395)).
      { apply (Permutation_in _ Hp). do 27 right. left. reflexivity. }
      vm_compute in H4. intuition discriminate. }
  split; [vm_compute; reflexivity |].
  apply Hkeys. vm_compute. reflexivity.
Qed.

(* ================================================================== *)
(** ** The effect, the views and the handlers *)

Lemma wfStore_store3 : wfStore Example.store3.
Proof.
  split; [distinct_keys |].
  intros k e H. unfold Example.store3 in H. simpl in H.
  repeat match type of H with
         | (if String.eqb ?a ?b then _ else _) = _ =>
             destruct (String.eqb_spec a b) as [-> | _];
             [injection H as <-; solve_wfEntry |]
         end.
  discriminate H.
Qed.

Lemma wfState_store3 (d : string) : wfState (Example.state Example.store3 d).
Proof. exists Example.store3. split; [reflexivity | exact wfStore_store3]. Qed.

Lemma typedStore_store3 : typedStore Example.store3.
Proof.
  apply typedStore_fields. split; [exact wfStore_store3 |].
  intros k e H. unfold Example.store3 in H. simpl in H.
  repeat match type of H with
         | (if String.eqb ?a ?b then _ else _) = _ =>
             destruct (String.eqb_spec a b) as [-> | _];
             [injection H as <-; solve_typedFields |]
         end.
  discriminate H.
Qed.

Lemma typedState_store3 (d : string) :
  typedState (Example.state Example.store3 d).
Proof.
  exists Example.store3. split; [reflexivity | exact typedStore_store3].
Qed.

Lemma ensureToday_effect :
  forall (todayStr : string) (o : obj) (d tb : string) (ls : Storage.t),
    NoDup (Props.keys o) ->
    let st := stateOf o d tb ls in
    exists st' o',
      App.ensureToday todayStr st = Ok st'
      /\ App.entries st' = VObj o'
      /\ NoDup (Props.keys o')
      /\ Props.lookup todayStr o' = Some (shown todayStr o todayStr)
      /\ (forall k, k <> todayStr -> Props.lookup k o' = Props.lookup k o)
      /\ App.date st' = d /\ App.tab st' = tb
      /\ (JS.truthy (field (VObj o) todayStr) = true -> st' = st)
      /\ (JS.truthy (field (VObj o) todayStr) = false ->
          App.storage st' = App.saveEntries (VObj o') ls)
      /\ (JS.truthy (field (VObj o) todayStr) = false ->
          o' = Props.set todayStr (freshEntry todayStr todayStr)
                 (JS.spread [] (VObj o)))
      /\ App.ensureToday todayStr st' = Ok st'.
Proof.
  intros todayStr o d tb ls Hnd st.
  unfold App.ensureToday, st. simpl.
  unfold field, shown. simpl.
  destruct (Props.lookup todayStr o) as [e |] eqn:E.
  - destruct (JS.truthy e) eqn:Et; simpl.
    + exists (stateOf o d tb ls), o. simpl. rewrite E, Et. simpl.
      repeat split; try reflexivity; try exact Hnd; discriminate.
    + eexists _, _. split; [reflexivity |]. simpl.
      split; [reflexivity |].
      split; [apply NoDup_keys_set, NoDup_keys_spread |].
      split; [apply lookup_set_same |].
      split; [intros k Hk; rewrite lookup_set_other by exact Hk;
              apply (lookup_spread_obj k o Hnd) |].
      split; [reflexivity |]. split; [reflexivity |].
      split; [discriminate |].
      split; [reflexivity |].
      split; [reflexivity |].
      rewrite lookup_set_same. reflexivity.
  - simpl.
    eexists _, _. split; [reflexivity |]. simpl.
    split; [reflexivity |].
    split; [apply NoDup_keys_set, NoDup_keys_spread |].
    split; [apply lookup_set_same |].
    split; [intros k Hk; rewrite lookup_set_other by exact Hk;
            apply (lookup_spread_obj k o Hnd) |].
    split; [reflexivity |]. split; [reflexivity |].
    split; [discriminate |].
    split; [reflexivity |].
    split; [reflexivity |].
    rewrite lookup_set_same. reflexivity.
Qed.


(** X1 (the effect that runs once after the first rendering,
    [useEffect(..., [])]): when the store has distinct keys, the effect
    returns; afterwards the store holds under today's date the entry that the
    form showed for today (the stored one, or a fresh one when there was none
    or a falsy one), every other date holds what it held, and the selected
    date and tab are as before.  When today's entry was there the state,
    storage included, is untouched; when it was not, the new store is the
    old one with today's fresh entry set, and it is saved.  Running the
    effect again changes nothing. *)
Theorem ensureToday_adds_missing_day :
  forall (todayStr : string) (o : obj) (d tb : string) (ls : Storage.t),
    NoDup (Props.keys o) ->
    let st := stateOf o d tb ls in
    exists st' o',
      App.ensureToday todayStr st = Ok st'
      /\ App.entries st' = VObj o'
      /\ NoDup (Props.keys o')
      /\ Props.lookup todayStr o' = Some (shown todayStr o todayStr)
      /\ (forall k, k <> todayStr -> Props.lookup k o' = Props.lookup k o)
      /\ App.date st' = d /\ App.tab st' = tb
      /\ (JS.truthy (field (VObj o) todayStr) = true -> st' = st)
      /\ (JS.truthy (field (VObj o) todayStr) = false ->
          App.storage st' = App.saveEntries (VObj o') ls)
      /\ (JS.truthy (field (VObj o) todayStr) = false ->
          o' = Props.set todayStr (freshEntry todayStr todayStr)
                 (JS.spread [] (VObj o)))
      /\ App.ensureToday todayStr st' = Ok st'.
Proof. exact ensureToday_effect. Qed.

Lemma ensureToday_adds_missing_day_witness :
  NoDup (Props.keys Example.store3)
  /\ exists st' o',
      App.ensureToday Example.today (Example.state Example.store3 "2025-11-01")
      = Ok st'
      /\ App.entries st' = VObj o'
      /\ Props.lookup Example.today o'
         = Some (freshEntry Example.today Example.today)
      /\ Props.lookup "2025-11-02" o'
         = Props.lookup "2025-11-02" Example.store3.
Proof.
  assert (Hnd : NoDup (Props.keys Example.store3)) by distinct_keys.
  split; [exact Hnd |].
  destruct (ensureToday_adds_missing_day Example.today Example.store3
              "2025-11-01" "오늘 체크" [] Hnd)
    as (st' & o' & H1 & H2 & _ & H3 & H4 & _).
  exists st', o'.
  split; [exact H1 |]. split; [exact H2 |]. split; [exact H3 |].
  apply H4. discriminate.
Defined.

(** X2 ([resetToday], then [entry], the alert boxes and the form): after a
    reset the entry of the selected date is the fresh default one, whatever
    the store held; no alert box is shown for it, and the form shows empty
    texts, fatigue "0" and every box unticked. *)
Theorem resetToday_blank_form :
  forall (todayStr : string) (o : obj) (d tb : string) (ls : Storage.t),
    exists st',
      App.resetToday (stateOf o d tb ls) = Ok st'
      /\ App.entry todayStr st' = Ok (freshEntry todayStr d)
      /\ App.dangerFlags (freshEntry todayStr d) = Ok []
      /\ App.warnFlags (freshEntry todayStr d) = Ok []
      /\ Ui.alerts (freshEntry todayStr d) = Ok []
      /\ Ui.form d (freshEntry todayStr d) [] = Ok (blankForm d).
Proof.
  intros todayStr o d tb ls.
  eexists. split; [reflexivity |].
  split.
  - unfold App.entry, App.entry_of. simpl.
    rewrite lookup_delete_same. reflexivity.
  - repeat split; reflexivity.
Qed.

(** X3 (the count of recorded days, [Object.keys(entries).length], after
    [updateEntry] and after [resetToday]): on a store with distinct keys, an
    update of a date that has a record leaves the count as it is, an update
    of a date without one raises it by one; a reset of a date that has a
    record lowers it by one, a reset of a date without one leaves it. *)
Theorem record_count :
  forall (todayStr : string) (o : obj) (d tb : string) (ls : Storage.t)
         (patch : value),
    NoDup (Props.keys o) ->
    let st := stateOf o d tb ls in
    let recorded :=
      match Props.lookup d o with Some _ => true | None => false end in
    (exists st1 ks1,
        App.updateEntry todayStr patch st = Ok st1
        /\ JS.Object_keys (App.entries st1) = Ok ks1
        /\ List.length ks1
           = if recorded then List.length o else S (List.length o))
    /\ (exists st2 ks2,
          App.resetToday st = Ok st2
          /\ JS.Object_keys (App.entries st2) = Ok ks2
          /\ List.length ks2
             = if recorded then pred (List.length o) else List.length o).
Proof.
  intros todayStr o d tb ls patch Hnd st recorded. split.
  - eexists _, _. split; [apply updateEntry_updated |].
    split; [reflexivity |].
    simpl. rewrite length_keys. unfold updated. rewrite length_set.
    rewrite (lookup_spread_obj d o Hnd), (length_spread_obj o Hnd).
    unfold recorded. destruct (Props.lookup d o); reflexivity.
  - eexists _, _. split; [reflexivity |].
    split; [reflexivity |].
    simpl. rewrite length_keys.
    rewrite length_delete by apply NoDup_keys_spread.
    rewrite (lookup_spread_obj d o Hnd), (length_spread_obj o Hnd).
    unfold recorded. destruct (Props.lookup d o); reflexivity.
Qed.

Lemma record_count_witness :
  NoDup (Props.keys Example.store3)
  /\ (exists st1 ks1,
        App.updateEntry Example.today (VObj [("pulse", VStr "72")])
          (Example.state Example.store3 Example.today) = Ok st1
        /\ JS.Object_keys (App.entries st1) = Ok ks1
        /\ List.length ks1 = 4)
  /\ (exists st2 ks2,
        App.resetToday (Example.state Example.store3 "2025-11-01") = Ok st2
        /\ JS.Object_keys (App.entries st2) = Ok ks2
        /\ List.length ks2 = 2).
Proof.
  assert (Hnd : NoDup (Props.keys Example.store3)) by distinct_keys.
  split; [exact Hnd |]. split.
  - exact (proj1 (record_count Example.today Example.store3 Example.today
                    "오늘 체크" [] (VObj [("pulse", VStr "72")]) Hnd)).
  - exact (proj2 (record_count Example.today Example.store3 "2025-11-01"
                    "오늘 체크" [] VUndef Hnd)).
Defined.

(** X4 ([warnFlags] and the two alert boxes of the check-in tab): for an
    entry that is not [undefined] or [null], the warning flags are dizziness,
    edema and severe fatigue, in that order, each present exactly when its
    field says so; fatigue is flagged only for the string "2".  At most one
    box is shown: the danger box with the danger flags when there is one,
    otherwise the warning box with the warning flags when there is one. *)
Theorem alerts_one_box :
  forall e : value,
    JS.nullish e = false ->
    exists danger warn,
      App.dangerFlags e = Ok danger
      /\ App.warnFlags e = Ok warn
      /\ warn = flagIf (JS.truthy (field e "dizziness")) App.dizzinessFlag
                ++ flagIf (JS.truthy (field e "edema")) App.edemaFlag
                ++ flagIf (App.is_string (field e "fatigue") "2")
                          App.fatigueFlag
      /\ (In App.fatigueFlag warn <-> field e "fatigue" = VStr "2")
      /\ Ui.alerts e
         = Ok (match danger, warn with
               | _ :: _, _ => [dangerBox danger]
               | [], _ :: _ => [warnBox warn]
               | [], [] => []
               end).
Proof.
  intros e He. exists (dangerList e), (warnList e).
  split; [apply dangerFlags_list; exact He |].
  split; [apply warnFlags_eq; exact He |].
  split; [reflexivity |].
  split; [| apply alerts_eq; exact He].
  unfold warnList.
  rewrite In_fatigueFlag. apply is_string_eq.
Qed.

Lemma alerts_one_box_witness :
  JS.nullish Example.alarming = false
  /\ exists danger warn,
      App.dangerFlags Example.alarming = Ok danger
      /\ App.warnFlags Example.alarming = Ok warn
      /\ Ui.alerts Example.alarming
         = Ok (match danger, warn with
               | _ :: _, _ => [dangerBox danger]
               | [], _ :: _ => [warnBox warn]
               | [], [] => []
               end).
Proof.
  split; [reflexivity |].
  destruct (alerts_one_box Example.alarming eq_refl)
    as (danger & warn & H1 & H2 & _ & _ & H3).
  exists danger, warn. split; [exact H1 |]. split; [exact H2 | exact H3].
Defined.

Lemma labelCell_dash_symptoms (e : value) :
  labelCell " · " (symptomLabels e) = VStr "-" <-> symptomLabels e = [].
Proof.
  unfold symptomLabels.
  destruct (JS.truthy (field e "dizziness")), (JS.truthy (field e "syncope")),
           (JS.truthy (field e "dyspnea")), (JS.truthy (field e "edema")),
           (JS.truthy (field e "bleeding"));
    split; intros H; try reflexivity; try discriminate H;
    vm_compute in H; discriminate H.
Qed.

Lemma labelCell_dash_meds (e : value) :
  labelCell ", " (medLabels e) = VStr "-" <-> medLabels e = [].
Proof.
  unfold medLabels.
  destruct (taken e "am" "multaq"), (taken e "am" "edoxaban"),
           (taken e "am" "bisoprolol"), (taken e "pm" "multaq");
    split; intros H; try reflexivity; try discriminate H;
    vm_compute in H; discriminate H.
Qed.

(** X5 (the history table, "latest first"): when the entries have ISO
    dates and the collation orders ISO dates as their characters do, the
    table has one row for each entry, the rows are in descending order of
    date, and each row shows the date, the pulse or a dash, the pressure or
    a dash, the symptoms reported and the medications ticked; the symptom
    cell and the medication cell are a dash exactly when there is nothing to
    list. *)
Theorem historyRows_latest_first :
  forall (localeCompare : string -> string -> Z) (o : obj),
    orders_iso_dates localeCompare ->
    Forall (fun e => iso_dated e = true) (Props.values o) ->
    exists sorted,
      Ui.historyRows localeCompare (VObj o) = Ok (map rowOf sorted)
      /\ Permutation (Props.values o) sorted
      /\ StronglySorted date_ge sorted
      /\ List.length (map rowOf sorted) = List.length o
      /\ (forall e,
             Ui.r_sx (rowOf e) = VStr "-" <-> symptomLabels e = [])
      /\ (forall e,
             Ui.r_meds (rowOf e) = VStr "-" <-> medLabels e = []).
Proof.
  intros localeCompare o Hlc Hiso.
  destruct (sort_desc_iso_dated localeCompare (Props.values o) Hlc Hiso)
    as (s & Hs & Hperm & Hiso' & Hsorted).
  exists s.
  split.
  { apply historyRows_sorted; [exact Hs |].
    eapply Forall_impl; [| exact Hiso'].
    intros e He. apply iso_dated_dated; exact He. }
  split; [exact Hperm |].
  split; [apply Sorted_date_ge_strongly; exact Hsorted |].
  split.
  { rewrite length_map, <- (Permutation_length Hperm).
    unfold Props.values. apply length_map. }
  split; [exact labelCell_dash_symptoms | exact labelCell_dash_meds].
Qed.

Lemma historyRows_latest_first_witness :
  orders_iso_dates Example.byCode
  /\ Forall (fun e => iso_dated e = true) (Props.values Example.store3)
  /\ exists sorted,
      Ui.historyRows Example.byCode (VObj Example.store3)
      = Ok (map rowOf sorted)
      /\ StronglySorted date_ge sorted.
Proof.
  assert (Hiso : Forall (fun e => iso_dated e = true)
                        (Props.values Example.store3))
    by (repeat constructor).
  split; [exact byCode_orders_iso_dates |]. split; [exact Hiso |].
  destruct (historyRows_latest_first Example.byCode Example.store3
              byCode_orders_iso_dates Hiso)
    as (sorted & H1 & _ & H2 & _).
  exists sorted. split; [exact H1 | exact H2].
Defined.

(** X6 (the charts and the history table over the same store): when the
    entries have ISO dates that are pairwise distinct and the collation
    orders ISO dates as their characters do, the history table lists the
    entries in exactly the reverse of the order in which the charts plot
    them. *)
Theorem history_reverses_charts :
  forall (localeCompare : string -> string -> Z) (o : obj),
    orders_iso_dates localeCompare ->
    Forall (fun e => iso_dated e = true) (Props.values o) ->
    NoDup (map date_of (Props.values o)) ->
    exists ascending,
      Permutation (Props.values o) ascending
      /\ StronglySorted date_le ascending
      /\ App.daysData localeCompare (VObj o) = Ok (map chartPoint ascending)
      /\ Ui.historyRows localeCompare (VObj o)
         = Ok (map rowOf (rev ascending)).
Proof.
  intros localeCompare o Hlc Hiso Hnd.
  destruct (charts_history_reverse localeCompare o Hlc Hiso Hnd)
    as (asc & H1 & H2 & _ & H3 & H4).
  exists asc. repeat split; assumption.
Qed.

Lemma history_reverses_charts_witness :
  orders_iso_dates Example.byCode
  /\ Forall (fun e => iso_dated e = true) (Props.values Example.store3)
  /\ NoDup (map date_of (Props.values Example.store3))
  /\ exists ascending,
      App.daysData Example.byCode (VObj Example.store3)
      = Ok (map chartPoint ascending)
      /\ Ui.historyRows Example.byCode (VObj Example.store3)
         = Ok (map rowOf (rev ascending)).
Proof.
  assert (Hiso : Forall (fun e => iso_dated e = true)
                        (Props.values Example.store3))
    by (repeat constructor).
  assert (Hnd : NoDup (map date_of (Props.values Example.store3)))
    by (change (NoDup ["2025-11-02"; "2025-10-31"; "2025-11-01"]);
        distinct_keys).
  split; [exact byCode_orders_iso_dates |]. split; [exact Hiso |].
  split; [exact Hnd |].
  destruct (history_reverses_charts Example.byCode Example.store3
              byCode_orders_iso_dates Hiso Hnd)
    as (asc & _ & _ & H1 & H2).
  exists asc. split; [exact H1 | exact H2].
Defined.

(** X7 (the handlers of the form and of the buttons, run one after the
    other): every run of handlers that returns takes a well-formed store to
    a well-formed store: every entry stays an object filed under its own
    date, with notes that are a string and a medication record with its
    morning and its evening part.  This holds whatever the clock and the
    random numbers give the demo data. *)
Theorem run_keeps_store_well_formed :
  forall (tz : Date.zone) (localeCompare : string -> string -> Z)
         (Math_sin Math_cos : Num.num -> Num.num) (todayStr : string)
         (actions : list Ui.Action) (st st' : App.State),
    wfState st ->
    Ui.run tz localeCompare Math_sin Math_cos todayStr actions st = Ok st' ->
    wfState st'.
Proof.
  intros tz localeCompare Math_sin Math_cos todayStr actions.
  induction actions as [| a rest IH]; simpl; intros st st' Hwf H.
  - injection H as <-. exact Hwf.
  - destruct (Ui.step tz localeCompare Math_sin Math_cos todayStr a st)
      as [st1 | err] eqn:E; simpl in H; [| discriminate H].
    apply (IH st1 st'); [| exact H].
    eapply step_wf; [exact Hwf | exact E].
Qed.

Lemma run_keeps_store_well_formed_witness :
  wfState (Example.state Example.store3 "2025-11-01")
  /\ match
       Ui.run Example.kst Example.byCode (fun x => x) (fun x => x)
         Example.today
         [ Ui.EditText Ui.Pulse "120"; Ui.ToggleMed Ui.AmMultaq true;
           Ui.SelectDate Example.today; Ui.ToggleSymptom Ui.Edema true;
           Ui.FillDemo (fun _ => Example.now) (fun _ => Num.zero);
           Ui.EditText Ui.Notes "ok"; Ui.ResetToday ]
         (Example.state Example.store3 "2025-11-01")
     with
     | Ok st' => wfState st'
     | Throw _ => False
     end.
Proof.
  split; [apply wfState_store3 |].
  destruct (Ui.run _ _ _ _ _ _ _) as [st' | err] eqn:E.
  - exact (run_keeps_store_well_formed _ _ _ _ _ _ _ st'
             (wfState_store3 "2025-11-01") E).
  - vm_compute in E. discriminate E.
Defined.

(** X8 (the handlers, on a store as the form, the toggles and the demo
    data write it, in a storage that takes the write).  The readings of the
    entries and the flags of their medication records are strings, numbers,
    booleans or [null], never objects, and the selected date is what a date
    input gives.  Then the date and tab selectors, the text inputs, the
    symptom and medication toggles and the reset return, and leave such a
    store again: a medication toggle, which reads [entry.meds.am] or
    [entry.meds.pm], finds its part.  The selectors write nothing and leave
    the entries alone; every other of these handlers saves the entries that
    it sets, which is its one write, and keeps the date and the tab.  The
    CSV export returns whenever the clock gives a date that prints, names
    the file after that date, and leaves the state as it is.  Where the
    storage refuses the write, [saveEntries] throws: that run is not
    covered. *)
Theorem handlers_return :
  forall (tz : Date.zone) (localeCompare : string -> string -> Z)
         (Math_sin Math_cos : Num.num -> Num.num) (todayStr : string)
         (st : App.State),
    typedState st ->
    dateInput (App.date st) = true ->
    (forall a, clockFree a = true ->
       exists st',
         Ui.step tz localeCompare Math_sin Math_cos todayStr a st = Ok st'
         /\ typedState st'
         /\ (writes a = true ->
             App.storage st'
             = App.saveEntries (App.entries st') (App.storage st)
             /\ App.date st' = App.date st /\ App.tab st' = App.tab st)
         /\ (writes a = false ->
             App.entries st' = App.entries st
             /\ App.storage st' = App.storage st))
    /\ (forall now today,
          App.fmtDate tz (Date.of_value now) = Ok today ->
          Ui.step tz localeCompare Math_sin Math_cos todayStr
            (Ui.ExportCSV now) st = Ok st
          /\ exists dl,
              App.exportCSV tz localeCompare (App.entries st) now = Ok dl
              /\ App.filename dl = ("afibcare_" ++ today ++ ".csv")%string).
Proof.
  intros tz localeCompare Math_sin Math_cos todayStr st Ht _.
  pose proof (typedState_wf st Ht) as Hwf. split.
  - intros a Ha.
    destruct (step_returns tz localeCompare Math_sin Math_cos todayStr a st
                Hwf Ha) as [st' Hst'].
    exists st'. split; [exact Hst' |].
    split; [eapply step_typed; [exact Ht | exact Hst'] |].
    eapply step_writes; exact Hst'.
  - intros now today Hnow.
    destruct Hwf as [o [Ho Hwf]].
    destruct (export_returns tz localeCompare o now today Hwf Hnow)
      as [dl [Hdl Hname]].
    split.
    + simpl. rewrite Ho, Hdl. reflexivity.
    + exists dl. rewrite Ho. split; [exact Hdl | exact Hname].
Qed.

Lemma handlers_return_witness :
  typedState (Example.state Example.store3 "2025-11-01")
  /\ dateInput "2025-11-01" = true
  /\ (exists st',
        Ui.step Example.kst Example.byCode (fun x => x) (fun x => x)
          Example.today (Ui.ToggleMed Ui.PmMultaq true)
          (Example.state Example.store3 "2025-11-01") = Ok st'
        /\ typedState st'
        /\ App.storage st' = App.saveEntries (App.entries st') [])
  /\ Ui.step Example.kst Example.byCode (fun x => x) (fun x => x)
       Example.today (Ui.ExportCSV Example.now)
       (Example.state Example.store3 "2025-11-01")
     = Ok (Example.state Example.store3 "2025-11-01").
Proof.
  pose proof (handlers_return Example.kst Example.byCode (fun x => x)
                (fun x => x) Example.today
                (Example.state Example.store3 "2025-11-01")
                (typedState_store3 "2025-11-01") eq_refl) as [H1 H2].
  split; [apply typedState_store3 |]. split; [reflexivity |]. split.
  - destruct (H1 (Ui.ToggleMed Ui.PmMultaq true) eq_refl)
      as (st' & Hst' & Ht' & Hw & _).
    exists st'. split; [exact Hst' |]. split; [exact Ht' |].
    exact (proj1 (Hw eq_refl)).
  - exact (proj1 (H2 Example.now Example.today eq_refl)).
Defined.

(** X9 (one rendering of the component).  On a store as the form, the
    toggles and the demo data write it, whose readings and medication flags
    are strings, numbers, booleans or [null], whose entries are filed under
    ISO dates, with a selected date that a date input gives and a collation
    that orders ISO dates as their characters do, the rendering returns,
    for every tab, and what it shows is determined: the check-in tab shows
    the form of the entry of the selected date (the stored one, or a fresh
    one), each input with the field it is bound to, each box ticked when
    its field is truthy, and the one alert box of that entry; the history
    tab shows the number of stored entries, the detail of that entry, and
    one row for each stored entry, latest day first; the chart tab gets one
    point for each stored entry, oldest day first; the education tab reads
    nothing, and any other tab value leaves the header alone.  The entry
    shown has itself readings and flags that are strings, numbers, booleans
    or [null]. *)
Theorem render_returns :
  forall (localeCompare : string -> string -> Z) (todayStr : string)
         (st : App.State) (o : obj),
    App.entries st = VObj o ->
    typedStore o ->
    Forall (fun e => iso_dated e = true) (Props.values o) ->
    orders_iso_dates localeCompare ->
    dateInput (App.date st) = true ->
    exists ascending : list value,
      Permutation (Props.values o) ascending
      /\ StronglySorted date_le ascending
      /\ Ui.render localeCompare todayStr st
         = Ok (viewOf (App.tab st) (App.date st)
                      (shown todayStr o (App.date st)) (List.length o)
                      ascending)
      /\ typedFields (shown todayStr o (App.date st)).
Proof.
  intros localeCompare todayStr st o Ho Ht Hiso Hlc _.
  destruct (render_viewOf localeCompare todayStr st o Ho
              (typedStore_wf o Ht) Hlc Hiso)
    as (asc & Hperm & Hsorted & Hrender).
  exists asc. split; [exact Hperm |]. split; [exact Hsorted |].
  split; [exact Hrender |].
  apply typedFields_shown; exact Ht.
Qed.

Lemma render_returns_witness :
  typedStore Example.store3
  /\ Forall (fun e => iso_dated e = true) (Props.values Example.store3)
  /\ orders_iso_dates Example.byCode
  /\ dateInput "2025-10-01" = true
  /\ exists ascending : list value,
      Permutation (Props.values Example.store3) ascending
      /\ StronglySorted date_le ascending
      /\ Ui.render Example.byCode Example.today
           (stateOf Example.store3 "2025-10-01" "기록 보기" [])
         = Ok (Ui.History 3
                 (detailOf (freshEntry Example.today "2025-10-01"))
                 (map rowOf (rev ascending))).
Proof.
  assert (Hiso : Forall (fun e => iso_dated e = true)
                   (Props.values Example.store3))
    by (repeat constructor).
  split; [exact typedStore_store3 |]. split; [exact Hiso |].
  split; [exact byCode_orders_iso_dates |]. split; [reflexivity |].
  destruct (render_returns Example.byCode Example.today
              (stateOf Example.store3 "2025-10-01" "기록 보기" [])
              Example.store3 eq_refl typedStore_store3 Hiso
              byCode_orders_iso_dates eq_refl)
    as (asc & Hperm & Hsorted & H & _).
  exists asc. split; [exact Hperm |]. split; [exact Hsorted | exact H].
Defined.

(** X10 (the [activate] handler of the cache worker): activation deletes
    every cache whose name is not [CACHE] and keeps the cache named [CACHE]
    with its content; a second activation changes nothing. *)
Theorem activate_keeps_current_cache :
  forall (Response : Type) (cs : SW.CacheStorage Response),
    (forall name c,
        In (name, c) (SW.activate Response cs)
        <-> name = SW.CACHE /\ In (name, c) cs)
    /\ (forall name,
          Props.lookup name (SW.activate Response cs)
          = if String.eqb name SW.CACHE then Props.lookup SW.CACHE cs
            else None)
    /\ SW.activate Response (SW.activate Response cs)
       = SW.activate Response cs.
Proof.
  intros Response cs. split; [| split].
  - intros name c. rewrite activate_filter, filter_In. simpl.
    rewrite String.eqb_eq. tauto.
  - intros name. rewrite activate_filter. apply lookup_filter_key.
  - rewrite !activate_filter. rewrite filter_twice.
    apply filter_ext. intros kv. apply andb_diag.
Qed.

(** X11 (the [install] handler of the cache worker): installation is
    fulfilled exactly when each of the three assets is fetched with an ok
    response, and is rejected with a TypeError otherwise.  Either way the
    caches with other names are as before, and in the cache named [CACHE]
    every request that is not an asset has the answer it had; when the
    installation is rejected, the cache named [CACHE] holds what it held
    (nothing, when it was not there). *)
Theorem install_all_or_nothing :
  forall (Response : Type) (ok : Response -> bool)
         (net : SW.Network Response) (cs : SW.CacheStorage Response),
    let cs' := fst (SW.install Response ok net cs) in
    let outcome := snd (SW.install Response ok net cs) in
    let before :=
      match Props.lookup SW.CACHE cs with Some c => c | None => [] end in
    (outcome = Ok tt \/ outcome = Throw TypeError)
    /\ (outcome = Ok tt <->
        forall url, In url SW.ASSETS ->
          exists r, net url = Some r /\ ok r = true)
    /\ (forall name, name <> SW.CACHE ->
          Props.lookup name cs' = Props.lookup name cs)
    /\ (exists after,
          Props.lookup SW.CACHE cs' = Some after
          /\ (forall url, ~ In url SW.ASSETS ->
                Props.lookup url after = Props.lookup url before)
          /\ (outcome = Throw TypeError -> after = before)).
Proof.
  intros Response ok net cs. cbv zeta. unfold SW.install.
  pose proof (open_lookup Response cs) as (Hc & Hother & Hbefore).
  cbv zeta in Hc, Hother, Hbefore.
  destruct (SW.open Response SW.CACHE cs) as [c cs1]. simpl in Hc, Hother, Hbefore.
  rewrite <- Hbefore.
  destruct (addAll_assets Response ok net c)
    as [(c' & Hadd & Hassets & Hrest) | (Hadd & url & Hin & Hfail)];
    rewrite Hadd; simpl.
  - split; [left; reflexivity |].
    split.
    { split; [| reflexivity]. intros _ url Hin.
      destruct (Hassets url Hin) as (r & H1 & H2 & _).
      exists r. split; assumption. }
    split.
    { intros name Hne. rewrite lookup_replace_other by exact Hne.
      apply Hother; exact Hne. }
    exists c'. split.
    { apply lookup_replace_same. rewrite Hc. discriminate. }
    split; [exact Hrest | discriminate].
  - split; [right; reflexivity |].
    split.
    { split; [discriminate |]. intros Hall.
      destruct (Hall url Hin) as (r & H1 & H2).
      destruct Hfail as [Hnone | (r' & H1' & H2')]; [congruence |].
      rewrite H1 in H1'. injection H1' as <-. congruence. }
    split; [exact Hother |].
    exists c. split; [exact Hc |]. split; reflexivity.
Qed.

(** X12 (the cache worker, from installation to the [fetch] handler): when
    the cache storage has distinct names and the installation is fulfilled,
    then after activation every asset is answered with the ok response that
    the installation fetched, whatever the network does by then, even when
    it fails. *)
Theorem installed_assets_served_offline :
  forall (Response : Type) (ok : Response -> bool)
         (net : SW.Network Response) (cs cs' : SW.CacheStorage Response),
    NoDup (Props.keys cs) ->
    SW.install Response ok net cs = (cs', Ok tt) ->
    forall url, In url SW.ASSETS ->
      exists r,
        net url = Some r /\ ok r = true
        /\ forall net' : SW.Network Response,
             SW.respond Response net' (SW.activate Response cs') url = Ok r.
Proof.
  intros Response ok net cs cs' Hnd Hinst url Hin.
  unfold SW.install in Hinst.
  pose proof (open_lookup Response cs) as (Hc & _ & _).
  pose proof (open_NoDup Response cs Hnd) as Hnd1.
  cbv zeta in Hc.
  destruct (SW.open Response SW.CACHE cs) as [c cs1]. simpl in Hc, Hnd1.
  destruct (addAll_assets Response ok net c)
    as [(c' & Hadd & Hassets & _) | (Hadd & _)];
    rewrite Hadd in Hinst; [| discriminate Hinst].
  injection Hinst as <-.
  destruct (Hassets url Hin) as (r & H1 & H2 & H3).
  exists r. split; [exact H1 |]. split; [exact H2 |].
  intros net'. unfold SW.respond.
  rewrite match_all_activate
    by (rewrite keys_replace; exact Hnd1).
  rewrite lookup_replace_same by (rewrite Hc; discriminate).
  rewrite H3. reflexivity.
Qed.

Lemma installed_assets_served_offline_witness :
  NoDup (Props.keys [("old", [("/", 404)])])
  /\ exists cs',
      SW.install nat (Nat.eqb 200) (fun _ => Some 200)
        [("old", [("/", 404)])] = (cs', Ok tt)
      /\ SW.respond nat (fun _ => None) cs' "/" = Ok 404
      /\ SW.respond nat (fun _ => None) (SW.activate nat cs') "/" = Ok 200.
Proof.
  assert (Hnd : NoDup (Props.keys [("old", [("/", 404)])]))
    by distinct_keys.
  split; [exact Hnd |].
  eexists. split; [reflexivity |]. split; [reflexivity |].
  destruct (installed_assets_served_offline nat (Nat.eqb 200)
              (fun _ => Some 200) [("old", [("/", 404)])] _ Hnd eq_refl
              "/" (or_introl eq_refl))
    as (r & Hr & _ & Hserve).
  injection Hr as <-. apply Hserve.
Defined.

(** X13 (the start of the component: the first state, the first rendering
    and the effect, in a storage that takes the write).  What [loadEntries]
    reads is a store as the form, the toggles and the demo data write it,
    with readings and medication flags that are strings, numbers, booleans
    or [null]: so it is when nothing is stored, the store being empty then.
    Today's date is an ISO date.  Then the component starts, on today's
    date and on the check-in tab; afterwards the store is such a store
    again and holds an entry for today, and every other date holds what was
    loaded.  The effect writes once, the new store, when today's entry was
    missing, and nothing when it was there.  When the loaded store is plain
    and today's date is no array index, a reload would start from the same
    entries.  Where the storage refuses the write of the effect,
    [saveEntries] throws: that start is not covered. *)
Theorem start_ensures_today :
  forall (localeCompare : string -> string -> Z) (todayStr : string)
         (ls : Storage.t) (o : obj),
    App.loadEntries ls = Ok (VObj o) ->
    typedStore o ->
    iso_date todayStr = true ->
    (Props.lookup App.STORAGE_KEY ls = None -> o = [])
    /\ exists st o',
        Ui.start localeCompare todayStr ls = Ok st
        /\ App.entries st = VObj o'
        /\ typedStore o'
        /\ Props.lookup todayStr o' = Some (shown todayStr o todayStr)
        /\ JS.truthy (shown todayStr o todayStr) = true
        /\ (forall k, k <> todayStr -> Props.lookup k o' = Props.lookup k o)
        /\ App.date st = todayStr
        /\ App.tab st = "오늘 체크"
        /\ App.storage st
           = (if JS.truthy (field (VObj o) todayStr) then ls
              else App.saveEntries (VObj o') ls)
        /\ (plain (VObj o) = true -> keyLike todayStr = true ->
            plain (VObj o') = true /\ persisted st).
Proof.
  intros localeCompare todayStr ls o Hload Ht _.
  pose proof (typedStore_wf o Ht) as Hwf. split.
  - intros Hnone. rewrite loadEntries_cases, Hnone in Hload.
    injection Hload as <-. reflexivity.
  - unfold Ui.start, App.init. rewrite Hload. cbn [bind].
    set (st0 := {| App.entries := VObj o; App.date := todayStr;
                   App.tab := "오늘 체크"; App.storage := ls |}).
    destruct (render_wf localeCompare todayStr st0 o eq_refl Hwf)
      as (f & d & asc & desc & _ & _ & Hrender & _).
    rewrite Hrender. cbn [bind].
    destruct (ensureToday_effect todayStr o todayStr "오늘 체크" ls
                (proj1 Hwf))
      as (st' & o' & H1 & H2 & Hnd' & H3 & H4 & H5 & H6 & H7 & H8 & H9 & _).
    exists st', o'.
    split; [exact H1 |]. split; [exact H2 |].
    split.
    { split.
      - exact Hnd'.
      - intros k e Hk. destruct (string_dec k todayStr) as [-> | Hne].
        + rewrite H3 in Hk. injection Hk as <-.
          split; [apply wfEntry_shown; exact Hwf
                 | apply typedFields_shown; exact Ht].
        + rewrite H4 in Hk by exact Hne. apply Ht; exact Hk. }
    split; [exact H3 |].
    split.
    { pose proof (wfEntry_shown todayStr o todayStr Hwf)
        as (eo & ? & ? & -> & _). reflexivity. }
    split; [exact H4 |]. split; [exact H5 |]. split; [exact H6 |].
    split.
    { destruct (JS.truthy (field (VObj o) todayStr)) eqn:Et.
      - rewrite (H7 eq_refl). reflexivity.
      - exact (H8 eq_refl). }
    intros Hp Hk.
    destruct (JS.truthy (field (VObj o) todayStr)) eqn:Et.
    + rewrite (H7 eq_refl) in H2 |- *. injection H2 as <-.
      split; [exact Hp | exact Hload].
    + assert (Hp' : plain (VObj o') = true).
      { rewrite (H9 eq_refl), (spread_plain o Hp).
        apply plain_set; [exact Hp | apply plain_fresh | exact Hk]. }
      split; [exact Hp' |].
      unfold persisted. rewrite (H8 eq_refl), H2.
      apply save_load; exact Hp'.
Qed.

Lemma start_ensures_today_witness :
  App.loadEntries [] = Ok (VObj [])
  /\ typedStore []
  /\ iso_date Example.today = true
  /\ exists st o',
      Ui.start Example.byCode Example.today [] = Ok st
      /\ App.entries st = VObj o'
      /\ Props.lookup Example.today o'
         = Some (freshEntry Example.today Example.today)
      /\ App.storage st = App.saveEntries (VObj o') []
      /\ persisted st.
Proof.
  split; [reflexivity |]. split; [exact typedStore_nil |].
  split; [reflexivity |].
  destruct (start_ensures_today Example.byCode Example.today [] []
              eq_refl typedStore_nil eq_refl)
    as (_ & st & o' & H1 & H2 & _ & H3 & _ & _ & _ & _ & H4 & H5).
  exists st, o'. split; [exact H1 |]. split; [exact H2 |].
  split; [exact H3 |]. split; [exact H4 |].
  exact (proj2 (H5 eq_refl eq_refl)).
Defined.

(** X14 ([fmtDate]): for dates whose local day lies in the four-digit
    years, [fmtDate] returns a string of the shape YYYY-MM-DD, and the
    strings of two dates compare, character by character, as their local
    days do: an earlier day gives a smaller string, the same day the same
    string.  An invalid date, and a date whose shifted time value is out of
    range, make [fmtDate] throw a RangeError. *)
Theorem fmtDate_orders_days :
  forall (tz : Date.zone) (t1 t2 : Z),
    (firstDay <= Date.Day (Date.LocalTime tz t1) <= lastDay)%Z ->
    (firstDay <= Date.Day (Date.LocalTime tz t2) <= lastDay)%Z ->
    (exists s1 s2,
        App.fmtDate tz (Some t1) = Ok s1
        /\ App.fmtDate tz (Some t2) = Ok s2
        /\ iso_date s1 = true /\ iso_date s2 = true
        /\ String.compare s1 s2
           = (Date.Day (Date.LocalTime tz t1)
              ?= Date.Day (Date.LocalTime tz t2))%Z
        /\ (s1 = s2 <->
            Date.Day (Date.LocalTime tz t1) = Date.Day (Date.LocalTime tz t2)))
    /\ App.fmtDate tz None = Throw RangeError
    /\ (forall tv,
          (maxTime < Z.abs (Date.LocalTime tz tv))%Z ->
          App.fmtDate tz (Some tv) = Throw RangeError).
Proof.
  intros tz t1 t2 H1 H2. split; [| split].
  - exists (isoDay (Date.Day (Date.LocalTime tz t1))),
           (isoDay (Date.Day (Date.LocalTime tz t2))).
    split; [apply fmtDate_local_day; exact H1 |].
    split; [apply fmtDate_local_day; exact H2 |].
    split; [apply iso_date_isoDay; exact H1 |].
    split; [apply iso_date_isoDay; exact H2 |].
    split; [apply compare_isoDay; assumption |].
    split; [apply isoDay_inj; assumption | intros ->; reflexivity].
  - reflexivity.
  - intros tv Hbig. unfold App.fmtDate, Date.of_value, Date.TimeClip.
    change (tv - Date.tzOffset tz tv * 60000)%Z with (Date.LocalTime tz tv).
    destruct (Z.leb_spec (Z.abs (Date.LocalTime tz tv)) 8640000000000000)
      as [Hle | _]; [unfold maxTime in Hbig; lia | reflexivity].
Qed.

Lemma fmtDate_orders_days_witness :
  (firstDay <= Date.Day (Date.LocalTime Example.kst Example.now) <= lastDay)%Z
  /\ (firstDay
      <= Date.Day (Date.LocalTime Example.kst (Example.now + 86400000))
      <= lastDay)%Z
  /\ exists s1 s2,
      App.fmtDate Example.kst (Some Example.now) = Ok s1
      /\ App.fmtDate Example.kst (Some (Example.now + 86400000)%Z) = Ok s2
      /\ String.compare s1 s2 = Lt.
Proof.
  assert (H1 : (firstDay
                <= Date.Day (Date.LocalTime Example.kst Example.now)
                <= lastDay)%Z) by (vm_compute; split; discriminate).
  assert (H2 : (firstDay
                <= Date.Day (Date.LocalTime Example.kst
                               (Example.now + 86400000))
                <= lastDay)%Z) by (vm_compute; split; discriminate).
  split; [exact H1 |]. split; [exact H2 |].
  destruct (fmtDate_orders_days Example.kst Example.now
              (Example.now + 86400000)%Z H1 H2)
    as ((s1 & s2 & E1 & E2 & _ & _ & Hc & _) & _).
  exists s1, s2. split; [exact E1 |]. split; [exact E2 |].
  rewrite Hc. reflexivity.
Defined.

(** X15 ([saveEntries], then [loadEntries]): a plain store, one of strings,
    booleans and nested objects with distinct keys that are no array
    indices, is read back from the storage exactly as it was saved; saving
    touches no other key of the storage. *)
Theorem save_then_load :
  forall (o : obj) (ls : Storage.t),
    plain (VObj o) = true ->
    App.loadEntries (App.saveEntries (VObj o) ls) = Ok (VObj o)
    /\ (exists text,
          JSON.stringify (VObj o) = Some text
          /\ JSON.parse text = Ok (VObj o)
          /\ Storage.getItem App.STORAGE_KEY (App.saveEntries (VObj o) ls)
             = VStr text)
    /\ (forall k, k <> App.STORAGE_KEY ->
          Props.lookup k (App.saveEntries (VObj o) ls) = Props.lookup k ls).
Proof.
  intros o ls Hp. split; [apply save_load; exact Hp |]. split.
  - destruct (parse_stringify_plain (VObj o) Hp) as (text & Hs & Hparse).
    exists text. split; [exact Hs |]. split; [exact Hparse |].
    apply saved_text; exact Hs.
  - intros k Hk. apply save_other_keys; exact Hk.
Qed.

Lemma save_then_load_witness :
  plain (VObj Example.store3) = true
  /\ App.loadEntries
       (App.saveEntries (VObj Example.store3) [("theme", "dark")])
     = Ok (VObj Example.store3)
  /\ Props.lookup "theme"
       (App.saveEntries (VObj Example.store3) [("theme", "dark")])
     = Some "dark".
Proof.
  split; [reflexivity |].
  destruct (save_then_load Example.store3 [("theme", "dark")] eq_refl)
    as (H1 & _ & H2).
  split; [exact H1 |]. rewrite H2 by discriminate. reflexivity.
Defined.

(** X16 (the handlers of the form, and what a reload would read): from a
    state whose store is well formed and plain and is what the storage
    holds, every run of form handlers that returns ends in a state whose
    store is again what the storage holds: [loadEntries] on the storage
    gives exactly the entries of the state.  The form handlers are the date
    and tab selectors (with dates that are no array indices), the text
    inputs, the symptom and medication toggles, the export and the reset;
    the demo data, which holds numbers, is left out. *)
Theorem reload_restores_entries :
  forall (tz : Date.zone) (localeCompare : string -> string -> Z)
         (Math_sin Math_cos : Num.num -> Num.num) (todayStr : string)
         (actions : list Ui.Action) (st st' : App.State),
    wfState st -> plain (App.entries st) = true ->
    keyLike (App.date st) = true -> persisted st ->
    forallb formAction actions = true ->
    Ui.run tz localeCompare Math_sin Math_cos todayStr actions st = Ok st' ->
    App.loadEntries (App.storage st') = Ok (App.entries st')
    /\ plain (App.entries st') = true.
Proof.
  intros tz localeCompare Math_sin Math_cos todayStr actions.
  induction actions as [| a rest IH]; simpl;
    intros st st' Hwf Hp Hd Hpers Hall H.
  - injection H as <-. split; [exact Hpers | exact Hp].
  - apply andb_true_iff in Hall. destruct Hall as [Ha Hrest].
    destruct (Ui.step tz localeCompare Math_sin Math_cos todayStr a st)
      as [st1 | err] eqn:E; simpl in H; [| discriminate H].
    destruct (step_plain tz localeCompare Math_sin Math_cos todayStr a st st1
                Hwf Hp Hd Ha E) as (Hp1 & Hd1 & Hpers1).
    apply (IH st1 st'); try assumption.
    + eapply step_wf; [exact Hwf | exact E].
    + apply Hpers1; exact Hpers.
Qed.

Lemma reload_restores_entries_witness :
  wfState (stateOf [] Example.today "오늘 체크" [])
  /\ persisted (stateOf [] Example.today "오늘 체크" [])
  /\ match
       Ui.run Example.kst Example.byCode (fun x => x) (fun x => x)
         Example.today
         [ Ui.EditText Ui.Pulse "72"; Ui.ToggleMed Ui.AmEdoxaban true;
           Ui.SelectDate "2025-11-04"; Ui.EditText Ui.Notes "a, b";
           Ui.ToggleSymptom Ui.Edema true; Ui.SelectDate Example.today;
           Ui.ResetToday ]
         (stateOf [] Example.today "오늘 체크" [])
     with
     | Ok st' => App.loadEntries (App.storage st') = Ok (App.entries st')
     | Throw _ => False
     end.
Proof.
  assert (Hwf : wfState (stateOf [] Example.today "오늘 체크" []))
    by (exists []; split; [reflexivity | exact wfStore_nil]).
  split; [exact Hwf |]. split; [reflexivity |].
  destruct (Ui.run _ _ _ _ _ _ _) as [st' | err] eqn:E.
  - refine (proj1 (reload_restores_entries _ _ _ _ _ _ _ st' Hwf eq_refl
                     eq_refl eq_refl _ E)).
    reflexivity.
  - vm_compute in E. discriminate E.
Defined.

(** X17 ([updateEntry] with the patch of one field, as the inputs of the
    form call it): on a well-formed store the edit returns; the form then
    shows the new value in that field and what it showed before in every
    other field.  A second edit of the same field overrides the first, and
    edits of two different fields give the same form in either order. *)
Theorem edit_changes_one_field :
  forall (todayStr : string) (o : obj) (d tb : string) (ls : Storage.t)
         (k : string) (v : value),
    wfStore o ->
    let edit k v st := App.updateEntry todayStr (VObj [(k, v)]) st in
    let st := stateOf o d tb ls in
    exists st1 e1,
      edit k v st = Ok st1
      /\ App.entry todayStr st1 = Ok e1
      /\ field e1 k = v
      /\ (forall x, x <> k -> field e1 x = field (shown todayStr o d) x)
      /\ (forall v2, exists st2 e2,
             edit k v2 st1 = Ok st2
             /\ App.entry todayStr st2 = Ok e2
             /\ field e2 k = v2
             /\ (forall x, x <> k ->
                   field e2 x = field (shown todayStr o d) x))
      /\ (forall k2 v2, k2 <> k ->
            exists s12 s21 e12 e21,
              (s <- edit k v st ;; edit k2 v2 s) = Ok s12
              /\ (s <- edit k2 v2 st ;; edit k v s) = Ok s21
              /\ App.entry todayStr s12 = Ok e12
              /\ App.entry todayStr s21 = Ok e21
              /\ forall x, field e12 x = field e21 x).
Proof.
  intros todayStr o d tb ls k v Hwf edit st. unfold edit, st.
  destruct (wfEntry_shown todayStr o d Hwf)
    as (eo & notes & meds & Hshown & Hnd & _).
  destruct (edit_entry todayStr o d tb ls eo k v Hshown Hnd)
    as (st1 & o1 & e1 & H1 & -> & Ho1 & Hs1 & Hnd1 & Hl1).
  exists (stateOf o1 d tb (App.saveEntries (VObj o1) ls)), (VObj e1).
  split; [exact H1 |].
  split; [rewrite entry_shown, Hs1; reflexivity |].
  split; [rewrite field_obj, Hl1, String.eqb_refl; reflexivity |].
  split.
  { intros x Hx. rewrite Hshown, !field_obj, Hl1.
    apply (proj2 (String.eqb_neq _ _)) in Hx. rewrite Hx. reflexivity. }
  split.
  - intros v2.
    destruct (edit_entry todayStr o1 d tb (App.saveEntries (VObj o1) ls)
                e1 k v2 Hs1 Hnd1)
      as (st2 & o2 & e2 & H2 & -> & _ & Hs2 & _ & Hl2).
    eexists _, (VObj e2).
    split; [exact H2 |].
    split; [rewrite entry_shown, Hs2; reflexivity |].
    split; [rewrite field_obj, Hl2, String.eqb_refl; reflexivity |].
    intros x Hx. rewrite Hshown, !field_obj, Hl2, Hl1.
    apply (proj2 (String.eqb_neq _ _)) in Hx. rewrite Hx. reflexivity.
  - intros k2 v2 Hk.
    destruct (edit_entry todayStr o1 d tb (App.saveEntries (VObj o1) ls)
                e1 k2 v2 Hs1 Hnd1)
      as (s12 & o12 & e12 & H12 & -> & _ & Hs12 & _ & Hl12).
    destruct (edit_entry todayStr o d tb ls eo k2 v2 Hshown Hnd)
      as (st2 & o2 & e2 & H2 & -> & _ & Hs2 & Hnd2 & Hl2).
    destruct (edit_entry todayStr o2 d tb (App.saveEntries (VObj o2) ls)
                e2 k v Hs2 Hnd2)
      as (s21 & o21 & e21 & H21 & -> & _ & Hs21 & _ & Hl21).
    eexists _, _, (VObj e12), (VObj e21).
    split; [rewrite H1; exact H12 |].
    split; [rewrite H2; exact H21 |].
    split; [rewrite entry_shown, Hs12; reflexivity |].
    split; [rewrite entry_shown, Hs21; reflexivity |].
    intros x. rewrite !field_obj, Hl12, Hl21, Hl1, Hl2.
    destruct (String.eqb_spec x k2) as [-> | _]; [| reflexivity].
    apply (proj2 (String.eqb_neq _ _)) in Hk. rewrite Hk. reflexivity.
Qed.

Lemma edit_changes_one_field_witness :
  wfStore Example.store3
  /\ exists st1 e1,
      App.updateEntry Example.today (VObj [("pulse", VStr "88")])
        (stateOf Example.store3 "2025-11-02" "오늘 체크" []) = Ok st1
      /\ App.entry Example.today st1 = Ok e1
      /\ field e1 "pulse" = VStr "88"
      /\ field e1 "fatigue" = VStr "0".
Proof.
  split; [exact wfStore_store3 |].
  destruct (edit_changes_one_field Example.today Example.store3 "2025-11-02"
              "오늘 체크" [] "pulse" (VStr "88") wfStore_store3)
    as (st1 & e1 & H1 & H2 & H3 & H4 & _).
  exists st1, e1. split; [exact H1 |]. split; [exact H2 |].
  split; [exact H3 |]. rewrite H4 by discriminate. reflexivity.
Defined.

(** X18 ([fillDemo], then the charts, the history table and the CSV
    export): in a time zone where local times stay on their calendar day,
    with a clock that stays on the local day [D] and a collation that orders
    ISO dates as their characters do, the demo data fill the store with the
    twenty-eight days up to [D]; the charts then plot these days oldest
    first, their labels the months and days, the history table lists them
    latest first, and the CSV export has a header and twenty-eight rows in
    the order of the charts.  The store is well formed, so every tab
    renders. *)
Theorem fillDemo_views :
  forall (tz : Date.zone) (localeCompare : string -> string -> Z)
         (Math_sin Math_cos : Num.num -> Num.num) (todayStr : string)
         (clock : nat -> Z) (random : nat -> Num.num) (D : Z)
         (st : App.State),
    civil_zone tz -> reads_on_day tz clock 28 D ->
    (firstDay + 27 <= D <= lastDay)%Z ->
    orders_iso_dates localeCompare ->
    exists st' ascending,
      App.fillDemo tz Math_sin Math_cos todayStr clock random st = Ok st'
      /\ wfState st'
      /\ map date_of ascending = daysUpTo 28 D
      /\ List.length ascending = 28
      /\ App.daysData localeCompare (App.entries st')
         = Ok (map chartPoint ascending)
      /\ map (fun e => field (chartPoint e) "date") ascending
         = map (fun s => VStr (Str.slice 5 s)) (daysUpTo 28 D)
      /\ Ui.historyRows localeCompare (App.entries st')
         = Ok (map rowOf (rev ascending))
      /\ App.csvRows localeCompare (App.entries st')
         = Ok (App.csvHeader :: map csvFields ascending).
Proof.
  intros tz localeCompare Math_sin Math_cos todayStr clock random D st
         Hcivil Hclock HD Hlc.
  destruct (demo_store tz Math_sin Math_cos todayStr clock random D
              Hcivil Hclock HD)
    as (store & Hloop & Hwf & Hperm & Hiso).
  destruct (demo_views localeCompare D store Hlc HD Hwf Hperm Hiso)
    as (asc & Hdates & _ & Hdays & Hrows & Hcsv).
  unfold App.fillDemo. change (Z.to_nat 28) with 28%nat.
  rewrite Hloop. cbn [bind].
  eexists _, asc. split; [reflexivity |].
  cbn [App.entries App.with_entries].
  split; [exists store; split; [reflexivity | exact Hwf] |].
  split; [exact Hdates |].
  split.
  { rewrite <- (length_map date_of), Hdates. unfold daysUpTo.
    rewrite length_map, length_seq. reflexivity. }
  split; [exact Hdays |].
  split.
  { rewrite <- Hdates, map_map. reflexivity. }
  split; [exact Hrows | exact Hcsv].
Qed.

Lemma fillDemo_views_witness :
  civil_zone Example.kst
  /\ reads_on_day Example.kst (fun _ => Example.now) 28 20395
  /\ (firstDay + 27 <= 20395 <= lastDay)%Z
  /\ orders_iso_dates Example.byCode
  /\ exists st' ascending,
      App.fillDemo Example.kst (fun x => x) (fun x => x) Example.today
        (fun _ => Example.now) (fun _ => Num.zero)
        (Example.state [] Example.today) = Ok st'
      /\ map date_of ascending = daysUpTo 28 20395
      /\ App.daysData Example.byCode (App.entries st')
         = Ok (map chartPoint ascending).
Proof.
  assert (Hclock : reads_on_day Example.kst (fun _ => Example.now) 28 20395).
  { intros k _. split; [vm_compute; discriminate | reflexivity]. }
  assert (Hdays : (firstDay + 27 <= 20395 <= lastDay)%Z).
  { unfold firstDay, lastDay. lia. }
  split; [exact kst_civil |]. split; [exact Hclock |]. split; [exact Hdays |].
  split; [exact byCode_orders_iso_dates |].
  destruct (fillDemo_views Example.kst Example.byCode (fun x => x)
              (fun x => x) Example.today (fun _ => Example.now)
              (fun _ => Num.zero) 20395 (Example.state [] Example.today)
              kst_civil Hclock Hdays byCode_orders_iso_dates)
    as (st' & asc & H1 & _ & H2 & _ & H3 & _).
  exists st', asc. split; [exact H1 |]. split; [exact H2 | exact H3].
Defined.

(** X19 (the handlers and the browser storage): whatever the state, a run
    of handlers that returns leaves every key of the storage other than
    [STORAGE_KEY] exactly as it was: the component writes its own key and
    nothing else. *)
Theorem run_writes_only_its_key :
  forall (tz : Date.zone) (localeCompare : string -> string -> Z)
         (Math_sin Math_cos : Num.num -> Num.num) (todayStr : string)
         (actions : list Ui.Action) (st st' : App.State) (k : string),
    Ui.run tz localeCompare Math_sin Math_cos todayStr actions st = Ok st' ->
    k <> App.STORAGE_KEY ->
    Props.lookup k (App.storage st') = Props.lookup k (App.storage st).
Proof.
  intros tz localeCompare Math_sin Math_cos todayStr actions.
  induction actions as [| a rest IH]; simpl; intros st st' k H Hk.
  - injection H as <-. reflexivity.
  - destruct (Ui.step tz localeCompare Math_sin Math_cos todayStr a st)
      as [st1 | err] eqn:E; simpl in H; [| discriminate H].
    rewrite (IH st1 st' k H Hk).
    eapply step_other_keys; eassumption.
Qed.

Lemma run_writes_only_its_key_witness :
  match
    Ui.run Example.kst Example.byCode (fun x => x) (fun x => x)
      Example.today
      [ Ui.EditText Ui.Pulse "72"; Ui.ResetToday;
        Ui.ToggleMed Ui.PmMultaq true ]
      (stateOf Example.store3 "2025-11-01" "오늘 체크" [("theme", "dark")])
  with
  | Ok st' => Props.lookup "theme" (App.storage st') = Some "dark"
  | Throw _ => False
  end.
Proof.
  destruct (Ui.run _ _ _ _ _ _ _) as [st' | err] eqn:E.
  - refine (run_writes_only_its_key _ _ _ _ _ _ _ st' "theme" E _).
    discriminate.
  - vm_compute in E. discriminate E.
Defined.

